(** * BATS Chi-X Europe PITCH parsers: a shallow embedding

    Two parsers are embedded from the Python 3 sources:
    - [Direct] : the line-delimited text feed, [bats/parser.py];
    - [Multicast] : the sequenced binary feed, [batsmc/parser.py].

    Python values are embedded with the distinctions the code depends on:
    a [bytes] object is a list of bytes, a [str] object a list of code
    points, and the two never compare equal (so a [bytes] key never hits a
    dictionary keyed by [str]).  Exceptions are explicit: fallible code
    returns a [result], and code that reads or writes attributes of the
    parser object runs in a small state-and-error monad over the session. *)

From Stdlib Require Import ZArith NArith QArith List String Ascii Lia Bool.
From Stdlib.Strings Require Import Byte.
From stdpp Require Import gmap strings list fin_maps.

Open Scope N_scope.

(** ** Python values *)

Module Py.

(** A [bytes] object. *)
Definition bytes := list byte.

(** A [str] object: its code points. *)
Definition str := list N.

(** The exceptions the parsers can meet.  All are subclasses of
    [Exception], so [except Exception] catches each of them. *)
Inductive pyexn :=
| KeyError (key : string)
| IndexError
| ValueError
| TypeError
| AttributeError (attr : string)
| StructError
| UnicodeDecodeError
| OtherError (what : string).

Inductive result (A : Type) :=
| Ok (a : A)
| Raise (e : pyexn).
Arguments Ok {A} a.
Arguments Raise {A} e.

Definition rbind {A B} (r : result A) (k : A -> result B) : result B :=
  match r with Ok a => k a | Raise e => Raise e end.

(** [l[a:b]] for [0 <= a], [0 <= b]: slicing clips at the end of [l] and is
    empty when [b <= a]; it never raises. *)
Definition slice {A} (a b : nat) (l : list A) : list A :=
  firstn (b - a) (skipn a l).

(** [l[i]] for [0 <= i]. *)
Definition index {A} (l : list A) (i : nat) : result A :=
  match nth_error l i with Some x => Ok x | None => Raise IndexError end.

(** [s.split(sep)] for a one-element separator. *)
Fixpoint split_on {A} (eqb : A -> A -> bool) (sep : A) (s : list A)
  : list (list A) :=
  match s with
  | [] => [[]]
  | c :: rest =>
      if eqb c sep then [] :: split_on eqb sep rest
      else match split_on eqb sep rest with
           | [] => [[c]]
           | w :: ws => (c :: w) :: ws
           end
  end.

(** The code points of an ASCII literal. *)
Definition lit (s : string) : str :=
  map (fun b => Byte.to_N b) (list_byte_of_string s).

Definition bytes_lit (s : string) : bytes := list_byte_of_string s.

(** A key handed to [dict.get]: the dictionaries of the parsers are keyed by
    one-character [str] literals (or, once, by [bytes] literals), and are
    looked up with a [bytes] slice, a [str] slice or a [chr] result. *)
Inductive pykey :=
| KBytes (b : bytes)
| KStr (s : str).

Fixpoint assoc_ascii {V} (c : N) (table : list (ascii * V)) : option V :=
  match table with
  | [] => None
  | (k, v) :: rest => if N_of_ascii k =? c then Some v else assoc_ascii c rest
  end.

(** [{"k": v, ...}.get(key)] for a dictionary keyed by one-character [str]
    literals: [None] unless the key is a [str] of exactly that character.
    A [bytes] key is never equal to a [str] key. *)
Definition str_table_get {V} (table : list (ascii * V)) (key : pykey)
  : option V :=
  match key with
  | KStr [c] => assoc_ascii c table
  | KStr _ => None
  | KBytes _ => None
  end.

(** [{b"k": v, ...}.get(key)] for a dictionary keyed by one-byte [bytes]
    literals. *)
Definition bytes_table_get {V} (table : list (ascii * V)) (key : pykey)
  : option V :=
  match key with
  | KBytes [b] => assoc_ascii (Byte.to_N b) table
  | KBytes _ => None
  | KStr _ => None
  end.

(** An argument of [chr]: the flag decoders are handed either an [int]
    (indexing a [bytes] object) or a one-character [str] (indexing a
    [str]). *)
Inductive code :=
| CInt (n : N)
| CStr (s : str).

(** [chr(x)]: the one-character string of an [int] in range; [TypeError] on
    a [str]. *)
Definition chr (x : code) : result str :=
  match x with
  | CInt n => if n <? 1114112 then Ok [n] else Raise ValueError
  | CStr _ => Raise TypeError
  end.

(** *** [struct.unpack] in native mode *)

Inductive byteorder := LittleEndian | BigEndian.

Fixpoint le_uint (bs : bytes) : N :=
  match bs with
  | [] => 0
  | b :: rest => Byte.to_N b + 256 * le_uint rest
  end.

(** One unsigned field of [w] bytes: [struct.error] unless the buffer has
    exactly [w] bytes. *)
Definition unpack_uint (order : byteorder) (w : nat) (bs : bytes)
  : result N :=
  if Nat.eqb (length bs) w
  then Ok (le_uint (match order with
                    | LittleEndian => bs
                    | BigEndian => rev bs
                    end))
  else Raise StructError.

(** [unpack("BB", bs)]. *)
Definition unpack_BB (bs : bytes) : result (N * N) :=
  match bs with
  | [a; b] => Ok (Byte.to_N a, Byte.to_N b)
  | _ => Raise StructError
  end.

(** [unpack("HBBI", bs)]: with native alignment the four fields sit at
    offsets 0, 2, 3 and 4 and the buffer must have 8 bytes. *)
Definition unpack_HBBI (order : byteorder) (bs : bytes)
  : result (N * N * N * N) :=
  if Nat.eqb (length bs) 8
  then rbind (unpack_uint order 2 (slice 0 2 bs)) (fun h =>
       rbind (unpack_uint order 1 (slice 2 3 bs)) (fun b1 =>
       rbind (unpack_uint order 1 (slice 3 4 bs)) (fun b2 =>
       rbind (unpack_uint order 4 (slice 4 8 bs)) (fun i =>
       Ok (h, b1, b2, i)))))
  else Raise StructError.

(** ["%02x" % b]. *)
Definition hex_digit (n : N) : ascii :=
  match n with
  | 0 => "0" | 1 => "1" | 2 => "2" | 3 => "3" | 4 => "4" | 5 => "5"
  | 6 => "6" | 7 => "7" | 8 => "8" | 9 => "9" | 10 => "a" | 11 => "b"
  | 12 => "c" | 13 => "d" | 14 => "e" | _ => "f"
  end%char.

Definition hex2 (b : byte) : string :=
  String (hex_digit (Byte.to_N b / 16))
    (String (hex_digit (Byte.to_N b mod 16)) EmptyString).

(** [" ".join(parts)]. *)
Fixpoint join_space (parts : list string) : string :=
  match parts with
  | [] => EmptyString
  | [p] => p
  | p :: rest => (p ++ " " ++ join_space rest)%string
  end.

End Py.

(** ** The session monad

    The parser object is mutated while a message is decoded, and what it
    holds when an exception is raised stays: a computation takes the session
    and returns its outcome together with the session it leaves. *)

Module Monad.
Import Py.

Definition M (S A : Type) : Type := S -> result A * S.

Definition ret {S A} (a : A) : M S A := fun s => (Ok a, s).

Definition raise {S A} (e : pyexn) : M S A := fun s => (Raise e, s).

Definition bind {S A B} (m : M S A) (k : A -> M S B) : M S B :=
  fun s => match m s with
           | (Ok a, s') => k a s'
           | (Raise e, s') => (Raise e, s')
           end.

(** [try: m  except Exception as ex: h ex]. *)
Definition try_except {S A} (m : M S A) (h : pyexn -> M S A) : M S A :=
  fun s => match m s with
           | (Ok a, s') => (Ok a, s')
           | (Raise e, s') => h e s'
           end.

Definition lift {S A} (r : result A) : M S A := fun s => (r, s).

Definition gets {S A} (f : S -> A) : M S A := fun s => (Ok (f s), s).

Definition modify {S} (f : S -> S) : M S unit := fun s => (Ok tt, f s).

(** Reading an attribute that may not have been set. *)
Definition attr {S A} (f : S -> option A) (name : string) : M S A :=
  fun s => match f s with
           | Some a => (Ok a, s)
           | None => (Raise (AttributeError name), s)
           end.

Definition outcome {S A} (r : result A * S) : result A := fst r.
Definition final {S A} (r : result A * S) : S := snd r.

End Monad.

Notation "'do' x <- m ; k" := (Monad.bind m (fun x => k))
  (at level 10, x name, m at level 100, k at level 200,
   format "'[v' 'do'  x  <-  m ; '/' k ']'").
Notation "'do' ' p <- m ; k" := (Monad.bind m (fun x => let 'p := x in k))
  (at level 10, p strict pattern, m at level 100, k at level 200,
   format "'[v' 'do'  ' p  <-  m ; '/' k ']'").
Notation "'run' m ; k" := (Monad.bind m (fun _ => k))
  (at level 10, m at level 100, k at level 200,
   format "'[v' 'run'  m ; '/' k ']'").

(** ** The multicast feed, [batsmc/parser.py] *)

Module Multicast.
Import Py Monad.

(** [MsgBody.get_fields]: the layout is walked from offset 0 and every name
    is bound to the slice of its width; a later name overwrites an earlier
    equal one. *)
Fixpoint get_fields_from (data : bytes) (start : nat)
    (names : list (string * nat)) (fields : gmap string bytes)
  : gmap string bytes :=
  match names with
  | [] => fields
  | arg :: rest =>
      get_fields_from data (start + arg.2) rest
        (<[arg.1 := slice start (start + arg.2) data]> fields)
  end.

Definition get_fields (data : bytes) (names : list (string * nat))
  : gmap string bytes :=
  get_fields_from data 0 names ∅.

(** [fields[name]]. *)
Definition getitem {V} (fields : gmap string V) (name : string) : result V :=
  match fields !! name with
  | Some v => Ok v
  | None => Raise (KeyError name)
  end.

(** *** The [Flags] union

    [FlagsBits._fields_]: every declared member is an unsigned bit field of
    the given width.  Only the members are embedded, each on its own; the
    [asByte] view of the union is never read by the parser. *)
Definition FlagsBits_fields : list (string * N) :=
  [ ("market_mechanism", 3);
    ("trading_mode", 4);
    ("transaction_category", 3);
    ("modification_indicator", 3);
    ("offbook_automated_indicator", 3);
    ("trade_timing_indicator", 3);
    ("benchmark_indicator", 3);
    ("crossing_trade", 3);
    ("ex_cum_dividend", 3);
    ("negotiated_trade", 3);
    ("publication_indicator", 3);
    ("trading_status", 3);
    ("statistics_type", 3);
    ("login_status", 3);
    ("gap_status", 3) ]%string.

Fixpoint assoc_string {V} (k : string) (l : list (string * V)) : option V :=
  match l with
  | [] => None
  | (k', v) :: rest => if String.eqb k' k then Some v else assoc_string k rest
  end.

(** A [Flags] instance: the bit fields (zero when never assigned) and the
    plain attributes set on the instance under a name that is no member. *)
Record Flags := {
  bits : gmap string N;
  attrs : gmap string N
}.

(** [Flags()]. *)
Definition Flags_new : Flags := {| bits := ∅; attrs := ∅ |}.

(** [flags.name = v] for the names the parser assigns, which are members of
    the anonymous bit-field structure or no field at all: a member keeps the
    low bits that fit its width, any other name becomes an ordinary
    attribute of the instance.  The two fields of the union itself, [b] and
    the 64-bit view [asByte], are assigned and read nowhere in the parser
    and are not embedded. *)
Definition flags_set (name : string) (v : N) (f : Flags) : Flags :=
  match assoc_string name FlagsBits_fields with
  | Some w => {| bits := <[name := v mod 2 ^ w]> (bits f); attrs := attrs f |}
  | None => {| bits := bits f; attrs := <[name := v]> (attrs f) |}
  end.

(** [flags.name]. *)
Definition flags_get (name : string) (f : Flags) : option N :=
  match assoc_string name FlagsBits_fields with
  | Some _ => Some (default 0 (bits f !! name))
  | None => attrs f !! name
  end.

(** *** What is handed to the quote writer *)

(** The result of [get_ts]: [datetime.now()], or [date_format] of a stamp in
    seconds.  Stamps are exact rationals; the rounding of Python floats and
    the range of [datetime.fromtimestamp] are not embedded. *)
Inductive timestamp :=
| Now
| At (stamp : Q).

(** The [entry] dictionary of [map_quote]. *)
Record Entry := {
  e_size : option N;
  e_price : option Q;
  e_side : option (option N);
  e_flags : option Flags
}.

Definition Entry_empty : Entry :=
  {| e_size := None; e_price := None; e_side := None; e_flags := None |}.

(** The tuple [map_quote] returns (its last component is the constant
    empty string). *)
Record Quote := {
  q_contract : N;
  q_ts : timestamp;
  q_entry : Entry
}.

(** What the parser lets out: quotes handed to the writer, the two error
    prints, and the flushes. *)
Inductive event :=
| Written (q : Quote)
| Discarded (handler : string) (dump : string) (ex : pyexn)
| FlagFailed (decoder : string) (ex : pyexn)
| QuotesClosed.

(** The attributes of the parser object. *)
Record Session := {
  midnight : option Q;
  pitch_time : option bytes;
  contract : option N;
  flags : option Flags;
  output : list event
}.

Definition Session_new : Session :=
  {| midnight := None; pitch_time := None; contract := None;
     flags := None; output := [] |}.

Definition set_midnight (v : option Q) (s : Session) : Session :=
  {| midnight := v; pitch_time := pitch_time s; contract := contract s;
     flags := flags s; output := output s |}.
Definition set_pitch_time (v : option bytes) (s : Session) : Session :=
  {| midnight := midnight s; pitch_time := v; contract := contract s;
     flags := flags s; output := output s |}.
Definition set_contract (v : option N) (s : Session) : Session :=
  {| midnight := midnight s; pitch_time := pitch_time s; contract := v;
     flags := flags s; output := output s |}.
Definition set_flags (v : option Flags) (s : Session) : Session :=
  {| midnight := midnight s; pitch_time := pitch_time s;
     contract := contract s; flags := v; output := output s |}.
Definition emit (e : event) (s : Session) : Session :=
  {| midnight := midnight s; pitch_time := pitch_time s;
     contract := contract s; flags := flags s; output := output s ++ [e] |}.

(** [Exchange.to_bstr]. *)
Definition to_bstr (data : bytes) : string := join_space (map hex2 data).

(** *** The flag decoders *)

(** [self.flags.name = v], the value having been computed first. *)
Definition assign_flag (name : string) (v : N) : M Session unit :=
  do f <- attr flags "flags";
  modify (set_flags (Some (flags_set name v f))).

(** The [flag] decorator: the code is passed through [chr], and whatever is
    raised is printed and swallowed. *)
Definition flag (name : string) (func : str -> M Session unit)
    (_flag : code) : M Session unit :=
  try_except (do key <- lift (chr _flag); func key)
             (fun ex => modify (emit (FlagFailed name ex))).

Definition market_mechanism_table : list (ascii * N) :=
  [("1", 1); ("2", 2); ("3", 3); ("4", 4)]%char.
Definition trading_mode_table : list (ascii * N) :=
  [("1", 1); ("2", 2); ("3", 3); ("4", 4); ("5", 5); ("6", 6); ("7", 7);
   ("O", 8); ("K", 9); ("I", 10); ("U", 11)]%char.
Definition transaction_category_table : list (ascii * N) :=
  [("P", 1); ("D", 2); ("T", 3); ("G", 4); ("F", 5)]%char.
Definition negotiated_trade_table : list (ascii * N) := [("N", 1)]%char.
Definition crossing_trade_table : list (ascii * N) := [("X", 1)]%char.
Definition modification_indicator_table : list (ascii * N) :=
  [("A", 1); ("C", 2)]%char.
Definition benchmark_indicator_table : list (ascii * N) := [("B", 1)]%char.
Definition ex_cum_dividend_table : list (ascii * N) := [("E", 1)]%char.
Definition offbook_automated_indicator_table : list (ascii * N) :=
  [("Q", 1); ("M", 2)]%char.
Definition publication_indicator_table : list (ascii * N) := [("1", 1)]%char.
Definition trade_timing_indicator_table : list (ascii * N) :=
  [("1", 1); ("2", 2)]%char.

(** The body shared by the eleven decorated decoders:
    [self.flags.name = {...}.get(key, 0)]. *)
Definition store_lookup (name : string) (table : list (ascii * N))
    (key : str) : M Session unit :=
  assign_flag name (default 0 (str_table_get table (KStr key))).

Definition market_mechanism : code -> M Session unit :=
  flag "market_mechanism"
    (store_lookup "market_mechanism" market_mechanism_table).
Definition trading_mode : code -> M Session unit :=
  flag "trading_mode" (store_lookup "trading_mode" trading_mode_table).
Definition transaction_category : code -> M Session unit :=
  flag "transaction_category"
    (store_lookup "transaction_category" transaction_category_table).
Definition negotiated_trade : code -> M Session unit :=
  flag "negotiated_trade"
    (store_lookup "negotiated_trade" negotiated_trade_table).
Definition crossing_trade : code -> M Session unit :=
  flag "crossing_trade" (store_lookup "crossing_trade" crossing_trade_table).
Definition modification_indicator : code -> M Session unit :=
  flag "modification_indicator"
    (store_lookup "modification_indicator" modification_indicator_table).
Definition benchmark_indicator : code -> M Session unit :=
  flag "benchmark_indicator"
    (store_lookup "benchmark_indicator" benchmark_indicator_table).
Definition ex_cum_dividend : code -> M Session unit :=
  flag "ex_cum_dividend"
    (store_lookup "ex_cum_dividend" ex_cum_dividend_table).
Definition offbook_automated_indicator : code -> M Session unit :=
  flag "offbook_automated_indicator"
    (store_lookup "offbook_automated_indicator"
       offbook_automated_indicator_table).
Definition publication_indicator : code -> M Session unit :=
  flag "publication_indicator"
    (store_lookup "publication_indicator" publication_indicator_table).
Definition trade_timing_indicator : code -> M Session unit :=
  flag "trade_timing_indicator"
    (store_lookup "trade_timing_indicator" trade_timing_indicator_table).

(** [decoder(data[i])]: indexing a [bytes] object gives an [int], and an
    index out of range raises before the decoder is entered. *)
Definition decode_at (decoder : code -> M Session unit) (data : bytes)
    (i : nat) : M Session unit :=
  do b <- lift (index data i);
  decoder (CInt (Byte.to_N b)).

Definition parse_order_execution_flag (data : bytes) : M Session unit :=
  run decode_at market_mechanism data 0;
  run decode_at trading_mode data 1;
  decode_at ex_cum_dividend data 2.

Definition parse_trade_flags (data : bytes) : M Session unit :=
  run decode_at market_mechanism data 0;
  run decode_at trading_mode data 1;
  run decode_at transaction_category data 2;
  decode_at ex_cum_dividend data 3.

Definition parse_trade_report_flags (data : bytes) : M Session unit :=
  run decode_at trade_timing_indicator data 0;
  run decode_at market_mechanism data 1;
  run decode_at trading_mode data 2;
  run decode_at transaction_category data 3;
  run decode_at negotiated_trade data 4;
  run decode_at crossing_trade data 5;
  run decode_at modification_indicator data 6;
  run decode_at benchmark_indicator data 7;
  run decode_at ex_cum_dividend data 8;
  run decode_at publication_indicator data 9;
  decode_at offbook_automated_indicator data 10.

(** *** The message handlers

    A handler is the function a [process_msg_header(msg_len)] decoration
    wraps: its name, the decorator's [msg_len], the [names] layout its body
    starts from, and what the body does with the extracted fields. *)
Record handler := {
  h_name : string;
  msg_len : nat;
  names : list (string * nat);
  body : gmap string bytes -> M Session (gmap string bytes)
}.

(** The decorated function: [fields = data.get_fields(names)], then the rest
    of its body. *)
Definition func (h : handler) (msg_data : bytes)
  : M Session (gmap string bytes) :=
  body h (get_fields msg_data (names h)).

(** [self.flags.name = {...}.get(fields[field], 0)]: the table is keyed by
    [str], the field is a [bytes] slice. *)
Definition store_field_lookup (name : string) (table : list (ascii * N))
    (fields : gmap string bytes) (field : string) : M Session unit :=
  do key <- lift (getitem fields field);
  assign_flag name (default 0 (str_table_get table (KBytes key))).

Definition login_status_table : list (ascii * N) :=
  [("A", 1); ("N", 2); ("B", 3); ("S", 4)]%char.
Definition gap_status_table : list (ascii * N) :=
  [("A", 1); ("O", 2); ("D", 3); ("M", 4); ("S", 5); ("C", 6); ("I", 7)]%char.
Definition trading_status_table : list (ascii * N) :=
  [("T", 1); ("R", 2); ("C", 3); ("S", 4); ("N", 5); ("V", 6); ("O", 7);
   ("E", 8); ("H", 9); ("M", 10); ("P", 11)]%char.
Definition statistic_type_table : list (ascii * N) :=
  [("C", 1); ("H", 2); ("L", 3); ("O", 4); ("P", 5)]%char.
Definition price_determination_table : list (ascii * N) :=
  [("0", 1); ("1", 2)]%char.
Definition auction_type_table : list (ascii * N) :=
  [("O", 1); ("C", 2); ("H", 3); ("V", 4)]%char.

(** Widths and lengths are natural numbers. *)
Local Open Scope nat_scope.

Definition msg_login : handler :=
  {| h_name := "msg_login"; msg_len := 20;
     names := [("login_session_sub_id", 4); ("login_username", 4);
               ("login_filler", 2); ("login_password", 10)]%string;
     body := fun fields => ret fields |}.

Definition msg_login_response : handler :=
  {| h_name := "msg_login_response"; msg_len := 1;
     names := [("flags", 1)]%string;
     body := fun fields =>
       run store_field_lookup "login_status" login_status_table
             fields "flags";
       ret ∅ |}.

Definition msg_gap_request : handler :=
  {| h_name := "msg_gap_request"; msg_len := 7;
     names := [("gap_unit", 1); ("gap_sequense", 4);
               ("gap_count", 2)]%string;
     body := fun fields => ret fields |}.

Definition msg_gap_response : handler :=
  {| h_name := "msg_gap_response"; msg_len := 8;
     names := [("gap_unit", 1); ("gap_sequence", 4); ("gap_count", 2);
               ("flags", 1)]%string;
     body := fun fields =>
       run store_field_lookup "gap_status" gap_status_table fields "flags";
       ret fields |}.

Definition msg_time : handler :=
  {| h_name := "msg_time"; msg_len := 4;
     names := [("pitch_time", 4)]%string;
     body := fun fields =>
       do t <- lift (getitem fields "pitch_time");
       run modify (set_pitch_time (Some t));
       ret fields |}.

Definition msg_clear : handler :=
  {| h_name := "msg_clear"; msg_len := 4;
     names := [("pitch_time_offset", 4)]%string;
     body := fun fields => ret fields |}.

Definition msg_add_order : handler :=
  {| h_name := "msg_add_order"; msg_len := 23;
     names := [("pitch_time_offset", 4); ("pitch_order", 8);
               ("pitch_side", 1); ("pitch_shares_s", 2);
               ("pitch_symbol", 6); ("pitch_price_s", 2)]%string;
     body := fun fields => ret fields |}.

Definition msg_add_order_long : handler :=
  {| h_name := "msg_add_order_long"; msg_len := 33;
     names := [("pitch_time_offset", 4); ("pitch_order", 8);
               ("pitch_side", 1); ("pitch_shares_l", 4);
               ("pitch_symbol", 8); ("pitch_price_l", 8)]%string;
     body := fun fields => ret fields |}.

Definition msg_add_order_exp : handler :=
  {| h_name := "msg_add_order_exp"; msg_len := 38;
     names := [("pitch_time_offset", 4); ("pitch_order", 8);
               ("pitch_side", 1); ("pitch_share_ls", 4);
               ("pitch_symbol", 8); ("pitch_price_l", 8);
               ("pitch_add_order_flags", 1);
               ("pitch_participant", 4)]%string;
     body := fun fields => ret fields |}.

Definition msg_order_executed : handler :=
  {| h_name := "msg_order_executed"; msg_len := 27;
     names := [("pitch_time_offset", 4); ("pitch_order", 8);
               ("pitch_shares_l", 4); ("pitch_execution_id", 8);
               ("flags", 3)]%string;
     body := fun fields =>
       do fl <- lift (getitem fields "flags");
       run parse_order_execution_flag fl;
       ret fields |}.

Definition msg_order_executed_price : handler :=
  {| h_name := "msg_order_executed_price"; msg_len := 39;
     names := [("pitch_time_offset", 4); ("pitch_order", 8);
               ("pitch_e_shares_l", 4); ("pitch_r_shares_l", 4);
               ("pitch_execution_id", 8); ("pitch_price_l", 8);
               ("flags", 3)]%string;
     body := fun fields =>
       do fl <- lift (getitem fields "flags");
       run parse_order_execution_flag fl;
       ret fields |}.

Definition msg_reduce_size_short : handler :=
  {| h_name := "msg_reduce_size_short"; msg_len := 14;
     names := [("pitch_time_offset", 4); ("pitch_order", 8);
               ("pitch_shares_s", 2)]%string;
     body := fun fields => ret fields |}.

Definition msg_reduce_size_long : handler :=
  {| h_name := "msg_reduce_size_long"; msg_len := 16;
     names := [("pitch_time_offset", 4); ("pitch_order", 8);
               ("pitch_shares_l", 4)]%string;
     body := fun fields => ret fields |}.

Definition msg_modify_order_short : handler :=
  {| h_name := "msg_modify_order_short"; msg_len := 16;
     names := [("pitch_time_offset", 4); ("pitch_order", 8);
               ("pitch_shares_s", 2); ("pitch_price_s", 2)]%string;
     body := fun fields => ret fields |}.

Definition msg_modify_order_long : handler :=
  {| h_name := "msg_modify_order_long"; msg_len := 24;
     names := [("pitch_time_offset", 4); ("pitch_order", 8);
               ("pitch_shares_l", 4); ("pitch_price_l", 8)]%string;
     body := fun fields => ret fields |}.

Definition msg_delete_order : handler :=
  {| h_name := "msg_delete_order"; msg_len := 12;
     names := [("pitch_time_offset", 4); ("pitch_order", 8)]%string;
     body := fun fields => ret fields |}.

Definition msg_trade_short : handler :=
  {| h_name := "msg_trade_short"; msg_len := 35;
     names := [("pitch_time_offset", 4); ("pitch_order", 8);
               ("pitch_side", 1); ("pitch_shares_s", 2);
               ("pitch_symbol", 6); ("pitch_price_s", 2);
               ("pitch_execution_id", 8); ("flags", 4)]%string;
     body := fun fields =>
       do fl <- lift (getitem fields "flags");
       run parse_trade_flags fl;
       ret fields |}.

Definition msg_trade_long : handler :=
  {| h_name := "msg_trade_long"; msg_len := 45;
     names := [("pitch_time_offset", 4); ("pitch_order", 8);
               ("pitch_side", 1); ("pitch_shares_l", 4);
               ("pitch_symbol", 8); ("pitch_price_l", 8);
               ("pitch_execution_id", 8); ("flags", 4)]%string;
     body := fun fields =>
       do fl <- lift (getitem fields "flags");
       run parse_trade_flags fl;
       ret fields |}.

Definition msg_trade_break : handler :=
  {| h_name := "msg_trade_break"; msg_len := 12;
     names := [("pitch_time_offset", 4);
               ("pitch_execution_id", 8)]%string;
     body := fun fields => ret fields |}.

Definition msg_trade_report : handler :=
  {| h_name := "msg_trade_report"; msg_len := 62;
     names := [("pitch_time_offset", 4); ("pitch_shares_ll", 8);
               ("pitch_symbol", 8); ("pitch_price_l", 8);
               ("pitch_trade", 8); ("pitch_trade_timestamp", 8);
               ("pitch_exec_venue", 4); ("pitch_currency", 3);
               ("flags", 11)]%string;
     body := fun fields =>
       do fl <- lift (getitem fields "flags");
       run parse_trade_report_flags fl;
       ret fields |}.

Definition msg_end_session : handler :=
  {| h_name := "msg_end_session"; msg_len := 4;
     names := [("pitch_time_offset", 4)]%string;
     body := fun fields => ret fields |}.

Definition msg_trading_status : handler :=
  {| h_name := "msg_trading_status"; msg_len := 21;
     names := [("pitch_time_offset", 4); ("pitch_symbol", 8);
               ("flags", 1); ("pitch_reserved", 3)]%string;
     body := fun fields =>
       run store_field_lookup "trading_status" trading_status_table
             fields "flags";
       ret fields |}.

Definition msg_statistics : handler :=
  {| h_name := "msg_statistics"; msg_len := 22;
     names := [("pitch_time_offset", 4); ("pitch_symbol", 8);
               ("pitch_price_l", 8); ("flags", 1);
               ("price_determination", 1)]%string;
     body := fun fields =>
       run store_field_lookup "statistic_type" statistic_type_table
             fields "flags";
       run store_field_lookup "pitch_price_determination"
             price_determination_table fields "price_determination";
       ret fields |}.

Definition msg_auction_update : handler :=
  {| h_name := "msg_auction_update"; msg_len := 45;
     names := [("pitch_time_offset", 4); ("pitch_symbol", 8);
               ("auction_type", 1); ("pitch_reference_price_l", 8);
               ("pitch_buy_shares_l", 4); ("pitch_sell_shares_l", 4);
               ("pitch_indicative_price_l", 8);
               ("pitch_reserved", 8)]%string;
     body := fun fields =>
       run store_field_lookup "auction_type" auction_type_table
             fields "flags";
       ret fields |}.

Definition msg_auction_summary : handler :=
  {| h_name := "msg_auction_summary"; msg_len := 47;
     names := [("pitch_time_offset", 4); ("pitch_symbol", 8);
               ("auction_type", 1); ("pitch_price_l", 8);
               ("pitch_shares_l", 4)]%string;
     body := fun fields =>
       run store_field_lookup "auction_type" auction_type_table
             fields "flags";
       ret fields |}.

Local Close Scope nat_scope.

(** [self.types]. *)
Definition types : list (N * handler) :=
  [ (0x01, msg_login);
    (0x02, msg_login_response);
    (0x03, msg_gap_request);
    (0x04, msg_gap_response);
    (0x20, msg_time);
    (0x97, msg_clear);
    (0x22, msg_add_order);
    (0x40, msg_add_order_long);
    (0x2f, msg_add_order_exp);
    (0x23, msg_order_executed);
    (0x24, msg_order_executed_price);
    (0x25, msg_reduce_size_long);
    (0x26, msg_reduce_size_short);
    (0x27, msg_modify_order_long);
    (0x28, msg_modify_order_short);
    (0x29, msg_delete_order);
    (0x2b, msg_trade_short);
    (0x41, msg_trade_long);
    (0x2c, msg_trade_break);
    (0x32, msg_trade_report);
    (0x2d, msg_end_session);
    (0x31, msg_trading_status);
    (0x34, msg_statistics);
    (0x95, msg_auction_update);
    (0x96, msg_auction_summary) ].

(** [self.types[mtype]], when [mtype in self.types]. *)
Fixpoint types_get (mtype : N) (l : list (N * handler)) : option handler :=
  match l with
  | [] => None
  | (k, h) :: rest => if k =? mtype then Some h else types_get mtype rest
  end.

(** *** Decoding and framing

    The parser depends on three things the module does not define: the byte
    order of the host ([struct] is used in native mode), and the two methods
    of the quote writer, [write_quote] and [close_quotes], which the class
    calls and leaves to its environment.  Each writer method is taken with
    the output so far; it returns, or raises the given exception. *)
Section Parser.

Variable native : byteorder.
Variable write_quote : list event -> Quote -> option pyexn.
Variable close_quotes : list event -> option pyexn.

(** [map_entry(src, dst, fconv)] of [map_quote], [dst] given as the update
    of the entry. *)
Definition map_entry {A} (fields : gmap string bytes) (src : string)
    (fconv : bytes -> result A) (store : A -> Entry -> Entry)
    (entry : Entry) : result Entry :=
  match fields !! src with
  | Some x => rbind (fconv x) (fun v => Ok (store v entry))
  | None => Ok entry
  end.

Definition store_size (v : N) (e : Entry) : Entry :=
  {| e_size := Some v; e_price := e_price e; e_side := e_side e;
     e_flags := e_flags e |}.
Definition store_price (v : Q) (e : Entry) : Entry :=
  {| e_size := e_size e; e_price := Some v; e_side := e_side e;
     e_flags := e_flags e |}.
Definition store_side (v : option N) (e : Entry) : Entry :=
  {| e_size := e_size e; e_price := e_price e; e_side := Some v;
     e_flags := e_flags e |}.
Definition store_flags (v : Flags) (e : Entry) : Entry :=
  {| e_size := e_size e; e_price := e_price e; e_side := e_side e;
     e_flags := Some v |}.

(** [lambda x: float(unpack("Q", x)[0] / 10000)]. *)
Definition long_price (x : bytes) : result Q :=
  rbind (unpack_uint native 8 x) (fun v =>
  Ok (inject_Z (Z.of_N v) / inject_Z 10000)%Q).

(** [lambda x: float(unpack("H", x)[0] / 100)]. *)
Definition short_price (x : bytes) : result Q :=
  rbind (unpack_uint native 2 x) (fun v =>
  Ok (inject_Z (Z.of_N v) / inject_Z 100)%Q).

(** [lambda x: {b'B': 0, b'S': 1}.get(x)]. *)
Definition side_of (x : bytes) : result (option N) :=
  Ok (bytes_table_get [("B", 0); ("S", 1)]%char (KBytes x)).

(** [date_format(stamp)]. *)
Definition date_format (stamp : Q) : timestamp := At stamp.

(** [get_ts] of [map_quote]. *)
Definition get_ts (fields : gmap string bytes) : M Session timestamp :=
  match fields !! "pitch_time_offset" with
  | Some off =>
      do mid <- attr midnight "midnight";
      do base <- attr pitch_time "pitch_time";
      do t <- lift (unpack_uint native 4 base);
      do o <- lift (unpack_uint native 4 off);
      ret (date_format
             (mid + inject_Z (Z.of_N t)
              + inject_Z (Z.of_N o) / inject_Z 1000)%Q)
  | None => ret Now
  end.

(** The six [map_entry] calls of [map_quote], in their order, from the
    empty [entry]. *)
Definition map_entries (fields : gmap string bytes) : result Entry :=
  rbind (map_entry fields "pitch_shares_s" (unpack_uint native 2)
           store_size Entry_empty) (fun e =>
  rbind (map_entry fields "pitch_shares_l" (unpack_uint native 4)
           store_size e) (fun e =>
  rbind (map_entry fields "pitch_shares_ll" (unpack_uint native 8)
           store_size e) (fun e =>
  rbind (map_entry fields "pitch_price_l" long_price store_price e)
    (fun e =>
  rbind (map_entry fields "pitch_price_s" short_price store_price e)
    (fun e =>
  map_entry fields "pitch_side" side_of store_side e))))).

Definition map_quote (fields : gmap string bytes) : M Session Quote :=
  do entry <- lift (map_entries fields);
  do c <- attr contract "contract";
  do f <- attr flags "flags";
  do ts <- get_ts fields;
  ret {| q_contract := c; q_ts := ts; q_entry := store_flags f entry |}.

(** [self.write_quote( *q_map)]. *)
Definition call_write_quote (q : Quote) : M Session unit :=
  fun s => match write_quote (output s) q with
           | None => (Ok tt, emit (Written q) s)
           | Some e => (Raise e, s)
           end.

(** [self.close_quotes()]. *)
Definition call_close_quotes : M Session unit :=
  fun s => match close_quotes (output s) with
           | None => (Ok tt, emit QuotesClosed s)
           | Some e => (Raise e, s)
           end.

(** What [process_msg_header] guards with [try]. *)
Definition decode_and_write (h : handler) (data : bytes) : M Session unit :=
  run modify (set_flags (Some Flags_new));
  do fields <- func h (slice 0 (msg_len h) data);
  do q_map <- map_quote fields;
  run call_write_quote q_map;
  modify (set_flags None).

(** The [except Exception] branch of [process_msg_header]. *)
Definition report (h : handler) (data : bytes) (ex : pyexn)
  : M Session unit :=
  modify (emit (Discarded (h_name h)
                  (to_bstr (slice 0 (msg_len h) data)) ex)).

(** The [process_msg_header(msg_len)] decoration of a handler, applied to
    the bytes it is handed. *)
Definition process_msg_header (h : handler) (data : bytes)
  : M Session bytes :=
  run try_except (decode_and_write h data) (report h data);
  ret (skipn (msg_len h) data).

Definition parse_sequence_header (data : bytes)
  : result (N * N * N * N) :=
  match unpack_HBBI native data with
  | Raise StructError => Ok (0, 0, 0, 0)
  | r => r
  end.

(** One turn of the [for] loop of [parse], at [offset]: the offset it
    leaves. *)
Definition parse_message (seq : N) (data : bytes) (offset : nat)
  : M Session nat :=
  run modify (set_contract (Some seq));
  do ' (mlen, mtype) <- lift (unpack_BB (slice offset (offset + 2) data));
  run match types_get mtype types with
      | Some h =>
          run process_msg_header h
                (slice (offset + 2) (offset + N.to_nat mlen) data);
          ret tt
      | None => ret tt
      end;
  ret (offset + N.to_nat mlen)%nat.

(** The [for i in range(0, msg_count)] loop. *)
Fixpoint parse_messages (msg_count : nat) (seq : N) (data : bytes)
    (offset : nat) : M Session nat :=
  match msg_count with
  | O => ret offset
  | S n =>
      do offset' <- parse_message seq data offset;
      parse_messages n seq data offset'
  end.

(** The [while True] loop, with the number of turns it may take: [true]
    when the loop was left by [break], [false] when the turns ran out. *)
Fixpoint parse_blocks (turns : nat) (data : bytes) : M Session bool :=
  match turns with
  | O => ret false
  | S turns' =>
      do ' (seq_len, msg_count, unit, seq) <-
        lift (parse_sequence_header (slice 0 8 data));
      if seq_len =? 0 then ret true
      else
        run parse_messages (N.to_nat msg_count) seq data 8;
        run call_close_quotes;
        parse_blocks turns' (skipn (N.to_nat seq_len) data)
  end.

(** [parse(bytes_data)]; [today] stands for
    [mktime(datetime.today().timetuple())], which [parse] stores as
    [self.midnight].  Every block takes at least one byte off the buffer,
    so one turn per byte and one more are enough.  ([self.fields], which
    [parse] resets and nothing reads, is left out.) *)
Definition parse (today : Q) (bytes_data : bytes) : M Session bool :=
  run modify (set_midnight (Some today));
  match bytes_data with
  | [] => ret true
  | _ => parse_blocks (S (length bytes_data)) bytes_data
  end.

End Parser.

End Multicast.

(** ** The direct feed, [bats/parser.py] *)

Module Direct.
Import Py Monad.

(** *** Text *)

Definition continuation (b : N) : bool := (128 <=? b) && (b <=? 191).

(** [bytes.decode('utf-8')], strict, on the values of the bytes. *)
Fixpoint decode_utf8 (bs : list N) : result str :=
  match bs with
  | [] => Ok []
  | b0 :: r0 =>
      if b0 <? 128 then
        rbind (decode_utf8 r0) (fun s => Ok (b0 :: s))
      else if (194 <=? b0) && (b0 <=? 223) then
        match r0 with
        | b1 :: r1 =>
            if continuation b1 then
              rbind (decode_utf8 r1) (fun s =>
              Ok ((b0 - 192) * 64 + (b1 - 128) :: s))
            else Raise UnicodeDecodeError
        | _ => Raise UnicodeDecodeError
        end
      else if (224 <=? b0) && (b0 <=? 239) then
        match r0 with
        | b1 :: b2 :: r2 =>
            if ((if b0 =? 224 then 160 else 128) <=? b1)
               && (b1 <=? (if b0 =? 237 then 159 else 191))
               && continuation b2 then
              rbind (decode_utf8 r2) (fun s =>
              Ok ((b0 - 224) * 4096 + (b1 - 128) * 64 + (b2 - 128) :: s))
            else Raise UnicodeDecodeError
        | _ => Raise UnicodeDecodeError
        end
      else if (240 <=? b0) && (b0 <=? 244) then
        match r0 with
        | b1 :: b2 :: b3 :: r3 =>
            if ((if b0 =? 240 then 144 else 128) <=? b1)
               && (b1 <=? (if b0 =? 244 then 143 else 191))
               && continuation b2 && continuation b3 then
              rbind (decode_utf8 r3) (fun s =>
              Ok ((b0 - 240) * 262144 + (b1 - 128) * 4096
                  + (b2 - 128) * 64 + (b3 - 128) :: s))
            else Raise UnicodeDecodeError
        | _ => Raise UnicodeDecodeError
        end
      else Raise UnicodeDecodeError
  end.

(** An ASCII digit. *)
Definition is_digit (c : N) : bool := (48 <=? c) && (c <=? 57).

(** The characters [int] skips around a number. *)
Definition is_space (c : N) : bool :=
  ((9 <=? c) && (c <=? 13)) || (c =? 32)
  || (c =? 133) || (c =? 160) || (c =? 5760)
  || ((8192 <=? c) && (c <=? 8202)) || (c =? 8232) || (c =? 8233)
  || (c =? 8239) || (c =? 8287) || (c =? 12288).

Fixpoint lstrip (s : str) : str :=
  match s with
  | c :: rest => if is_space c then lstrip rest else s
  | [] => []
  end.

Definition strip (s : str) : str := rev (lstrip (rev (lstrip s))).

(** The zeros of the decimal digits outside ASCII, from Arabic-Indic to the
    segmented digits (Unicode 14.0, the character database of Python 3.11):
    each is followed by its digits one to nine. *)
Definition decimal_zeros : list N :=
  [ 1632; 1776; 1984; 2406; 2534; 2662; 2790; 2918; 3046; 3174; 3302; 3430;
    3558; 3664; 3792; 3872; 4160; 4240; 6112; 6160; 6470; 6608; 6784; 6800;
    6992; 7088; 7232; 7248; 42528; 43216; 43264; 43472; 43504; 43600;
    44016; 65296; 66720; 68912; 69734; 69872; 69942; 70096; 70384; 70736;
    70864; 71248; 71360; 71472; 71904; 72016; 72784; 73040; 73120; 92768;
    92864; 93008; 120782; 120792; 120802; 120812; 120822; 123200; 123632;
    125264; 130032 ].

(** The value of a decimal digit, ASCII or not; [None] for any other
    character.  [int] reads every decimal digit of Unicode. *)
Definition digit_value (c : N) : option N :=
  if is_digit c then Some (c - 48)
  else
    match find (fun z => (z <=? c) && (c <=? z + 9)) decimal_zeros with
    | Some z => Some (c - z)
    | None => None
    end.

(** Decimal digits, single underscores allowed between two digits. *)
Fixpoint digits_value (acc : Z) (after_digit : bool) (s : str)
  : option Z :=
  match s with
  | [] => if after_digit then Some acc else None
  | c :: rest =>
      match digit_value c with
      | Some d => digits_value (10 * acc + Z.of_N d) true rest
      | None =>
          if (c =? 95) && after_digit then digits_value acc false rest
          else None
      end
  end.

(** [sys.get_int_max_str_digits()], as Python 3.11 starts with: [int]
    refuses a number written with more digits. *)
Definition max_str_digits : nat := 4300.

(** [int(s)] for a [str]: blanks around an optionally signed decimal
    number of at most [max_str_digits] digits, underscores not counted. *)
Definition py_int (s : str) : result Z :=
  let number (sign : Z) (digits : str) :=
    match digits_value 0 false digits with
    | Some v =>
        if Nat.leb (length (List.filter (fun c => negb (c =? 95)) digits))
                   max_str_digits
        then Ok (sign * v)%Z
        else Raise ValueError
    | None => Raise ValueError
    end in
  match strip s with
  | c :: rest =>
      if c =? 43 then number 1%Z rest
      else if c =? 45 then number (-1)%Z rest
      else number 1%Z (c :: rest)
  | [] => number 1%Z []
  end.

(** *** Fields *)

(** What a field of a decoded message can hold: a slice of the line, a
    table value, [None], or a [date_format] result. *)
Inductive value :=
| Str (s : str)
| Int (n : N)
| NoneVal
| Date (stamp : Q).

Definition of_option (o : option N) : value :=
  match o with Some n => Int n | None => NoneVal end.

(** [MsgBody.get_fields]. *)
Fixpoint get_fields_from (data : str) (start : nat)
    (names : list (string * nat)) (fields : gmap string value)
  : gmap string value :=
  match names with
  | [] => fields
  | arg :: rest =>
      get_fields_from data (start + arg.2) rest
        (<[arg.1 := Str (slice start (start + arg.2) data)]> fields)
  end.

Definition get_fields (data : str) (names : list (string * nat))
  : gmap string value :=
  get_fields_from data 0 names ∅.

Definition getitem {V} (fields : gmap string V) (name : string) : result V :=
  match fields !! name with
  | Some v => Ok v
  | None => Raise (KeyError name)
  end.

(** [{...}.get(v)] with a field as the key. *)
Definition table_get (table : list (ascii * N)) (v : value) : option N :=
  match v with
  | Str s => str_table_get table (KStr s)
  | _ => None
  end.

(** What the parser lets out: calls of the quote writer (it is handed the
    constant tuple of [map_quote]), the print of the [flag] decorator, and
    the final flush. *)
Inductive event :=
| Written
| FlagFailed (decoder : string) (ex : pyexn)
| QuotesClosed.

Record Session := {
  midnight : option Q;
  output : list event
}.

Definition Session_new : Session := {| midnight := None; output := [] |}.

Definition set_midnight (v : option Q) (s : Session) : Session :=
  {| midnight := v; output := output s |}.
Definition emit (e : event) (s : Session) : Session :=
  {| midnight := midnight s; output := output s ++ [e] |}.

(** *** The flag decoders *)

(** The [flag] decorator: the code is passed through [chr]; whatever is
    raised is printed and the decoder returns [None]. *)
Definition flag (name : string) (func : str -> option N) (_flag : code)
  : M Session (option N) :=
  try_except (do key <- lift (chr _flag); ret (func key))
             (fun ex => run modify (emit (FlagFailed name ex)); ret None).

Definition market_mechanism_table : list (ascii * N) :=
  [("1", 1); ("2", 2); ("3", 3); ("4", 4)]%char.
Definition trading_mode_table : list (ascii * N) :=
  [("1", 1); ("2", 2); ("3", 3); ("4", 4); ("5", 5); ("6", 6); ("7", 7);
   ("O", 8); ("K", 9); ("I", 10); ("U", 11)]%char.
Definition transaction_category_table : list (ascii * N) :=
  [("P", 1); ("D", 2); ("T", 3); ("G", 4); ("F", 5)]%char.
Definition negotiated_trade_table : list (ascii * N) := [("N", 1)]%char.
Definition crossing_trade_table : list (ascii * N) := [("X", 1)]%char.
Definition modification_indicator_table : list (ascii * N) :=
  [("A", 1); ("C", 2)]%char.
Definition benchmark_indicator_table : list (ascii * N) := [("B", 1)]%char.
Definition ex_cum_dividend_table : list (ascii * N) := [("E", 1)]%char.
Definition offbook_automated_indicator_table : list (ascii * N) :=
  [("Q", 1); ("M", 2)]%char.
Definition publication_indicator_table : list (ascii * N) := [("1", 1)]%char.
Definition trade_timing_indicator_table : list (ascii * N) :=
  [("1", 1); ("2", 2)]%char.

(** [{...}.get(key)]. *)
Definition lookup (table : list (ascii * N)) (key : str) : option N :=
  str_table_get table (KStr key).

(** [{...}.get(key, d)]. *)
Definition lookup_or (table : list (ascii * N)) (d : N) (key : str)
  : option N :=
  Some (default d (str_table_get table (KStr key))).

Definition market_mechanism : code -> M Session (option N) :=
  flag "market_mechanism" (lookup market_mechanism_table).
Definition trading_mode : code -> M Session (option N) :=
  flag "trading_mode" (lookup trading_mode_table).
Definition transaction_category : code -> M Session (option N) :=
  flag "transaction_category" (lookup transaction_category_table).
Definition negotiated_trade : code -> M Session (option N) :=
  flag "negotiated_trade" (lookup_or negotiated_trade_table 2).
Definition crossing_trade : code -> M Session (option N) :=
  flag "crossing_trade" (lookup_or crossing_trade_table 2).
Definition modification_indicator : code -> M Session (option N) :=
  flag "modification_indicator" (lookup_or modification_indicator_table 3).
Definition benchmark_indicator : code -> M Session (option N) :=
  flag "benchmark_indicator" (lookup_or benchmark_indicator_table 2).
Definition ex_cum_dividend : code -> M Session (option N) :=
  flag "ex_cum_dividend" (lookup_or ex_cum_dividend_table 2).
Definition offbook_automated_indicator : code -> M Session (option N) :=
  flag "offbook_automated_indicator"
    (lookup_or offbook_automated_indicator_table 3).
Definition publication_indicator : code -> M Session (option N) :=
  flag "publication_indicator" (lookup_or publication_indicator_table 2).

(** [decoder(data[i])]: indexing a [str] gives a one-character [str]. *)
Definition decode_at (decoder : code -> M Session (option N)) (data : str)
    (i : nat) : M Session value :=
  do c <- lift (index data i);
  do v <- decoder (CStr [c]);
  ret (of_option v).

Definition parse_order_execution_flag (data : str)
  : M Session (gmap string value) :=
  do mm <- decode_at market_mechanism data 0;
  do tm <- decode_at trading_mode data 1;
  do ex <- decode_at ex_cum_dividend data 2;
  ret (<["excum_dividen" := ex]>
         (<["trading_mode" := tm]> (<["market_mechanism" := mm]> ∅))).

Definition parse_trade_flags (data : str) : M Session (gmap string value) :=
  do mm <- decode_at market_mechanism data 0;
  do tm <- decode_at trading_mode data 1;
  do tc <- decode_at transaction_category data 2;
  do ex <- decode_at ex_cum_dividend data 3;
  ret (<["excum_dividen" := ex]>
         (<["transaction_category" := tc]>
            (<["trading_mode" := tm]> (<["market_mechanism" := mm]> ∅)))).

Definition parse_trade_report_flags (data : str)
  : M Session (gmap string value) :=
  do c0 <- lift (index data 0);
  let timing := Int (default 3
                   (str_table_get trade_timing_indicator_table
                      (KStr [c0]))) in
  do mm <- decode_at market_mechanism data 0;
  do tm <- decode_at trading_mode data 1;
  do tc <- decode_at transaction_category data 2;
  do nt <- decode_at negotiated_trade data 3;
  do ct <- decode_at crossing_trade data 4;
  do mi <- decode_at modification_indicator data 5;
  do bi <- decode_at benchmark_indicator data 6;
  do ex <- decode_at ex_cum_dividend data 7;
  do pi <- decode_at publication_indicator data 8;
  do oa <- decode_at offbook_automated_indicator data 9;
  ret (<["offbook_automated_indicator" := oa]>
      (<["publication_indicator" := pi]>
      (<["excum_dividen" := ex]>
      (<["benchmark_indicator" := bi]>
      (<["modification_indicator" := mi]>
      (<["crossing_trade" := ct]>
      (<["negotiated_trade" := nt]>
      (<["transaction_category" := tc]>
      (<["trading_mode" := tm]>
      (<["market_mechanism" := mm]>
      (<["trade_timing_indicator" := timing]> ∅))))))))))).

(** *** The message handlers *)

Record handler := {
  h_name : string;
  msg_len : nat;
  names : list (string * nat);
  body : gmap string value -> M Session (gmap string value)
}.

Definition func (h : handler) (msg_data : str)
  : M Session (gmap string value) :=
  body h (get_fields msg_data (names h)).

(** [fields.update(parse(fields['flags']))], then [del fields['flags']]. *)
Definition replace_flags
    (parse_flags : str -> M Session (gmap string value))
    (fields : gmap string value) : M Session (gmap string value) :=
  do fl <- lift (getitem fields "flags");
  do decoded <- match fl with
                | Str data => parse_flags data
                | _ => raise TypeError
                end;
  ret (delete "flags" (decoded ∪ fields)).

(** [fields[name] = {...}.get(fields[name])]. *)
Definition retable (name : string) (table : list (ascii * N))
    (fields : gmap string value) : M Session (gmap string value) :=
  do v <- lift (getitem fields name);
  ret (<[name := of_option (table_get table v)]> fields).

Definition trading_status_table : list (ascii * N) :=
  [("T", 1); ("R", 2); ("C", 3); ("S", 4); ("N", 5); ("V", 6); ("O", 7);
   ("E", 8); ("H", 9); ("M", 10); ("P", 11)]%char.
Definition statistic_type_table : list (ascii * N) :=
  [("C", 1); ("H", 2); ("L", 3); ("O", 4); ("P", 5)]%char.
Definition price_determination_table : list (ascii * N) :=
  [("0", 1); ("1", 2)]%char.
Definition auction_type_table : list (ascii * N) :=
  [("O", 1); ("C", 2); ("H", 3); ("V", 4)]%char.

Local Open Scope nat_scope.

Definition msg_clear : handler :=
  {| h_name := "msg_clear"; msg_len := 8;
     names := [("pitch_symbol", 8)]%string;
     body := fun fields => ret fields |}.

Definition msg_add_order : handler :=
  {| h_name := "msg_add_order"; msg_len := 45;
     names := [("pitch_order", 12); ("pitch_side", 1);
               ("pitch_shares_s", 6); ("pitch_symbol", 6);
               ("pitch_price_s", 10); ("pitch_display", 1)]%string;
     body := fun fields => ret fields |}.

Definition msg_add_order_long : handler :=
  {| h_name := "msg_add_order_long"; msg_len := 60;
     names := [("pitch_order", 12); ("pitch_side", 1);
               ("pitch_shares_l", 10); ("pitch_symbol", 8);
               ("pitch_price_l", 19); ("pitch_display", 1)]%string;
     body := fun fields => ret fields |}.

Definition msg_add_order_exp : handler :=
  {| h_name := "msg_add_order_exp"; msg_len := 64;
     names := [("pitch_order", 12); ("pitch_side", 1);
               ("pitch_shares_l", 10); ("pitch_symbol", 8);
               ("pitch_price_l", 19); ("pitch_type", 1);
               ("pitch_participant", 4)]%string;
     body := fun fields => ret fields |}.

Definition msg_order_executed : handler :=
  {| h_name := "msg_order_executed"; msg_len := 42;
     names := [("pitch_order", 12); ("pitch_shares_s", 6);
               ("pitch_execution", 12); ("flags", 3)]%string;
     body := replace_flags parse_order_execution_flag |}.

Definition msg_order_executed_long : handler :=
  {| h_name := "msg_order_executed_long"; msg_len := 46;
     names := [("pitch_order", 12); ("pitch_shares_l", 10);
               ("pitch_execution", 12); ("flags", 3)]%string;
     body := replace_flags parse_order_execution_flag |}.

Definition msg_order_cancel : handler :=
  {| h_name := "msg_order_cancel"; msg_len := 27;
     names := [("pitch_order", 12); ("pitch_shares_s", 6)]%string;
     body := fun fields => ret fields |}.

Definition msg_order_cancel_long : handler :=
  {| h_name := "msg_order_cancel_long"; msg_len := 31;
     names := [("pitch_order", 12); ("pitch_shares_l", 10)]%string;
     body := fun fields => ret fields |}.

Definition msg_trade : handler :=
  {| h_name := "msg_trade"; msg_len := 60;
     names := [("pitch_order", 12); ("pitch_side", 1);
               ("pitch_shares_s", 6); ("pitch_symbol", 6);
               ("pitch_price_s", 10); ("pitch_execution", 12);
               ("flags", 4)]%string;
     body := replace_flags parse_trade_flags |}.

Definition msg_trade_long : handler :=
  {| h_name := "msg_trade_long"; msg_len := 75;
     names := [("pitch_order", 12); ("pitch_side", 1);
               ("pitch_shares_s", 10); ("pitch_symbol", 8);
               ("pitch_price_l", 19); ("pitch_execution", 12);
               ("flags", 4)]%string;
     body := replace_flags parse_trade_flags |}.

Definition msg_trade_break : handler :=
  {| h_name := "msg_trade_break"; msg_len := 21;
     names := [("pitch_execution", 12)]%string;
     body := fun fields => ret fields |}.

Definition msg_trading_status : handler :=
  {| h_name := "msg_trading_status"; msg_len := 21;
     names := [("pitch_symbol", 8); ("pitch_status", 1);
               ("pitch_reserved", 3)]%string;
     body := retable "pitch_trading_status" trading_status_table |}.

Definition msg_statistics : handler :=
  {| h_name := "msg_statistics"; msg_len := 38;
     names := [("pitch_symbol", 8); ("pitch_price_l", 19);
               ("pitch_statistic_type", 1);
               ("pitch_price_determination", 1)]%string;
     body := fun fields =>
       do fields <- retable "pitch_statistic_type" statistic_type_table
                      fields;
       retable "pitch_price_determination" price_determination_table
         fields |}.

Definition msg_auction_update : handler :=
  {| h_name := "msg_auction_update"; msg_len := 76;
     names := [("pitch_symbol", 8); ("pitch_auction_type", 1);
               ("pitch_reference_price_l", 19); ("pitch_buy_shares_l", 10);
               ("pitch_sell_shares_l", 10);
               ("pitch_indicative_price_l", 19)]%string;
     body := retable "pitch_auction_type" auction_type_table |}.

Definition msg_auction_summary : handler :=
  {| h_name := "msg_auction_summary"; msg_len := 47;
     names := [("pitch_symbol", 8); ("pitch_auction_type", 1);
               ("pitch_price_l", 19); ("pitch_share_l", 10)]%string;
     body := retable "pitch_auction_type" auction_type_table |}.

Local Close Scope nat_scope.

(** [date_format(stamp)]; as in the multicast feed, the range check of
    [datetime.fromtimestamp] is not embedded. *)
Definition date_format (stamp : Q) : value := Date stamp.

(** *** Decoding and framing

    The class leaves to its environment the two methods of the quote writer
    and, through the standard library, the reading of a calendar date:
    [midnight_of d] stands for
    [mktime(datetime.strptime(d, "%Y%m%d").timetuple())]. *)
Section Parser.

Variable midnight_of : str -> result Q.
Variable write_quote : list event -> option pyexn.
Variable close_quotes : list event -> option pyexn.

Local Open Scope nat_scope.

Definition msg_trade_report : handler :=
  {| h_name := "msg_trade_report"; msg_len := 94;
     names := [("pitch_shares_l", 12); ("pitch_symbol", 8);
               ("pitch_price_l", 19); ("pitch_trade", 12); ("date", 8);
               ("time", 8); ("pitch_exec_venue", 4); ("pitch_currency", 3);
               ("flags", 11)]%string;
     body := fun fields =>
       do d <- lift (getitem fields "date");
       do midnight <- lift (match d with
                            | Str s => midnight_of s
                            | _ => Raise TypeError
                            end);
       do t <- lift (getitem fields "time");
       do secs <- lift (match t with
                        | Str s => py_int s
                        | _ => Raise TypeError
                        end);
       let fields :=
         <["tradetime" := date_format (midnight + inject_Z secs)%Q]> fields in
       let fields := delete "time" (delete "date" fields) in
       replace_flags parse_trade_report_flags fields |}.

Local Close Scope nat_scope.

(** [self.types], keyed by the code point of the type letter. *)
Definition types : list (ascii * handler) :=
  [ ("s", msg_clear);
    ("A", msg_add_order);
    ("c", msg_add_order_long);
    ("t", msg_add_order_exp);
    ("E", msg_order_executed);
    ("e", msg_order_executed_long);
    ("X", msg_order_cancel);
    ("x", msg_order_cancel_long);
    ("P", msg_trade);
    ("q", msg_trade_long);
    ("B", msg_trade_break);
    ("O", msg_trade_report);
    ("H", msg_trading_status);
    ("Z", msg_statistics);
    ("k", msg_auction_update);
    ("j", msg_auction_summary) ]%char.

(** [self.types[m_type]], when [m_type in self.types.keys()]. *)
Definition types_get (m_type : N) : option handler :=
  assoc_ascii m_type types.

(** [map_quote]: the mapping is not written, the tuple is constant, and so
    the writer is called with nothing of the message. *)
Definition call_write_quote : M Session unit :=
  fun s => match write_quote (output s) with
           | None => (Ok tt, emit Written s)
           | Some e => (Raise e, s)
           end.

Definition call_close_quotes : M Session unit :=
  fun s => match close_quotes (output s) with
           | None => (Ok tt, emit QuotesClosed s)
           | Some e => (Raise e, s)
           end.

(** What [process_msg_header] guards with [try]. *)
Definition decode_and_write (h : handler) (ts : value) (data : str)
  : M Session unit :=
  do fields <- func h (slice 0 (msg_len h) data);
  let fields := <["receive_timestamp" := ts]> fields in
  call_write_quote.

(** The [except Exception] branch of [process_msg_header].  Its [print]
    takes [self.to_bstr(data[0:msg_len])] as an argument, and this class has
    no [to_bstr] (the multicast class defines one): the lookup raises
    [AttributeError] before anything is printed. *)
Definition report (h : handler) (data : str) (ex : pyexn)
  : M Session unit :=
  raise (AttributeError "to_bstr").

Definition process_msg_header (h : handler) (ts : value) (data : str)
  : M Session str :=
  run try_except (decode_and_write h ts data) (report h data);
  ret (skipn (msg_len h) data).

(** The body of the [for msg in data.split('\n')] loop. *)
Definition parse_line (msg : str) : M Session unit :=
  match msg with
  | [] => ret tt
  | _ =>
      let msg := skipn 1 msg in
      do ts <- lift (py_int (slice 0 7 msg));
      do m_type <- lift (index msg 8);
      match types_get m_type with
      | Some h =>
          do mid <- attr midnight "midnight";
          let ts := date_format (mid + inject_Z ts)%Q in
          run process_msg_header h ts (skipn 9 msg);
          ret tt
      | None => ret tt
      end
  end.

Fixpoint parse_lines (lines : list str) : M Session unit :=
  match lines with
  | [] => ret tt
  | msg :: rest => run parse_line msg; parse_lines rest
  end.

(** [parse(bytes_data)]; [today] stands for
    [mktime(datetime.today().timetuple())], which [parse] stores as
    [self.midnight]. *)
Definition parse (today : Q) (bytes_data : bytes) : M Session unit :=
  run modify (set_midnight (Some today));
  do data <- lift (decode_utf8 (map Byte.to_N bytes_data));
  run parse_lines (split_on N.eqb 10 data);
  call_close_quotes.

End Parser.

End Direct.

(** ** Reference readings

    The definitions below restate, in the words of the specification, what
    the parsers are checked against: the width of a layout, the messages of
    a sequence block and their dispatch, the most recent time base of a
    stream, and the framing of a text line. *)

Module Reading.
Import Py Monad.

(** The sum of the widths of a layout. *)
Definition layout_width (names : list (string * nat)) : nat :=
  foldr (fun arg total => (arg.2 + total)%nat) 0%nat names.

(** *** Multicast blocks *)

(** A sub-message as it sits in a block: the length byte, the type byte and
    the body. *)
Record submessage := {
  m_len : byte;
  m_type : byte;
  m_body : bytes
}.

Definition encode (m : submessage) : bytes := m_len m :: m_type m :: m_body m.

(** The length byte counts the two leading bytes and the body. *)
Definition well_sized (m : submessage) : Prop :=
  N.to_nat (Byte.to_N (m_len m)) = (2 + length (m_body m))%nat.

(** The bytes the sub-messages of a block declare, by their length bytes. *)
Definition declared_length (msgs : list submessage) : nat :=
  foldr (fun m total => (N.to_nat (Byte.to_N (m_len m)) + total)%nat)
        0%nat msgs.

(** The time base a stream leaves: the first four bytes of the body of its
    last Time message (type 0x20), or the base it started from. *)
Fixpoint last_base (msgs : list submessage) (base : option bytes)
  : option bytes :=
  match msgs with
  | [] => base
  | m :: rest =>
      last_base rest
        (if Byte.to_N (m_type m) =? 0x20 then Some (slice 0 4 (m_body m))
         else base)
  end.

Section Dispatch.

Variable native : byteorder.
Variable write_quote : list Multicast.event -> Multicast.Quote -> option pyexn.

(** One message handed to its handler under the sequence of its block;
    a type outside the catalog is passed over. *)
Definition dispatch (seq : N) (m : submessage) : M Multicast.Session unit :=
  run modify (Multicast.set_contract (Some seq));
  match Multicast.types_get (Byte.to_N (m_type m)) Multicast.types with
  | Some h =>
      run Multicast.process_msg_header native write_quote h (m_body m);
      ret tt
  | None => ret tt
  end.

Fixpoint dispatch_all (seq : N) (msgs : list submessage)
  : M Multicast.Session unit :=
  match msgs with
  | [] => ret tt
  | m :: rest => run dispatch seq m; dispatch_all seq rest
  end.

(** One message handed to a given handler, or to none, under the sequence
    of its block. *)
Definition hand (seq : N) (m : submessage) (oh : option Multicast.handler)
  : M Multicast.Session unit :=
  run modify (Multicast.set_contract (Some seq));
  match oh with
  | Some h =>
      run Multicast.process_msg_header native write_quote h (m_body m);
      ret tt
  | None => ret tt
  end.

Fixpoint hand_all (seq : N) (msgs : list submessage)
    (hs : list (option Multicast.handler)) : M Multicast.Session unit :=
  match msgs, hs with
  | m :: msgs, oh :: hs => run hand seq m oh; hand_all seq msgs hs
  | _, _ => ret tt
  end.

End Dispatch.

(** What the catalog says of a type code: the handler it lists under the
    code, or that it lists none. *)
Definition listed (mtype : N) (oh : option Multicast.handler) : Prop :=
  match oh with
  | Some h => In (mtype, h) Multicast.types
  | None => ~ In mtype (map fst Multicast.types)
  end.

(** The handlers of the messages of a block. *)
Definition handlers_of (msgs : list submessage)
    (hs : list (option Multicast.handler)) : Prop :=
  Forall2 (fun m oh => listed (Byte.to_N (m_type m)) oh) msgs hs.

(** The handler the catalog lists under a type code, found: that of the
    entry with this code, when there is one. *)
Definition catalog_handler (mtype : N) : option Multicast.handler :=
  option_map snd
    (List.find (fun entry => fst entry =? mtype) Multicast.types).

(** *** The clock of a session *)

(** A computation that leaves the clock of the session alone: its midnight
    and its time base. *)
Definition keeps_clock {A} (m : M Multicast.Session A) : Prop :=
  forall s,
    Multicast.pitch_time (final (m s)) = Multicast.pitch_time s
    /\ Multicast.midnight (final (m s)) = Multicast.midnight s.

(** *** Direct lines *)

(** The value of a run of decimal digits. *)
Definition decimal (digits : str) : Z :=
  fold_left (fun acc c => (10 * acc + Z.of_N (c - 48))%Z) digits 0%Z.

(** A line that can be framed: a marker, seven decimal digits, one more
    character and the type code. *)
Definition framed (line : str) : bool :=
  (10 <=? length line)%nat && forallb Direct.is_digit (slice 1 8 line).

(** [LF.join(lines)]. *)
Fixpoint join_lines (lines : list str) : str :=
  match lines with
  | [] => []
  | [l] => l
  | l :: rest => l ++ 10 :: join_lines rest
  end.

Section Lines.

Variable midnight_of : str -> result Q.
Variable write_quote : list Direct.event -> option pyexn.

(** The handler the catalog lists under a type character: that of the
    entry with this character, when there is one. *)
Definition line_handler (m_type : N) : option Direct.handler :=
  option_map snd
    (List.find (fun entry => N_of_ascii (fst entry) =? m_type)
               (Direct.types midnight_of)).

(** A framed line handed to the handler of its type code, the tenth
    character; a type outside the catalog is passed over. *)
Definition frame_dispatch (line : str) : M Direct.Session unit :=
  match line_handler (nth 9 line 0) with
  | Some h =>
      do mid <- attr Direct.midnight "midnight";
      run Direct.process_msg_header write_quote h
            (Direct.date_format
               (mid + inject_Z (decimal (slice 1 8 line)))%Q)
            (skipn 10 line);
      ret tt
  | None => ret tt
  end.

Fixpoint frame_dispatch_all (lines : list str) : M Direct.Session unit :=
  match lines with
  | [] => ret tt
  | line :: rest =>
      match line with
      | [] => frame_dispatch_all rest
      | _ => run frame_dispatch line; frame_dispatch_all rest
      end
  end.

End Lines.

(** *** Flag tables *)

(** The decorated decoders of the direct feed, each with its table and with
    what its [get] falls back to ([None] where it is given no default). *)
Definition direct_decoders
  : list (string * (code -> M Direct.Session (option N))
          * list (ascii * N) * option N) :=
  [ ("market_mechanism", Direct.market_mechanism,
     Direct.market_mechanism_table, None);
    ("trading_mode", Direct.trading_mode, Direct.trading_mode_table, None);
    ("transaction_category", Direct.transaction_category,
     Direct.transaction_category_table, None);
    ("negotiated_trade", Direct.negotiated_trade,
     Direct.negotiated_trade_table, Some 2);
    ("crossing_trade", Direct.crossing_trade,
     Direct.crossing_trade_table, Some 2);
    ("modification_indicator", Direct.modification_indicator,
     Direct.modification_indicator_table, Some 3);
    ("benchmark_indicator", Direct.benchmark_indicator,
     Direct.benchmark_indicator_table, Some 2);
    ("ex_cum_dividend", Direct.ex_cum_dividend,
     Direct.ex_cum_dividend_table, Some 2);
    ("offbook_automated_indicator", Direct.offbook_automated_indicator,
     Direct.offbook_automated_indicator_table, Some 3);
    ("publication_indicator", Direct.publication_indicator,
     Direct.publication_indicator_table, Some 2) ]%string.

(** The decorated decoders of the multicast feed, each with the member of
    [Flags] it assigns and its table; every one falls back to 0. *)
Definition multicast_decoders
  : list (string * (code -> M Multicast.Session unit) * list (ascii * N)) :=
  [ ("market_mechanism", Multicast.market_mechanism,
     Multicast.market_mechanism_table);
    ("trading_mode", Multicast.trading_mode, Multicast.trading_mode_table);
    ("transaction_category", Multicast.transaction_category,
     Multicast.transaction_category_table);
    ("negotiated_trade", Multicast.negotiated_trade,
     Multicast.negotiated_trade_table);
    ("crossing_trade", Multicast.crossing_trade,
     Multicast.crossing_trade_table);
    ("modification_indicator", Multicast.modification_indicator,
     Multicast.modification_indicator_table);
    ("benchmark_indicator", Multicast.benchmark_indicator,
     Multicast.benchmark_indicator_table);
    ("ex_cum_dividend", Multicast.ex_cum_dividend,
     Multicast.ex_cum_dividend_table);
    ("offbook_automated_indicator", Multicast.offbook_automated_indicator,
     Multicast.offbook_automated_indicator_table);
    ("publication_indicator", Multicast.publication_indicator,
     Multicast.publication_indicator_table);
    ("trade_timing_indicator", Multicast.trade_timing_indicator,
     Multicast.trade_timing_indicator_table) ]%string.

(** What a table gives for a code: the enumerant listed for it, or the
    fallback. *)
Definition table_value (table : list (ascii * N)) (fallback : option N)
    (c : N) : option N :=
  match assoc_ascii c table with
  | Some v => Some v
  | None => fallback
  end.

(** *** Packed integers *)

(** [struct.pack] of one unsigned field of [w] bytes, low byte first. *)
Fixpoint le_bytes (w : nat) (v : N) : bytes :=
  match w with
  | O => []
  | S w' =>
      match Byte.of_N (v mod 256) with
      | Some b => b :: le_bytes w' (v / 256)
      | None => le_bytes w' (v / 256)
      end
  end.

Definition pack_uint (order : byteorder) (w : nat) (v : N) : bytes :=
  match order with
  | LittleEndian => le_bytes w v
  | BigEndian => rev (le_bytes w v)
  end.

(** *** Example inputs *)

(** A Trading Status body: time offset, symbol, status 'H', reserved. *)
Definition trading_status_H : bytes :=
  [x00; x00; x00; x00]%byte ++ bytes_lit "VODl    " ++ bytes_lit "H"
  ++ bytes_lit "   ".

(** An Add Order body (short form): time offset 500, order id, side 'B',
    250 shares, symbol, price 15000 (low byte first). *)
Definition add_order_body : bytes :=
  [xf4; x01; x00; x00]%byte ++ bytes_lit "ORDER001" ++ bytes_lit "B"
  ++ [xfa; x00]%byte ++ bytes_lit "VODl  " ++ [x98; x3a]%byte.

(** A session in the middle of a block: midnight at 1000, a time base of
    3600 (low byte first), sequence 7, a fresh [Flags]. *)
Definition session_in_block : Multicast.Session :=
  {| Multicast.midnight := Some 1000%Q;
     Multicast.pitch_time := Some [x10; x0e; x00; x00]%byte;
     Multicast.contract := Some 7;
     Multicast.flags := Some Multicast.Flags_new;
     Multicast.output := [] |}.

Definition add_order_fields : gmap string bytes :=
  Multicast.get_fields add_order_body
    (Multicast.names Multicast.msg_add_order).


(** A Time message whose body holds 3600000 (low byte first), and one
    holding 3600. *)
Definition time_message_3600000 : submessage :=
  {| m_len := x06; m_type := x20; m_body := [x80; xee; x36; x00]%byte |}.

Definition time_message_3600 : submessage :=
  {| m_len := x06; m_type := x20; m_body := [x10; x0e; x00; x00]%byte |}.

(** An Add Order message (type 0x22) carrying [add_order_body]. *)
Definition add_order_message : submessage :=
  {| m_len := x19; m_type := x22; m_body := add_order_body |}.

(** A quote writer that accepts everything. *)
Definition writer_accepts : list Multicast.event -> Multicast.Quote
                            -> option pyexn :=
  fun _ _ => None.

Definition closer_accepts : list Multicast.event -> option pyexn :=
  fun _ => None.

(** The header of a block of 39 bytes and 2 messages, unit 1, sequence 7
    (low bytes first). *)
Definition block_header : bytes :=
  [x27; x00; x02; x01; x07; x00; x00; x00]%byte.

(** A message of one body byte whose type, 0x05, the catalog does not
    list. *)
Definition unlisted_message : submessage :=
  {| m_len := x03; m_type := x05; m_body := [xff]%byte |}.

(** The header of a block of 42 bytes and 3 messages, unit 1, sequence 7. *)
Definition mixed_block_header : bytes :=
  [x2a; x00; x03; x01; x07; x00; x00; x00]%byte.

(** The header of a block of 10 bytes and 1 message, unit 1, sequence 7. *)
Definition short_block_header : bytes :=
  [x0a; x00; x01; x01; x07; x00; x00; x00]%byte.

(** A calendar that reads no date, and a direct-feed quote writer that
    accepts everything. *)
Definition no_calendar : str -> result Q := fun _ => Raise ValueError.

Definition direct_writer_accepts : list Direct.event -> option pyexn :=
  fun _ => None.

Definition direct_closer_accepts : list Direct.event -> option pyexn :=
  fun _ => None.

(** Direct-feed lines: a Clear for symbol "VODl", a Trading Status, a line
    of an unknown type, and a line too short to frame. *)
Definition clear_line : string := "S00000010sVODl    ".
Definition trading_status_line : string := "S00000010HVODl    T   ".
Definition unknown_line : string := "S00000020?zzz".
Definition short_line : string := "X".

(** *** Field spans *)

(** The span of the data a layout gives a name: that of its last
    occurrence. *)
Fixpoint field_span (names : list (string * nat)) (start : nat)
    (name : string) : option (nat * nat) :=
  match names with
  | [] => None
  | arg :: rest =>
      match field_span rest (start + arg.2) name with
      | Some span => Some span
      | None =>
          if String.eqb arg.1 name then Some (start, (start + arg.2)%nat)
          else None
      end
  end.

(** *** Hexadecimal dumps *)

(** The value of a lower-case hexadecimal digit, from its code point. *)
Definition hex_value (c : ascii) : option N :=
  let n := N_of_ascii c in
  if (48 <=? n) && (n <=? 57) then Some (n - 48)
  else if (97 <=? n) && (n <=? 102) then Some (n - 87)
  else None.

(** Reading a dump back: pairs of hexadecimal digits separated by single
    blanks. *)
Fixpoint from_bstr (s : string) : option bytes :=
  match s with
  | EmptyString => Some []
  | String h (String l rest) =>
      match hex_value h, hex_value l with
      | Some a, Some b =>
          match Byte.of_N (16 * a + b) with
          | Some x =>
              match rest with
              | EmptyString => Some [x]
              | String sep rest' =>
                  if Ascii.eqb sep " "
                  then option_map (cons x) (from_bstr rest')
                  else None
              end
          | None => None
          end
      | _, _ => None
      end
  | _ => None
  end.

(** *** What a message leaves behind *)

(** The members of [Flags] the handlers assign from a status byte of the
    message itself (and not through a decorated decoder). *)
Definition status_members : list string :=
  ["login_status"; "gap_status"; "trading_status"; "statistics_type"]%string.

(** A [Flags] instance on which every status member reads zero. *)
Definition no_status (f : Multicast.Flags) : Prop :=
  Forall (fun name => Multicast.flags_get name f = Some 0) status_members.

(** A computation that, entered with a [Flags] instance in place, leaves one
    in place, sets no status member on it, prints nothing and keeps the
    sequence number of the session. *)
Definition orderly {A} (m : M Multicast.Session A) : Prop :=
  forall s f,
    Multicast.flags s = Some f ->
    (exists f', Multicast.flags (final (m s)) = Some f'
                /\ (no_status f -> no_status f'))
    /\ Multicast.output (final (m s)) = Multicast.output s
    /\ Multicast.contract (final (m s)) = Multicast.contract s.


(** *** Streams of blocks *)

(** A sequence block: its unit, the sequence number of its first message
    and its sub-messages. *)
Record block := {
  b_unit : N;
  b_seq : N;
  b_msgs : list submessage
}.

(** The bytes of a block: the header (length of the whole block, message
    count, unit, sequence) packed in the given byte order, then the
    sub-messages. *)
Definition encode_block (order : byteorder) (b : block) : bytes :=
  pack_uint order 2 (N.of_nat (8 + declared_length (b_msgs b)))
  ++ pack_uint order 1 (N.of_nat (length (b_msgs b)))
  ++ pack_uint order 1 (b_unit b)
  ++ pack_uint order 4 (b_seq b)
  ++ flat_map encode (b_msgs b).

(** A block whose header fields fit their widths and whose sub-messages
    declare their own lengths. *)
Definition well_formed (b : block) : Prop :=
  Forall well_sized (b_msgs b)
  /\ N.of_nat (8 + declared_length (b_msgs b)) < 65536
  /\ N.of_nat (length (b_msgs b)) < 256
  /\ b_unit b < 256
  /\ b_seq b < 4294967296.

Section Streams.

Variable native : byteorder.
Variable write_quote : list Multicast.event -> Multicast.Quote -> option pyexn.
Variable close_quotes : list Multicast.event -> option pyexn.

(** The blocks of a stream in turn: the messages of each dispatched under
    its sequence number, each handed to the handler the catalog lists for
    its type, then the flush. *)
Fixpoint dispatch_blocks (blocks : list block) : M Multicast.Session unit :=
  match blocks with
  | [] => ret tt
  | b :: rest =>
      run hand_all native write_quote (b_seq b) (b_msgs b)
            (map (fun m => catalog_handler (Byte.to_N (m_type m)))
                 (b_msgs b));
      run Multicast.call_close_quotes close_quotes;
      dispatch_blocks rest
  end.

End Streams.

(** *** Output of the direct feed *)

(** The failures the [flag] decorator prints for a run of decoders. *)
Definition flag_failures (decoders : list string) : list Direct.event :=
  map (fun name => Direct.FlagFailed name TypeError) decoders.

(** The output with a run of events added. *)
Definition emit_all (evs : list Direct.event) (s : Direct.Session)
  : Direct.Session :=
  {| Direct.midnight := Direct.midnight s;
     Direct.output := Direct.output s ++ evs |}.

(** A computation of the direct feed that adds to the output without
    flushing. *)
Definition unflushed {A} (m : M Direct.Session A) : Prop :=
  forall s,
    exists evs,
      Direct.output (final (m s)) = Direct.output s ++ evs
      /\ Forall (fun e => e <> Direct.QuotesClosed) evs.

(** The handlers of the direct feed that decode no flag group and read no
    field the layout does not name. *)
Definition lenient_handlers : list Direct.handler :=
  [ Direct.msg_clear; Direct.msg_add_order; Direct.msg_add_order_long;
    Direct.msg_add_order_exp; Direct.msg_order_cancel;
    Direct.msg_order_cancel_long; Direct.msg_trade_break;
    Direct.msg_statistics; Direct.msg_auction_update;
    Direct.msg_auction_summary ].

(** A byte value that no UTF-8 encoding contains: 0xC0, 0xC1 and 0xF5 to
    0xFF. *)
Definition never_in_utf8 (b : N) : Prop := b = 192 \/ b = 193 \/ 245 <= b.

(** *** Further example inputs *)

(** A Login message (type 0x01) of 20 bytes. *)
Definition login_message : submessage :=
  {| m_len := x16; m_type := x01;
     m_body := bytes_lit "0001USER  PASSWORD01" |}.

(** An Add Order body of the expanded form: time offset 500, order id, side
    'S', 250 shares, symbol, long price 15000000, order flags, participant
    (low bytes first). *)
Definition add_order_exp_body : bytes :=
  [xf4; x01; x00; x00]%byte ++ bytes_lit "ORDER002" ++ bytes_lit "S"
  ++ [xfa; x00; x00; x00]%byte ++ bytes_lit "VODl    "
  ++ [xc0; xe1; xe4; x00; x00; x00; x00; x00]%byte ++ [x00]%byte
  ++ bytes_lit "BANK".

(** A stream of two blocks: a Time message and an Add Order under sequence
    7, then a Login message under sequence 9. *)
Definition two_blocks : list block :=
  [ {| b_unit := 1; b_seq := 7;
       b_msgs := [time_message_3600; add_order_message] |};
    {| b_unit := 1; b_seq := 9; b_msgs := [login_message] |} ].

(** A calendar that reads one date, 1 January 1970, as midnight 0. *)
Definition epoch_calendar : str -> result Q :=
  fun s => if bool_decide (s = lit "19700101") then Ok 0%Q
           else Raise ValueError.

(** The body of a Trade Report: 100 shares of "VODl" on 1 January 1970 at
    34200 seconds, with eleven flag characters. *)
Definition trade_report_body : string :=
  "000000000100VODl    00000000012345000000000000A1B2C1970010100034200XLONGBP-----------".

(** *** Lines of the direct feed *)

(** The type codes of the lenient handlers: s, A, c, t, X, x, B, Z, k, j. *)
Definition lenient_codes : list N :=
  map N_of_ascii ["s"; "A"; "c"; "t"; "X"; "x"; "B"; "Z"; "k"; "j"]%char.

Definition lenient_code (c : N) : bool := existsb (N.eqb c) lenient_codes.

Section Accepted.

Variable midnight_of : str -> result Q.

(** A line the direct parser gets through whatever its body: an empty
    line, or a framed line whose type code is lenient or unknown. *)
Definition accepted_line (line : str) : bool :=
  match line with
  | [] => true
  | _ =>
      framed line
      && (lenient_code (nth 9 line 0)
          || match Direct.types_get midnight_of (nth 9 line 0) with
             | Some _ => false
             | None => true
             end)
  end.

End Accepted.

(** A line that has a quote written: a line, not empty, of a lenient
    type. *)
Definition written_line (line : str) : bool :=
  match line with
  | [] => false
  | _ => lenient_code (nth 9 line 0)
  end.

(** An Add Order message whose length byte is zero. *)
Definition stuck_message : bytes := [x00; x22]%byte.

End Reading.

(** * Properties *)

Import Py Monad Reading.

(** ** The monad *)

Lemma bind_ok {S A B} (m : M S A) (k : A -> M S B) s a s' :
  m s = (Ok a, s') -> bind m k s = k a s'.
Proof. intros H. unfold bind. now rewrite H. Qed.

Lemma bind_raise {S A B} (m : M S A) (k : A -> M S B) s e s' :
  m s = (Raise e, s') -> bind m k s = (Raise e, s').
Proof. intros H. unfold bind. now rewrite H. Qed.

Lemma try_except_ok {S A} (m : M S A) h s a s' :
  m s = (Ok a, s') -> try_except m h s = (Ok a, s').
Proof. intros H. unfold try_except. now rewrite H. Qed.

Lemma try_except_raise {S A} (m : M S A) h s e s' :
  m s = (Raise e, s') -> try_except m h s = h e s'.
Proof. intros H. unfold try_except. now rewrite H. Qed.

Lemma run_pair {S A} (r : result A * S) : r = (outcome r, final r).
Proof. destruct r; reflexivity. Qed.

Lemma bind_outcome_ok {S A B} (m : M S A) (k : A -> M S B) s a :
  outcome (m s) = Ok a -> bind m k s = k a (final (m s)).
Proof.
  intros H. apply bind_ok. rewrite (run_pair (m s)), H. reflexivity.
Qed.

(** ** Layouts *)

(** A name that no layout entry carries is bound to nothing. *)
Lemma mc_get_fields_from_absent data name :
  forall names start fields,
    fields !! name = None ->
    Forall (fun arg => arg.1 <> name) names ->
    Multicast.get_fields_from data start names fields !! name = None.
Proof.
  induction names as [|arg names IH]; intros start fields Hf Hn; simpl.
  - exact Hf.
  - inversion Hn as [|? ? Harg Hrest]; subst.
    apply IH; [|exact Hrest].
    rewrite lookup_insert_ne; [exact Hf | exact Harg].
Qed.

Lemma mc_get_fields_absent data names name :
  Forall (fun arg => arg.1 <> name) names ->
  Multicast.get_fields data names !! name = None.
Proof.
  intros H. unfold Multicast.get_fields.
  apply mc_get_fields_from_absent; [apply lookup_empty | exact H].
Qed.

(** ** The multicast dispatcher *)

Section MulticastDispatcher.

Variable native : byteorder.
Variable write_quote : list Multicast.event -> Multicast.Quote -> option pyexn.

(** The decorated handler returns whatever happens under its [try]: the
    bytes after the declared width. *)
Lemma mc_process_msg_header_outcome h data s :
  outcome (Multicast.process_msg_header native write_quote h data s)
  = Ok (skipn (Multicast.msg_len h) data).
Proof.
  unfold Multicast.process_msg_header, bind, try_except, ret, outcome.
  destruct (Multicast.decode_and_write native write_quote h data s)
    as [[[]|e] s']; reflexivity.
Qed.

(** When the guarded part raises, the message is reported, with the name of
    the handler and the dump of the bytes it was given, and nothing else
    changes. *)
Lemma mc_process_msg_header_raise h data s e s' :
  Multicast.decode_and_write native write_quote h data s = (Raise e, s') ->
  Multicast.process_msg_header native write_quote h data s
  = (Ok (skipn (Multicast.msg_len h) data),
     Multicast.emit
       (Multicast.Discarded (Multicast.h_name h)
          (Multicast.to_bstr (slice 0 (Multicast.msg_len h) data)) e) s').
Proof.
  intros H.
  unfold Multicast.process_msg_header, bind, try_except.
  rewrite H. reflexivity.
Qed.

Lemma mc_process_msg_header_ok h data s s' :
  Multicast.decode_and_write native write_quote h data s = (Ok tt, s') ->
  Multicast.process_msg_header native write_quote h data s
  = (Ok (skipn (Multicast.msg_len h) data), s').
Proof.
  intros H.
  unfold Multicast.process_msg_header, bind, try_except.
  rewrite H. reflexivity.
Qed.

(** A handler whose body starts by reading a field its layout does not
    name raises [KeyError] under any input. *)
Lemma mc_missing_field_raises h flag_name table field data s :
  Multicast.body h
  = (fun fields =>
       run Multicast.store_field_lookup flag_name table fields field;
       ret fields) ->
  Forall (fun arg => arg.1 <> field) (Multicast.names h) ->
  Multicast.decode_and_write native write_quote h data s
  = (Raise (KeyError field),
     Multicast.set_flags (Some Multicast.Flags_new) s).
Proof.
  intros Hbody Hnames.
  unfold Multicast.decode_and_write, Multicast.func.
  rewrite Hbody.
  unfold bind at 1. unfold modify at 1.
  unfold bind at 1. unfold bind at 1.
  unfold Multicast.store_field_lookup, Multicast.getitem.
  rewrite (mc_get_fields_absent _ _ _ Hnames).
  reflexivity.
Qed.

(** C9. In the multicast variant the Auction Update (0x95) and Auction
    Summary (0x96) handlers are in the catalog and, whatever body they are
    handed, take the error path of the dispatcher: reading
    [fields['flags']] raises [KeyError], since their layouts name that byte
    [auction_type]; the message is reported and discarded, the quote writer
    is not called, and the bytes after the declared width are returned. *)
Theorem C9_auction_handlers_always_discard (data : bytes)
    (s : Multicast.Session) :
  Multicast.types_get 0x95 Multicast.types = Some Multicast.msg_auction_update
  /\ Multicast.types_get 0x96 Multicast.types
     = Some Multicast.msg_auction_summary
  /\ Multicast.process_msg_header native write_quote
       Multicast.msg_auction_update data s
     = (Ok (skipn 45 data),
        Multicast.emit
          (Multicast.Discarded "msg_auction_update"
             (Multicast.to_bstr (slice 0 45 data)) (KeyError "flags"))
          (Multicast.set_flags (Some Multicast.Flags_new) s))
  /\ Multicast.process_msg_header native write_quote
       Multicast.msg_auction_summary data s
     = (Ok (skipn 47 data),
        Multicast.emit
          (Multicast.Discarded "msg_auction_summary"
             (Multicast.to_bstr (slice 0 47 data)) (KeyError "flags"))
          (Multicast.set_flags (Some Multicast.Flags_new) s)).
Proof.
  split; [reflexivity|]. split; [reflexivity|].
  split.
  - apply (mc_process_msg_header_raise Multicast.msg_auction_update).
    apply (mc_missing_field_raises _ "auction_type"
             Multicast.auction_type_table "flags");
      [reflexivity | repeat constructor; discriminate].
  - apply (mc_process_msg_header_raise Multicast.msg_auction_summary).
    apply (mc_missing_field_raises _ "auction_type"
             Multicast.auction_type_table "flags");
      [reflexivity | repeat constructor; discriminate].
Qed.

End MulticastDispatcher.

(** ** The [Flags] bit fields *)

(** A declared member keeps the assigned value modulo two to its width. *)
Lemma flags_get_set name w v f :
  Multicast.assoc_string name Multicast.FlagsBits_fields = Some w ->
  Multicast.flags_get name (Multicast.flags_set name v f)
  = Some (v mod 2 ^ w).
Proof.
  intros Hw. unfold Multicast.flags_get, Multicast.flags_set.
  rewrite Hw. simpl. rewrite lookup_insert_eq. reflexivity.
Qed.

(** The three-bit [trading_status] member cannot tell the enumerants above
    seven from those below: 8, 9, 10 and 11 are kept as 0, 1, 2 and 3. *)
Lemma trading_status_field_wraps f :
  Multicast.flags_get "trading_status"
    (Multicast.flags_set "trading_status" 8 f) = Some 0
  /\ Multicast.flags_get "trading_status"
       (Multicast.flags_set "trading_status" 9 f)
     = Multicast.flags_get "trading_status"
         (Multicast.flags_set "trading_status" 1 f)
  /\ Multicast.flags_get "trading_status"
       (Multicast.flags_set "trading_status" 10 f) = Some 2
  /\ Multicast.flags_get "trading_status"
       (Multicast.flags_set "trading_status" 11 f) = Some 3.
Proof.
  repeat split;
    rewrite ?(flags_get_set "trading_status" 3) by reflexivity;
    reflexivity.
Qed.

(** A table keyed by [str] is never hit by a [bytes] key. *)
Lemma str_table_get_bytes {V} (table : list (ascii * V)) (key : bytes) :
  str_table_get table (KBytes key) = None.
Proof. reflexivity. Qed.

(** C10. The [trading_status] member of [Flags] is three bits wide, and
    the Trading Status handler looks the status byte up in its table and
    assigns the result to it; the claim expects status 'H' (enumerant 9) to
    be kept as 1.  The handler keeps 0 instead, for 'H' and for every other
    body: the key it looks up is the [bytes] slice of the field, the table
    is keyed by [str], and the lookup falls to its default. *)
Theorem C10_trading_status_lookup_never_hits (data : bytes)
    (s : Multicast.Session) :
  (exists f,
     Multicast.flags
       (final (Multicast.func Multicast.msg_trading_status
                 (slice 0 21 trading_status_H)
                 (Multicast.set_flags (Some Multicast.Flags_new) s)))
     = Some f
     /\ Multicast.flags_get "trading_status" f = Some 0)
  /\ (exists f,
        Multicast.flags
          (final (Multicast.func Multicast.msg_trading_status
                    (slice 0 21 data)
                    (Multicast.set_flags (Some Multicast.Flags_new) s)))
        = Some f
        /\ Multicast.flags_get "trading_status" f = Some 0).
Proof.
  assert (Hany : forall d : bytes,
    exists f,
      Multicast.flags
        (final (Multicast.func Multicast.msg_trading_status d
                  (Multicast.set_flags (Some Multicast.Flags_new) s)))
      = Some f
      /\ Multicast.flags_get "trading_status" f = Some 0).
  { intros d.
    unfold Multicast.func, Multicast.msg_trading_status, Multicast.body.
    unfold Multicast.get_fields. simpl Multicast.get_fields_from.
    unfold bind at 1. unfold Multicast.store_field_lookup.
    unfold bind at 1. unfold lift, Multicast.getitem.
    rewrite lookup_insert_ne by discriminate.
    rewrite lookup_insert_eq.
    rewrite str_table_get_bytes.
    eexists. split; reflexivity. }
  split; apply Hany.
Qed.

(** ** Catalog widths *)

(** C2, as stated, fails on its own two examples and on the multicast
    trading-status entry: the direct add-order layout sums to 36 under a
    declared width of 45, the multicast auction-summary layout to 25 under
    47, and the multicast trading-status layout to 16 under 21. *)
Lemma C2_counterexample :
  layout_width (Direct.names Direct.msg_add_order) = 36%nat
  /\ Direct.msg_len Direct.msg_add_order = 45%nat
  /\ layout_width (Multicast.names Multicast.msg_auction_summary) = 25%nat
  /\ Multicast.msg_len Multicast.msg_auction_summary = 47%nat
  /\ layout_width (Multicast.names Multicast.msg_trading_status) = 16%nat
  /\ Multicast.msg_len Multicast.msg_trading_status = 21%nat.
Proof. repeat split. Qed.

(** C2, amended. In the direct catalog the declared width of every entry
    but Clear is the sum of its layout plus 9, the timestamp and type code
    that precede the body on the line, and the declared width of Clear is
    the sum of its layout.  In the multicast catalog the declared width of
    every entry other than trading-status (0x31) and auction-summary (0x96)
    is the sum of its layout.  The catalogs have 16 and 25 entries. *)
Theorem C2_declared_widths (midnight_of : str -> result Q) :
  Forall (fun entry =>
            Direct.msg_len entry.2
            = (layout_width (Direct.names entry.2)
               + (if Ascii.eqb entry.1 "s" then 0 else 9))%nat)
         (Direct.types midnight_of)
  /\ Forall (fun entry =>
               Multicast.msg_len entry.2
               = layout_width (Multicast.names entry.2))
            (List.filter
               (fun entry => negb ((entry.1 =? 0x31) || (entry.1 =? 0x96)))
               Multicast.types)
  /\ length (Direct.types midnight_of) = 16%nat
  /\ length Multicast.types = 25%nat.
Proof.
  split; [|split; [|split; reflexivity]].
  - unfold Direct.types. repeat (constructor; [reflexivity|]). constructor.
  - simpl. repeat (constructor; [reflexivity|]). constructor.
Qed.

(** ** Flag decoders *)

Lemma chr_byte (b : byte) : chr (CInt (Byte.to_N b)) = Ok [Byte.to_N b].
Proof.
  unfold chr.
  assert (H : Byte.to_N b < 1114112)
    by (pose proof (Byte.to_N_bounded b); lia).
  apply N.ltb_lt in H. rewrite H. reflexivity.
Qed.

(** A direct decoder handed an [int]: the table value, or what its [get]
    falls back to. *)
Lemma direct_flag_int name func (b : byte) (s : Direct.Session) :
  Direct.flag name func (CInt (Byte.to_N b)) s
  = (Ok (func [Byte.to_N b]), s).
Proof.
  unfold Direct.flag, try_except, bind, lift. rewrite chr_byte. reflexivity.
Qed.

(** A direct decoder handed a one-character [str]: [chr] raises
    [TypeError], the decorator prints it and returns [None]. *)
Lemma direct_flag_str name func (c : N) (s : Direct.Session) :
  Direct.flag name func (CStr [c]) s
  = (Ok None, Direct.emit (Direct.FlagFailed name TypeError) s).
Proof. reflexivity. Qed.

(** A multicast decoder handed an [int], under a session that holds a
    [Flags] instance: the table value, or 0, is assigned to the member. *)
Lemma multicast_flag_int name table (b : byte) f (s : Multicast.Session) :
  Multicast.flag name (Multicast.store_lookup name table)
    (CInt (Byte.to_N b)) (Multicast.set_flags (Some f) s)
  = (Ok tt,
     Multicast.set_flags
       (Some (Multicast.flags_set name
                (default 0 (assoc_ascii (Byte.to_N b) table)) f)) s).
Proof.
  unfold Multicast.flag, try_except, bind, lift. rewrite chr_byte.
  reflexivity.
Qed.

(** C4, as stated, fails on the direct-feed [market_mechanism] table: it
    has no default, and for the undocumented code 'Z' the decoder returns
    [None], no enumerant at all. *)
Lemma C4_counterexample :
  Direct.market_mechanism (CInt 90) Direct.Session_new
  = (Ok None, Direct.Session_new).
Proof. reflexivity. Qed.

(** C4, amended. For every decorated flag table of either variant and
    every single-byte code handed over as an [int]: a documented code gives
    the documented enumerant; an undocumented code gives the fallback of the
    table, which is 0 for every multicast table, 2 or 3 for the seven direct
    tables that declare one (3 for [modification_indicator]), and [None]
    for the three direct tables that declare none ([market_mechanism],
    [trading_mode], [transaction_category]).  The direct decoders return the
    value; the multicast decoders assign it to their member of [Flags],
    which is wide enough to keep it. *)
Theorem C4_flag_tables :
  Forall (fun '(name, decoder, table, fallback) =>
            forall (b : byte) (s : Direct.Session),
              decoder (CInt (Byte.to_N b)) s
              = (Ok (table_value table fallback (Byte.to_N b)), s))
         direct_decoders
  /\ Forall (fun '(name, decoder, table) =>
               forall (b : byte) (f : Multicast.Flags)
                      (s : Multicast.Session),
                 exists f',
                   decoder (CInt (Byte.to_N b))
                     (Multicast.set_flags (Some f) s)
                   = (Ok tt, Multicast.set_flags (Some f') s)
                   /\ Multicast.flags_get name f'
                      = table_value table (Some 0) (Byte.to_N b))
            multicast_decoders.
Proof.
  split.
  - unfold direct_decoders.
    repeat (constructor;
            [intros b s;
             cbv [Direct.market_mechanism Direct.trading_mode
                  Direct.transaction_category Direct.negotiated_trade
                  Direct.crossing_trade Direct.modification_indicator
                  Direct.benchmark_indicator Direct.ex_cum_dividend
                  Direct.offbook_automated_indicator
                  Direct.publication_indicator];
             rewrite direct_flag_int;
             unfold table_value, Direct.lookup, Direct.lookup_or,
               str_table_get;
             destruct (assoc_ascii _ _); reflexivity|]).
    constructor.
  - unfold multicast_decoders.
    repeat (constructor;
            [intros b f s; eexists; split;
             [cbv [Multicast.market_mechanism Multicast.trading_mode
                   Multicast.transaction_category Multicast.negotiated_trade
                   Multicast.crossing_trade Multicast.modification_indicator
                   Multicast.benchmark_indicator Multicast.ex_cum_dividend
                   Multicast.offbook_automated_indicator
                   Multicast.publication_indicator
                   Multicast.trade_timing_indicator];
              apply multicast_flag_int|];
             erewrite flags_get_set by reflexivity;
             unfold table_value;
             destruct b; reflexivity|]).
    constructor.
Qed.

(** ** Prices *)





(** The price of an entry is decided by the last two [map_entry] calls on
    prices: the short price when the field is present, else the long one. *)
Lemma map_entries_price order fields entry :
  Multicast.map_entries order fields = Ok entry ->
  (forall x, fields !! "pitch_price_s" = Some x ->
     exists p, Multicast.short_price order x = Ok p
               /\ Multicast.e_price entry = Some p)
  /\ (fields !! "pitch_price_s" = None ->
      forall x, fields !! "pitch_price_l" = Some x ->
        exists p, Multicast.long_price order x = Ok p
                  /\ Multicast.e_price entry = Some p).
Proof.
  unfold Multicast.map_entries, Multicast.map_entry.
  intros H.
  destruct (fields !! "pitch_shares_s") as [x1|];
    [destruct (unpack_uint order 2 x1); [|discriminate]|];
    simpl in H;
    (destruct (fields !! "pitch_shares_l") as [x2|];
     [destruct (unpack_uint order 4 x2); [|discriminate]|]);
    simpl in H;
    (destruct (fields !! "pitch_shares_ll") as [x3|];
     [destruct (unpack_uint order 8 x3); [|discriminate]|]);
    simpl in H;
    (destruct (fields !! "pitch_price_l") as [x4|];
     [destruct (Multicast.long_price order x4) eqn:Hl; [|discriminate]|]);
    simpl in H;
    (destruct (fields !! "pitch_price_s") as [x5|];
     [destruct (Multicast.short_price order x5) eqn:Hs; [|discriminate]|]);
    simpl in H;
    (destruct (fields !! "pitch_side") as [x6|]);
    simpl in H; injection H as <-; simpl;
    (split; [intros x [= <-] | intros Hn x Hx]);
    try discriminate; try (injection Hx as <-); eauto.
Qed.




(** ** The time base *)

Create HintDb clock.

Lemma keeps_ret {A} (a : A) : keeps_clock (ret a).
Proof. intros s. split; reflexivity. Qed.

Lemma keeps_raise {A} e : keeps_clock (@raise Multicast.Session A e).
Proof. intros s. split; reflexivity. Qed.

Lemma keeps_lift {A} (r : result A) : keeps_clock (lift r).
Proof. intros s. split; reflexivity. Qed.

Lemma keeps_attr {A} (f : Multicast.Session -> option A) name :
  keeps_clock (attr f name).
Proof. intros s. unfold attr. destruct (f s); split; reflexivity. Qed.

Lemma keeps_bind {A B} (m : M Multicast.Session A)
    (k : A -> M Multicast.Session B) :
  keeps_clock m -> (forall a, keeps_clock (k a)) -> keeps_clock (bind m k).
Proof.
  intros Hm Hk s. unfold bind.
  destruct (Hm s) as [Hp Hn]. unfold final in *.
  destruct (m s) as [[a|e] s1]; simpl in *.
  - destruct (Hk a s1) as [Hp' Hn']. unfold final in *.
    split; congruence.
  - split; assumption.
Qed.

Lemma keeps_try_except {A} (m : M Multicast.Session A) h :
  keeps_clock m -> (forall e, keeps_clock (h e)) ->
  keeps_clock (try_except m h).
Proof.
  intros Hm Hh s. unfold try_except.
  destruct (Hm s) as [Hp Hn]. unfold final in *.
  destruct (m s) as [[a|e] s1]; simpl in *.
  - split; assumption.
  - destruct (Hh e s1) as [Hp' Hn']. unfold final in *.
    split; congruence.
Qed.

Lemma keeps_set_flags v : keeps_clock (modify (Multicast.set_flags v)).
Proof. intros s. split; reflexivity. Qed.

Lemma keeps_set_contract v : keeps_clock (modify (Multicast.set_contract v)).
Proof. intros s. split; reflexivity. Qed.

Lemma keeps_emit e : keeps_clock (modify (Multicast.emit e)).
Proof. intros s. split; reflexivity. Qed.

#[local] Hint Resolve keeps_ret keeps_raise keeps_lift keeps_attr
  keeps_set_flags keeps_set_contract keeps_emit : clock.
#[local] Hint Extern 2 (keeps_clock (bind _ _)) =>
  apply keeps_bind; [|intros ?] : clock.
#[local] Hint Extern 2 (keeps_clock (try_except _ _)) =>
  apply keeps_try_except; [|intros ?] : clock.

Lemma keeps_assign_flag name v : keeps_clock (Multicast.assign_flag name v).
Proof. unfold Multicast.assign_flag. auto with clock. Qed.
#[local] Hint Resolve keeps_assign_flag : clock.

Lemma keeps_flag name table c :
  keeps_clock (Multicast.flag name (Multicast.store_lookup name table) c).
Proof.
  unfold Multicast.flag, Multicast.store_lookup. auto with clock.
Qed.

Lemma keeps_decode_at name table data i :
  keeps_clock
    (Multicast.decode_at
       (Multicast.flag name (Multicast.store_lookup name table)) data i).
Proof.
  unfold Multicast.decode_at.
  apply keeps_bind; [auto with clock | intros b; apply keeps_flag].
Qed.
#[local] Hint Resolve keeps_decode_at : clock.

Lemma keeps_store_field_lookup name table fields field :
  keeps_clock (Multicast.store_field_lookup name table fields field).
Proof. unfold Multicast.store_field_lookup. auto with clock. Qed.
#[local] Hint Resolve keeps_store_field_lookup : clock.

Ltac unfold_decoders :=
  cbv [Multicast.market_mechanism Multicast.trading_mode
       Multicast.transaction_category Multicast.negotiated_trade
       Multicast.crossing_trade Multicast.modification_indicator
       Multicast.benchmark_indicator Multicast.ex_cum_dividend
       Multicast.offbook_automated_indicator
       Multicast.publication_indicator Multicast.trade_timing_indicator].

Lemma keeps_parse_order_execution_flag data :
  keeps_clock (Multicast.parse_order_execution_flag data).
Proof.
  unfold Multicast.parse_order_execution_flag. unfold_decoders.
  auto 20 with clock.
Qed.

Lemma keeps_parse_trade_flags data :
  keeps_clock (Multicast.parse_trade_flags data).
Proof.
  unfold Multicast.parse_trade_flags. unfold_decoders.
  auto 20 with clock.
Qed.

Lemma keeps_parse_trade_report_flags data :
  keeps_clock (Multicast.parse_trade_report_flags data).
Proof.
  unfold Multicast.parse_trade_report_flags. unfold_decoders.
  auto 40 with clock.
Qed.
#[local] Hint Resolve keeps_parse_order_execution_flag
  keeps_parse_trade_flags keeps_parse_trade_report_flags : clock.

(** Every handler of the catalog but the Time handler leaves the clock
    alone. *)
Lemma keeps_body t h :
  Multicast.types_get t Multicast.types = Some h ->
  t <> 0x20 ->
  forall fields, keeps_clock (Multicast.body h fields).
Proof.
  unfold Multicast.types. cbn [Multicast.types_get].
  repeat match goal with
         | |- (if ?c then _ else _) = _ -> _ =>
             let E := fresh "E" in
             destruct c eqn:E;
             [intros [= <-] Ht fields;
              try (apply N.eqb_eq in E; congruence);
              cbn [Multicast.body Multicast.msg_login
                   Multicast.msg_login_response Multicast.msg_gap_request
                   Multicast.msg_gap_response Multicast.msg_clear
                   Multicast.msg_add_order Multicast.msg_add_order_long
                   Multicast.msg_add_order_exp Multicast.msg_order_executed
                   Multicast.msg_order_executed_price
                   Multicast.msg_reduce_size_long
                   Multicast.msg_reduce_size_short
                   Multicast.msg_modify_order_long
                   Multicast.msg_modify_order_short
                   Multicast.msg_delete_order Multicast.msg_trade_short
                   Multicast.msg_trade_long Multicast.msg_trade_break
                   Multicast.msg_trade_report Multicast.msg_end_session
                   Multicast.msg_trading_status Multicast.msg_statistics
                   Multicast.msg_auction_update
                   Multicast.msg_auction_summary];
              auto 20 with clock|]
         end.
  intros; discriminate.
Qed.

(** The lookup of the parser finds the handler the catalog lists. *)
Lemma types_get_catalog mtype :
  Multicast.types_get mtype Multicast.types = catalog_handler mtype.
Proof.
  unfold catalog_handler.
  induction Multicast.types as [|[k h] l IH]; [reflexivity|].
  cbn [Multicast.types_get List.find fst].
  destruct (k =? mtype); [reflexivity|exact IH].
Qed.

(** Dispatching the messages of a block is handing each to the handler the
    catalog lists for its type. *)
Lemma dispatch_all_catalog native write_quote seq msgs :
  dispatch_all native write_quote seq msgs
  = hand_all native write_quote seq msgs
      (map (fun m => catalog_handler (Byte.to_N (m_type m))) msgs).
Proof.
  induction msgs as [|m msgs IH]; [reflexivity|].
  cbn [dispatch_all hand_all map]. rewrite IH.
  unfold dispatch, hand. now rewrite types_get_catalog.
Qed.

Section Clock.

Variable native : byteorder.
Variable write_quote : list Multicast.event -> Multicast.Quote -> option pyexn.

Lemma keeps_get_ts fields : keeps_clock (Multicast.get_ts native fields).
Proof.
  unfold Multicast.get_ts.
  destruct (fields !! "pitch_time_offset"); auto 20 with clock.
Qed.

Lemma keeps_map_quote fields : keeps_clock (Multicast.map_quote native fields).
Proof.
  unfold Multicast.map_quote.
  pose proof keeps_get_ts. auto 20 with clock.
Qed.

Lemma keeps_call_write_quote q :
  keeps_clock (Multicast.call_write_quote write_quote q).
Proof.
  intros s. unfold Multicast.call_write_quote.
  destruct (write_quote (Multicast.output s) q); split; reflexivity.
Qed.

(** Under the decorator, only the handler's own function can move the
    clock: what follows it (mapping, writing, reporting) leaves it alone. *)
Lemma process_msg_header_clock h data s :
  Multicast.pitch_time
    (final (Multicast.process_msg_header native write_quote h data s))
  = Multicast.pitch_time
      (final (Multicast.func h (slice 0 (Multicast.msg_len h) data)
                (Multicast.set_flags (Some Multicast.Flags_new) s)))
  /\ Multicast.midnight
       (final (Multicast.process_msg_header native write_quote h data s))
     = Multicast.midnight
         (final (Multicast.func h (slice 0 (Multicast.msg_len h) data)
                   (Multicast.set_flags (Some Multicast.Flags_new) s))).
Proof.
  assert (Htail : forall fields,
    keeps_clock
      (do q_map <- Multicast.map_quote native fields;
       run Multicast.call_write_quote write_quote q_map;
       modify (Multicast.set_flags None))).
  { intros fields. pose proof keeps_map_quote.
    pose proof keeps_call_write_quote. auto 20 with clock. }
  remember (Multicast.process_msg_header native write_quote h data s)
    as r eqn:Hr.
  unfold Multicast.process_msg_header, Multicast.decode_and_write in Hr.
  unfold bind at 1 in Hr. unfold try_except in Hr.
  unfold bind at 1 in Hr. unfold modify at 1 in Hr.
  unfold bind at 1 in Hr.
  unfold final.
  destruct (Multicast.func h (slice 0 (Multicast.msg_len h) data)
              (Multicast.set_flags (Some Multicast.Flags_new) s))
    as [[fields|e] s1]; simpl.
  - specialize (Htail fields s1). unfold final in Htail.
    destruct ((do q_map <- Multicast.map_quote native fields;
               run Multicast.call_write_quote write_quote q_map;
               modify (Multicast.set_flags None)) s1) as [[[]|e] s2];
      subst r; simpl in *; exact Htail.
  - subst r. split; reflexivity.
Qed.

(** A handler other than the Time handler leaves the clock alone. *)
Lemma process_msg_header_keeps t h data :
  Multicast.types_get t Multicast.types = Some h ->
  t <> 0x20 ->
  keeps_clock (Multicast.process_msg_header native write_quote h data).
Proof.
  intros Hh Ht s.
  destruct (process_msg_header_clock h data s) as [Hp Hm].
  rewrite Hp, Hm.
  destruct (keeps_body t h Hh Ht
              (Multicast.get_fields (slice 0 (Multicast.msg_len h) data)
                 (Multicast.names h))
              (Multicast.set_flags (Some Multicast.Flags_new) s))
    as [Hp' Hm'].
  unfold Multicast.func. rewrite Hp', Hm'. split; reflexivity.
Qed.

(** The Time handler stores the first four bytes of its body as the new
    time base, whatever becomes of the message afterwards. *)
Lemma process_msg_header_time data s :
  Multicast.pitch_time
    (final (Multicast.process_msg_header native write_quote
              Multicast.msg_time data s))
  = Some (slice 0 4 data)
  /\ Multicast.midnight
       (final (Multicast.process_msg_header native write_quote
                 Multicast.msg_time data s))
     = Multicast.midnight s.
Proof.
  destruct (process_msg_header_clock Multicast.msg_time data s) as [Hp Hm].
  rewrite Hp, Hm. clear Hp Hm.
  unfold Multicast.func, Multicast.msg_time, Multicast.body,
    Multicast.msg_len, Multicast.names, Multicast.get_fields.
  cbn [Multicast.get_fields_from fst snd].
  unfold bind at 1. unfold lift, Multicast.getitem.
  rewrite lookup_insert_eq.
  simpl. split; [|reflexivity].
  unfold slice. simpl. f_equal.
  destruct data as [|a [|b [|c [|d data]]]]; reflexivity.
Qed.

(** A message is dispatched without raising; it leaves what its handler
    leaves, or the session as it was when its type is unknown. *)
Lemma dispatch_run seq m s :
  dispatch native write_quote seq m s
  = (Ok tt,
     match Multicast.types_get (Byte.to_N (m_type m)) Multicast.types with
     | Some h =>
         final (Multicast.process_msg_header native write_quote h (m_body m)
                  (Multicast.set_contract (Some seq) s))
     | None => Multicast.set_contract (Some seq) s
     end).
Proof.
  unfold dispatch. unfold bind at 1. unfold modify at 1.
  destruct (Multicast.types_get (Byte.to_N (m_type m)) Multicast.types)
    as [h|]; [|reflexivity].
  rewrite (bind_outcome_ok _ _ _ _
             (mc_process_msg_header_outcome native write_quote h _ _)).
  reflexivity.
Qed.

Lemma dispatch_clock seq m s :
  Multicast.pitch_time (final (dispatch native write_quote seq m s))
  = (if Byte.to_N (m_type m) =? 0x20 then Some (slice 0 4 (m_body m))
     else Multicast.pitch_time s)
  /\ Multicast.midnight (final (dispatch native write_quote seq m s))
     = Multicast.midnight s.
Proof.
  rewrite dispatch_run. unfold final at 1 3. cbn [snd].
  destruct (Byte.to_N (m_type m) =? 0x20) eqn:Ht.
  - apply N.eqb_eq in Ht. rewrite Ht.
    change (Multicast.types_get 32 Multicast.types)
      with (Some Multicast.msg_time).
    exact (process_msg_header_time (m_body m)
             (Multicast.set_contract (Some seq) s)).
  - apply N.eqb_neq in Ht.
    destruct (Multicast.types_get (Byte.to_N (m_type m)) Multicast.types)
      as [h|] eqn:Hh.
    + exact (process_msg_header_keeps _ h (m_body m) Hh Ht
               (Multicast.set_contract (Some seq) s)).
    + split; reflexivity.
Qed.

(** The time base after a run of messages is the one of its last Time
    message, and the midnight is the one it started with. *)
Lemma dispatch_all_clock seq msgs :
  forall s,
    Multicast.pitch_time
      (final (dispatch_all native write_quote seq msgs s))
    = last_base msgs (Multicast.pitch_time s)
    /\ Multicast.midnight
         (final (dispatch_all native write_quote seq msgs s))
       = Multicast.midnight s.
Proof.
  induction msgs as [|m msgs IH]; intros s.
  - split; reflexivity.
  - cbn [dispatch_all last_base].
    rewrite (bind_outcome_ok _ _ s tt)
      by (rewrite dispatch_run; reflexivity).
    destruct (IH (final (dispatch native write_quote seq m s)))
      as [IHp IHm].
    destruct (dispatch_clock seq m s) as [Hp Hm].
    rewrite IHp, IHm, Hp, Hm. split; reflexivity.
Qed.

(** A run of messages never raises. *)
Lemma dispatch_all_outcome seq msgs :
  forall s, outcome (dispatch_all native write_quote seq msgs s) = Ok tt.
Proof.
  induction msgs as [|m msgs IH]; intros s; [reflexivity|].
  cbn [dispatch_all].
  rewrite (bind_outcome_ok _ _ s tt)
    by (rewrite dispatch_run; reflexivity).
  apply IH.
Qed.

End Clock.

(** C3, as stated, fails on its own example: under midnight 1000, after a
    Time message whose base is 3600000, a message with offset 500 is stamped
    1000 + 3600000.5 seconds, not 1000 + 3600.5; the base is added as it is,
    in seconds. *)
Lemma C3_counterexample :
  exists q,
    outcome
      (Multicast.get_ts LittleEndian add_order_fields
         (final (dispatch_all LittleEndian writer_accepts 7
                   [time_message_3600000] session_in_block)))
    = Ok (Multicast.At q)
    /\ (q == 1000 + 3600000 + (1 # 2))%Q
    /\ ~ (q == 1000 + (7201 # 2))%Q.
Proof.
  eexists. split; [vm_compute; reflexivity|].
  split; [reflexivity | intros H; discriminate H].
Qed.

(** C3, amended. After any run of dispatched multicast messages, the time
    base the session holds is that of the most recent Time message (the
    first four bytes of its body), kept through every other message until a
    later Time message supersedes it; and the timestamp resolved for a
    message that carries a time-offset field is the session midnight, plus
    that base taken in seconds as it is, plus the offset divided by 1000.
    In particular a base of 3600 and an offset of 500 resolve to midnight
    plus 3600.5 seconds. *)
Theorem C3_time_base_and_timestamp (native : byteorder)
    (write_quote : list Multicast.event -> Multicast.Quote -> option pyexn)
    (seq : N) (msgs : list submessage) (s : Multicast.Session)
    (base off : bytes) (t o : N) (fields : gmap string bytes) (M : Q) :
  last_base msgs (Multicast.pitch_time s) = Some base ->
  unpack_uint native 4 base = Ok t ->
  Multicast.midnight s = Some M ->
  fields !! "pitch_time_offset" = Some off ->
  unpack_uint native 4 off = Ok o ->
  Multicast.pitch_time (final (dispatch_all native write_quote seq msgs s))
  = Some base
  /\ outcome
       (Multicast.get_ts native fields
          (final (dispatch_all native write_quote seq msgs s)))
     = Ok (Multicast.At
             (M + inject_Z (Z.of_N t)
              + inject_Z (Z.of_N o) / inject_Z 1000)%Q)
  /\ (t = 3600 -> o = 500 ->
      (M + inject_Z (Z.of_N t) + inject_Z (Z.of_N o) / inject_Z 1000
       == M + (7201 # 2))%Q).
Proof.
  intros Hbase Ht Hmid Hoff Ho.
  destruct (dispatch_all_clock native write_quote seq msgs s) as [Hp Hm].
  rewrite Hbase in Hp. rewrite Hmid in Hm.
  split; [exact Hp|]. split.
  - unfold Multicast.get_ts. rewrite Hoff.
    unfold bind, attr, lift, ret, outcome. rewrite Hm, Hp, Ht, Ho.
    reflexivity.
  - intros -> ->.
    change (inject_Z (Z.of_N 500) / inject_Z 1000)%Q with (500 # 1000)%Q.
    change (inject_Z (Z.of_N 3600)) with (3600 # 1)%Q.
    rewrite <- Qplus_assoc. apply Qplus_comp; [reflexivity|]. reflexivity.
Qed.

(** The time-base theorem applies to a block that holds a Time message of
    base 3600 followed by an Add Order, for the fields of an Add Order at
    offset 500. *)
Lemma C3_time_base_and_timestamp_witness :
  last_base [time_message_3600; add_order_message]
    (Multicast.pitch_time session_in_block)
  = Some [x10; x0e; x00; x00]%byte
  /\ outcome
       (Multicast.get_ts LittleEndian add_order_fields
          (final (dispatch_all LittleEndian writer_accepts 7
                    [time_message_3600; add_order_message]
                    session_in_block)))
     = Ok (Multicast.At
             (1000 + inject_Z (Z.of_N 3600)
              + inject_Z (Z.of_N 500) / inject_Z 1000)%Q).
Proof.
  split; [reflexivity|].
  destruct (C3_time_base_and_timestamp LittleEndian writer_accepts 7
              [time_message_3600; add_order_message] session_in_block
              [x10; x0e; x00; x00]%byte [xf4; x01; x00; x00]%byte
              3600 500 add_order_fields 1000%Q)
    as (_ & Hts & _); [reflexivity..|].
  exact Hts.
Defined.

(** ** Sequence blocks *)

Lemma slice_at_prefix {A} (pre body post : list A) :
  slice (length pre) (length pre + length body) (pre ++ body ++ post)
  = body.
Proof.
  unfold slice.
  replace (length pre + length body - length pre)%nat with (length body)
    by lia.
  rewrite drop_app_length. apply take_app_length.
Qed.

Lemma slice_take {A} (n : nat) (l : list A) : slice 0 n l = take n l.
Proof. unfold slice. rewrite Nat.sub_0_r. reflexivity. Qed.

Section Blocks.

Variable native : byteorder.
Variable write_quote : list Multicast.event -> Multicast.Quote -> option pyexn.
Variable close_quotes : list Multicast.event -> option pyexn.

(** One turn of the inner loop over a well-sized message found at the
    offset: the message is dispatched with exactly its body, and the offset
    moves by the declared length. *)
Lemma parse_message_at seq (pre post : bytes) (m : submessage) s :
  well_sized m ->
  Multicast.parse_message native write_quote seq
    (pre ++ encode m ++ post) (length pre) s
  = (Ok (length pre + N.to_nat (Byte.to_N (m_len m)))%nat,
     final (dispatch native write_quote seq m s)).
Proof.
  intros Hm. unfold well_sized in Hm.
  unfold Multicast.parse_message.
  unfold bind at 1. unfold modify at 1.
  assert (Hhead : slice (length pre) (length pre + 2)
                    (pre ++ encode m ++ post) = [m_len m; m_type m]).
  { change (encode m ++ post)
      with ([m_len m; m_type m] ++ (m_body m ++ post)).
    apply (slice_at_prefix pre [m_len m; m_type m]). }
  assert (Hbody : slice (length pre + 2)
                    (length pre + N.to_nat (Byte.to_N (m_len m)))
                    (pre ++ encode m ++ post) = m_body m).
  { rewrite Hm.
    change (encode m ++ post)
      with ([m_len m; m_type m] ++ (m_body m ++ post)).
    rewrite (app_assoc pre).
    replace (length pre + 2)%nat with (length (pre ++ [m_len m; m_type m]))
      by (rewrite length_app; reflexivity).
    replace (length pre + (2 + length (m_body m)))%nat
      with (length (pre ++ [m_len m; m_type m]) + length (m_body m))%nat
      by (rewrite length_app; simpl; lia).
    apply slice_at_prefix. }
  rewrite Hhead. unfold bind at 1. unfold lift at 1. cbn [unpack_BB].
  rewrite Hbody. rewrite dispatch_run. unfold final at 1. cbn [snd].
  destruct (Multicast.types_get (Byte.to_N (m_type m)) Multicast.types)
    as [h|].
  - unfold bind at 1.
    rewrite (bind_outcome_ok _ _ _ _
               (mc_process_msg_header_outcome native write_quote h _ _)).
    reflexivity.
  - reflexivity.
Qed.

(** The inner loop over the messages of a block: as many turns as there are
    messages, each dispatched in order, the offset moved by the declared
    lengths. *)
Lemma parse_messages_at seq (post : bytes) (msgs : list submessage) :
  Forall well_sized msgs ->
  forall (pre : bytes) s,
    Multicast.parse_messages native write_quote (length msgs) seq
      (pre ++ flat_map encode msgs ++ post) (length pre) s
    = (Ok (length pre + declared_length msgs)%nat,
       final (dispatch_all native write_quote seq msgs s)).
Proof.
  induction 1 as [|m msgs Hm Hmsgs IH]; intros pre s.
  - simpl. rewrite Nat.add_0_r. reflexivity.
  - cbn [length Multicast.parse_messages flat_map declared_length foldr
         dispatch_all].
    rewrite <- (app_assoc (encode m)).
    erewrite bind_ok by (apply parse_message_at; exact Hm).
    rewrite (bind_outcome_ok _ _ s tt)
      by (rewrite dispatch_run; reflexivity).
    assert (Hlen : (length pre + N.to_nat (Byte.to_N (m_len m)))%nat
                   = length (pre ++ encode m)).
    { rewrite length_app. unfold well_sized in Hm. rewrite Hm.
      reflexivity. }
    rewrite Hlen.
    rewrite (app_assoc pre (encode m)).
    rewrite IH.
    f_equal. f_equal.
    rewrite <- Hlen. unfold declared_length. lia.
Qed.

End Blocks.

Lemma unpack_HBBI_length order hdr t :
  unpack_HBBI order hdr = Ok t -> length hdr = 8%nat.
Proof.
  unfold unpack_HBBI.
  destruct (Nat.eqb (length hdr) 8) eqn:E; [|discriminate].
  intros _. apply Nat.eqb_eq. exact E.
Qed.

(** The keys of the catalog are distinct, so that a code is looked up to the
    one handler listed under it. *)
Lemma types_get_in (l : list (N * Multicast.handler)) mtype h :
  NoDup (map fst l) -> In (mtype, h) l -> Multicast.types_get mtype l = Some h.
Proof.
  induction l as [|[k h'] l IH]; intros Hnd Hin; [destruct Hin|].
  cbn [map fst] in Hnd. apply NoDup_cons in Hnd as [Hk Hnd].
  cbn [Multicast.types_get].
  destruct Hin as [Heq|Hin].
  - injection Heq as -> ->. now rewrite N.eqb_refl.
  - destruct (N.eqb_spec k mtype) as [->|_]; [|now apply IH].
    exfalso. apply Hk. apply list_elem_of_In.
    change mtype with (fst (mtype, h)). now apply in_map.
Qed.

Lemma types_get_not_in (l : list (N * Multicast.handler)) mtype :
  ~ In mtype (map fst l) -> Multicast.types_get mtype l = None.
Proof.
  induction l as [|[k h'] l IH]; intros Hout; [reflexivity|].
  cbn [Multicast.types_get]. cbn [map fst In] in Hout.
  destruct (N.eqb_spec k mtype) as [->|_]; [tauto|].
  apply IH. tauto.
Qed.

Lemma types_get_listed mtype oh :
  listed mtype oh -> Multicast.types_get mtype Multicast.types = oh.
Proof.
  destruct oh as [h|]; cbn [listed].
  - apply types_get_in. apply (bool_decide_unpack _). vm_compute. exact I.
  - apply types_get_not_in.
Qed.

Lemma dispatch_all_handed native write_quote seq msgs hs :
  handlers_of msgs hs ->
  dispatch_all native write_quote seq msgs
  = hand_all native write_quote seq msgs hs.
Proof.
  induction 1 as [|m oh msgs hs Hm _ IH]; [reflexivity|].
  cbn [dispatch_all hand_all]. rewrite IH.
  unfold dispatch, hand. now rewrite (types_get_listed _ _ Hm).
Qed.

(** C5. For every multicast sequence block, that is a buffer that starts
    with an 8-byte header declaring block length L (non-zero) and message
    count n, followed by n sub-messages each made of a length byte, a type
    byte and a body of (length - 2) bytes: the parser takes exactly n turns
    of its inner loop, hands each body in order to the handler the catalog
    lists under its type code, and to none when the catalog lists none,
    moves its inner offset from 8 by the declared lengths whatever the
    handlers did, and, after the flush, reads the next header L bytes after
    the start of this one. *)
Theorem C5_block_traversal (native : byteorder)
    (write_quote : list Multicast.event -> Multicast.Quote -> option pyexn)
    (close_quotes : list Multicast.event -> option pyexn)
    (turns : nat) (data hdr rest : bytes) (msgs : list submessage)
    (hs : list (option Multicast.handler))
    (L n unit seq : N) (s : Multicast.Session) :
  data = hdr ++ flat_map encode msgs ++ rest ->
  unpack_HBBI native hdr = Ok (L, n, unit, seq) ->
  L <> 0 ->
  N.to_nat n = length msgs ->
  Forall well_sized msgs ->
  handlers_of msgs hs ->
  Multicast.parse_messages native write_quote (N.to_nat n) seq data 8 s
  = (Ok (8 + declared_length msgs)%nat,
     final (hand_all native write_quote seq msgs hs s))
  /\ Multicast.parse_blocks native write_quote close_quotes (S turns) data s
     = (run hand_all native write_quote seq msgs hs;
        run Multicast.call_close_quotes close_quotes;
        Multicast.parse_blocks native write_quote close_quotes turns
          (skipn (N.to_nat L) data)) s.
Proof.
  intros -> Hhdr HL Hn Hmsgs Hhs.
  rewrite <- (dispatch_all_handed native write_quote seq msgs hs Hhs).
  pose proof (unpack_HBBI_length _ _ _ Hhdr) as Hlen.
  assert (Hinner :
    Multicast.parse_messages native write_quote (N.to_nat n) seq
      (hdr ++ flat_map encode msgs ++ rest) 8 s
    = (Ok (8 + declared_length msgs)%nat,
       final (dispatch_all native write_quote seq msgs s))).
  { rewrite Hn, <- Hlen. apply parse_messages_at. exact Hmsgs. }
  split; [exact Hinner|].
  cbn [Multicast.parse_blocks].
  rewrite slice_take, <- Hlen, take_app_length.
  unfold Multicast.parse_sequence_header. rewrite Hhdr.
  unfold bind at 1. unfold lift at 1.
  apply N.eqb_neq in HL. rewrite HL.
  rewrite Hlen.
  erewrite bind_ok by exact Hinner.
  rewrite (bind_outcome_ok _ _ s tt)
    by apply dispatch_all_outcome.
  reflexivity.
Qed.

(** The block theorem applies to a block of three messages: a Time
    message, a message of a type the catalog does not list, and an Add
    Order.  The first goes to [msg_time], the second to no handler, the
    third to [msg_add_order]. *)
Lemma C5_block_traversal_witness :
  Multicast.parse_blocks LittleEndian writer_accepts closer_accepts 40
    (mixed_block_header ++ encode time_message_3600
     ++ encode unlisted_message ++ encode add_order_message)
    session_in_block
  = (run hand_all LittleEndian writer_accepts 7
           [time_message_3600; unlisted_message; add_order_message]
           [Some Multicast.msg_time; None; Some Multicast.msg_add_order];
     run Multicast.call_close_quotes closer_accepts;
     Multicast.parse_blocks LittleEndian writer_accepts closer_accepts 39
       (skipn 42
          (mixed_block_header ++ encode time_message_3600
           ++ encode unlisted_message ++ encode add_order_message)))
      session_in_block.
Proof.
  destruct (C5_block_traversal LittleEndian writer_accepts closer_accepts
              39
              (mixed_block_header ++ encode time_message_3600
               ++ encode unlisted_message ++ encode add_order_message)
              mixed_block_header []
              [time_message_3600; unlisted_message; add_order_message]
              [Some Multicast.msg_time; None; Some Multicast.msg_add_order]
              42 3 1 7 session_in_block) as [_ H].
  - reflexivity.
  - reflexivity.
  - discriminate.
  - reflexivity.
  - repeat constructor.
  - constructor; [|constructor; [|constructor; [|constructor]]].
    + cbn [listed Multicast.types In m_type time_message_3600].
      repeat (first [left; reflexivity | right]).
    + cbn [listed]. apply (bool_decide_unpack _). vm_compute. exact I.
    + cbn [listed Multicast.types In m_type add_order_message].
      repeat (first [left; reflexivity | right]).
  - exact H.
Defined.

(** ** Truncated buffers *)

(** The outer loop never runs out of turns: a block header that is read
    needs 8 bytes, and a block that is entered takes at least one byte off
    the buffer. *)
Lemma parse_blocks_turns native write_quote close_quotes :
  forall turns data s,
    (length data < turns)%nat ->
    outcome (Multicast.parse_blocks native write_quote close_quotes
               turns data s) <> Ok false.
Proof.
  induction turns as [|turns IH]; intros data s Hlt; [lia|].
  cbn [Multicast.parse_blocks].
  unfold bind at 1. unfold lift at 1.
  unfold Multicast.parse_sequence_header.
  destruct (unpack_HBBI native (slice 0 8 data)) as [[[[L n] u] q]|e] eqn:Hh.
  - destruct (L =? 0) eqn:HL; [discriminate|].
    apply N.eqb_neq in HL.
    apply unpack_HBBI_length in Hh.
    rewrite slice_take, length_take in Hh.
    unfold bind at 1.
    destruct (Multicast.parse_messages native write_quote (N.to_nat n) q
                data 8 s) as [[off|e] s1]; [|discriminate].
    unfold bind at 1.
    destruct (Multicast.call_close_quotes close_quotes s1)
      as [[[]|e] s2]; [|discriminate].
    apply IH. rewrite length_drop. lia.
  - destruct e; discriminate.
Qed.

(** [parse] either leaves its loop by [break] or raises. *)
Lemma parse_total native write_quote close_quotes today data s :
  outcome (Multicast.parse native write_quote close_quotes today data s)
  <> Ok false.
Proof.
  unfold Multicast.parse. unfold bind, modify.
  destruct data as [|b data]; [discriminate|].
  apply parse_blocks_turns. lia.
Qed.

(** C8. The claim asks that a buffer obtained by cutting one byte off the
    final sub-message of a block never makes [parse] raise.  It does when
    that sub-message declares a length of 2: the one byte left cannot be
    unpacked as length and type, and the [struct.error] is not caught (the
    one raised on a short block header is).  The block below has one
    message of two bytes; whole, it is parsed to the end; one byte short,
    [parse] raises. *)
Theorem C8_truncated_two_byte_message (native : byteorder)
    (write_quote : list Multicast.event -> Multicast.Quote -> option pyexn)
    (close_quotes : list Multicast.event -> option pyexn)
    (today : Q) (s : Multicast.Session) :
  outcome (Multicast.parse native write_quote close_quotes today
             (short_block_header ++ [x02]%byte) s)
  = Raise StructError
  /\ Multicast.output
       (final (Multicast.parse native write_quote close_quotes today
                 (short_block_header ++ [x02]%byte) s))
     = Multicast.output s
  /\ Multicast.parse LittleEndian writer_accepts closer_accepts today
       (short_block_header ++ [x02; x05]%byte) Multicast.Session_new
     = (Ok true,
        Multicast.emit Multicast.QuotesClosed
          (Multicast.set_contract (Some 7)
             (Multicast.set_midnight (Some today) Multicast.Session_new))).
Proof.
  split; [|split].
  - destruct native; reflexivity.
  - destruct native; reflexivity.
  - reflexivity.
Qed.

(** ** The direct dispatcher *)

Lemma direct_get_fields_from_absent data name :
  forall names start fields,
    fields !! name = None ->
    Forall (fun arg => arg.1 <> name) names ->
    Direct.get_fields_from data start names fields !! name = None.
Proof.
  induction names as [|arg names IH]; intros start fields Hf Hn; simpl.
  - exact Hf.
  - inversion Hn as [|? ? Harg Hrest]; subst.
    apply IH; [|exact Hrest].
    rewrite lookup_insert_ne; [exact Hf | exact Harg].
Qed.

Section DirectDispatcher.

Variable write_quote : list Direct.event -> option pyexn.

(** Whatever is raised under the [try] of the direct decorator, the
    [except] branch raises in its turn: the handler call raises
    [AttributeError] and returns nothing. *)
Lemma direct_process_msg_header_raise h ts data s e s' :
  Direct.decode_and_write write_quote h ts data s = (Raise e, s') ->
  Direct.process_msg_header write_quote h ts data s
  = (Raise (AttributeError "to_bstr"), s').
Proof.
  intros H. unfold Direct.process_msg_header, bind, try_except.
  rewrite H. reflexivity.
Qed.

Lemma direct_process_msg_header_ok h ts data s s' :
  Direct.decode_and_write write_quote h ts data s = (Ok tt, s') ->
  Direct.process_msg_header write_quote h ts data s
  = (Ok (skipn (Direct.msg_len h) data), s').
Proof.
  intros H. unfold Direct.process_msg_header, bind, try_except.
  rewrite H. reflexivity.
Qed.

(** The Trading Status handler of the direct feed reads
    [fields['pitch_trading_status']], a name its layout does not have, and
    raises [KeyError] on every body. *)
Lemma direct_trading_status_raises ts data s :
  Direct.decode_and_write write_quote Direct.msg_trading_status ts data s
  = (Raise (KeyError "pitch_trading_status"), s).
Proof.
  unfold Direct.decode_and_write, Direct.func, Direct.msg_trading_status,
    Direct.body, Direct.names, Direct.retable.
  unfold bind, lift, Direct.getitem, Direct.get_fields.
  rewrite direct_get_fields_from_absent;
    [reflexivity | apply lookup_empty | repeat constructor; discriminate].
Qed.

End DirectDispatcher.

(** C1. The claim asks, of both variants, that an exception raised while a
    message is interpreted be caught, logged with a hex dump, and the input
    be returned advanced, so that the rest of the stream is decoded.  The
    multicast dispatcher does so ([mc_process_msg_header_raise]).  The
    direct dispatcher does not: its [except] branch calls [self.to_bstr],
    which the direct class lacks, so the handler call raises
    [AttributeError] instead of returning.  Every Trading Status body takes
    that path, and a buffer whose first line is a Trading Status is
    abandoned there: the Clear line that follows is never decoded. *)
Theorem C1_direct_error_path_raises (midnight_of : str -> result Q)
    (write_quote close_quotes : list Direct.event -> option pyexn)
    (today : Q) (ts : Direct.value) (data : str) (s : Direct.Session) :
  Direct.types_get midnight_of 72 = Some Direct.msg_trading_status
  /\ Direct.process_msg_header write_quote Direct.msg_trading_status ts
       data s
     = (Raise (AttributeError "to_bstr"), s)
  /\ Direct.parse midnight_of write_quote close_quotes today
       (bytes_lit (trading_status_line ++ String "010" clear_line)) s
     = (Raise (AttributeError "to_bstr"),
        Direct.set_midnight (Some today) s).
Proof.
  split; [reflexivity|]. split.
  - apply direct_process_msg_header_raise
      with (e := KeyError "pitch_trading_status").
    apply direct_trading_status_raises.
  - reflexivity.
Qed.

(** ** Direct lines *)

Lemma digits_value_digits :
  forall (s : str) (acc : Z) (after : bool),
    forallb Direct.is_digit s = true ->
    Direct.digits_value acc after s
    = match s with
      | [] => if after then Some acc else None
      | _ => Some (fold_left (fun a c => (10 * a + Z.of_N (c - 48))%Z) s acc)
      end.
Proof.
  induction s as [|c s IH]; intros acc after Hd; [reflexivity|].
  simpl in Hd. apply andb_true_iff in Hd as [Hc Hs].
  cbn [Direct.digits_value]. unfold Direct.digit_value. rewrite Hc.
  rewrite (IH _ true Hs).
  destruct s; reflexivity.
Qed.

Lemma digit_not_space c :
  Direct.is_digit c = true -> Direct.is_space c = false.
Proof.
  unfold Direct.is_digit, Direct.is_space. intros H.
  apply andb_true_iff in H as [H1 H2].
  apply N.leb_le in H1. apply N.leb_le in H2.
  repeat match goal with
         | |- (_ || _) = false => apply orb_false_iff; split
         | |- (_ && _) = false => apply andb_false_iff
         end;
    try (apply N.eqb_neq; lia);
    try (left; apply N.leb_gt; lia);
    try (right; apply N.leb_gt; lia).
Qed.

Lemma lstrip_digit c s :
  Direct.is_digit c = true -> Direct.lstrip (c :: s) = c :: s.
Proof.
  intros H. cbn [Direct.lstrip]. rewrite (digit_not_space c H). reflexivity.
Qed.

Lemma strip_digits s :
  forallb Direct.is_digit s = true -> Direct.strip s = s.
Proof.
  intros Hd. unfold Direct.strip.
  destruct s as [|c s]; [reflexivity|].
  simpl in Hd. apply andb_true_iff in Hd as [Hc Hs].
  rewrite (lstrip_digit c s Hc).
  assert (Hrev : forallb Direct.is_digit (rev (c :: s)) = true).
  { apply forallb_forall. intros x Hx. apply in_rev in Hx.
    destruct Hx as [<-|Hx]; [exact Hc|].
    exact (proj1 (forallb_forall _ _) Hs x Hx). }
  destruct (rev (c :: s)) as [|d r] eqn:Hr.
  - apply (f_equal (@length N)) in Hr. rewrite length_rev in Hr.
    discriminate.
  - simpl in Hrev. apply andb_true_iff in Hrev as [Hd' _].
    rewrite (lstrip_digit d r Hd'). rewrite <- Hr. apply rev_involutive.
Qed.

(** [int] of a non-empty run of ASCII digits, no longer than the limit on
    the digits, is its decimal value. *)
Lemma py_int_digits s :
  s <> [] -> (length s <= Direct.max_str_digits)%nat ->
  forallb Direct.is_digit s = true ->
  Direct.py_int s = Ok (decimal s).
Proof.
  intros Hne Hlen Hd. unfold Direct.py_int. rewrite (strip_digits s Hd).
  destruct s as [|c s]; [contradiction|].
  assert (Hc : Direct.is_digit c = true)
    by (simpl in Hd; apply andb_true_iff in Hd as [Hc _]; exact Hc).
  assert (H43 : c <> 43 /\ c <> 45).
  { unfold Direct.is_digit in Hc. apply andb_true_iff in Hc as [H1 _].
    apply N.leb_le in H1. lia. }
  destruct H43 as [H43 H45].
  apply N.eqb_neq in H43. apply N.eqb_neq in H45. rewrite H43, H45.
  rewrite (digits_value_digits _ _ _ Hd).
  change (fold_left (fun a c0 => (10 * a + Z.of_N (c0 - 48))%Z) (c :: s) 0%Z)
    with (decimal (c :: s)).
  assert (Hfit : Nat.leb
                   (length (List.filter (fun c0 => negb (c0 =? 95)) (c :: s)))
                   Direct.max_str_digits = true).
  { apply Nat.leb_le.
    pose proof (List.filter_length_le (fun c0 => negb (c0 =? 95)) (c :: s)).
    lia. }
  rewrite Hfit. f_equal. lia.
Qed.

Section DirectLines.

Variable midnight_of : str -> result Q.
Variable write_quote close_quotes : list Direct.event -> option pyexn.

(** The lookup of the parser finds the handler the catalog lists. *)
Lemma direct_types_get_catalog m_type :
  Direct.types_get midnight_of m_type = line_handler midnight_of m_type.
Proof.
  unfold Direct.types_get, line_handler.
  induction (Direct.types midnight_of) as [|[k h] l IH]; [reflexivity|].
  cbn [assoc_ascii List.find fst].
  destruct (N_of_ascii k =? m_type); [reflexivity|exact IH].
Qed.

(** A framed line is handed over as the reading says: marker dropped, the
    next seven characters read in decimal, the character after them passed
    over, the tenth taken as the type code, the rest as the body. *)
Lemma parse_line_framed line :
  line <> [] -> framed line = true ->
  Direct.parse_line midnight_of write_quote line
  = frame_dispatch midnight_of write_quote line.
Proof.
  intros Hne Hf. unfold framed in Hf.
  apply andb_true_iff in Hf as [Hlen Hd].
  apply Nat.leb_le in Hlen.
  unfold Direct.parse_line, frame_dispatch.
  rewrite <- direct_types_get_catalog.
  destruct line as [|c0 line]; [contradiction|].
  assert (Hts : Direct.py_int (slice 0 7 (skipn 1 (c0 :: line)))
                = Ok (decimal (slice 1 8 (c0 :: line)))).
  { change (slice 0 7 (skipn 1 (c0 :: line)))
      with (slice 1 8 (c0 :: line)).
    apply py_int_digits; [| |exact Hd].
    - intros Hnil. apply (f_equal (@length N)) in Hnil.
      unfold slice in Hnil. rewrite length_take, length_drop in Hnil.
      cbn [length] in Hnil, Hlen. lia.
    - unfold slice, Direct.max_str_digits. rewrite length_take. lia. }
  rewrite Hts.
  assert (Hty : index (skipn 1 (c0 :: line)) 8
                = Ok (nth 9 (c0 :: line) 0)).
  { unfold index.
    change (skipn 1 (c0 :: line)) with line.
    change (nth 9 (c0 :: line) 0) with (nth 8 line 0).
    destruct (nth_error line 8) as [x|] eqn:Hx.
    - rewrite (nth_error_nth _ _ 0 Hx). reflexivity.
    - apply nth_error_None in Hx. cbn [length] in Hlen. lia. }
  unfold bind at 1. unfold lift at 1.
  unfold bind at 1. rewrite Hty. unfold lift at 1.
  reflexivity.
Qed.

Lemma parse_lines_framed lines :
  forallb (fun line => match line with [] => true | _ => framed line end)
          lines = true ->
  Direct.parse_lines midnight_of write_quote lines
  = frame_dispatch_all midnight_of write_quote lines.
Proof.
  induction lines as [|line lines IH]; intros H; [reflexivity|].
  simpl in H. apply andb_true_iff in H as [Hl Hr].
  cbn [Direct.parse_lines frame_dispatch_all].
  rewrite (IH Hr).
  destruct line as [|c line]; [reflexivity|].
  rewrite parse_line_framed by (try discriminate; exact Hl).
  reflexivity.
Qed.

End DirectLines.

(** What [split] returns: lines without a line feed that, joined by line
    feeds, give the text back. *)
Lemma split_on_lines (text : str) :
  join_lines (split_on N.eqb 10 text) = text
  /\ Forall (fun line => forallb (fun c => negb (c =? 10)) line = true)
            (split_on N.eqb 10 text)
  /\ split_on N.eqb 10 text <> [].
Proof.
  induction text as [|c text (IHj & IHf & IHn)].
  - repeat split; [repeat constructor | discriminate].
  - cbn [split_on]. destruct (c =? 10) eqn:Hc.
    + apply N.eqb_eq in Hc. subst c.
      split; [|split; [|discriminate]].
      * cbn [join_lines]. destruct (split_on N.eqb 10 text) eqn:Hs;
          [contradiction|]. rewrite IHj. reflexivity.
      * constructor; [reflexivity | exact IHf].
    + destruct (split_on N.eqb 10 text) as [|w ws] eqn:Hs; [contradiction|].
      split; [|split; [|discriminate]].
      * cbn [join_lines] in *. destruct ws; simpl; rewrite <- IHj; reflexivity.
      * inversion IHf as [|? ? Hw Hws]; subst.
        constructor; [|exact Hws]. simpl. rewrite Hc, Hw. reflexivity.
Qed.

(** On a buffer that decodes as UTF-8 and in which every non-empty line has
    at least ten characters with decimal digits in its second to eighth,
    [parse] does what the reading of the lines says: it splits the text on
    line feeds, skips every empty line, frames and dispatches every other
    line, and flushes the quotes at the end. *)
Lemma direct_parse_framed_lines (midnight_of : str -> result Q)
    (write_quote close_quotes : list Direct.event -> option pyexn)
    (today : Q) (bytes_data : bytes) (text : str) (s : Direct.Session) :
  Direct.decode_utf8 (map Byte.to_N bytes_data) = Ok text ->
  forallb (fun line => match line with [] => true | _ => framed line end)
          (split_on N.eqb 10 text) = true ->
  Direct.parse midnight_of write_quote close_quotes today bytes_data s
  = (run modify (Direct.set_midnight (Some today));
     run frame_dispatch_all midnight_of write_quote (split_on N.eqb 10 text);
     Direct.call_close_quotes close_quotes) s
  /\ join_lines (split_on N.eqb 10 text) = text.
Proof.
  intros Htext Hlines. split; [|apply split_on_lines].
  unfold Direct.parse. rewrite Htext.
  unfold bind at 1 3. unfold modify. unfold bind at 1 3. unfold lift.
  rewrite (parse_lines_framed _ _ _ Hlines). reflexivity.
Qed.

(** [int] of a [str] raises nothing but [ValueError]. *)
Lemma py_int_raises s e : Direct.py_int s = Raise e -> e = ValueError.
Proof.
  unfold Direct.py_int.
  repeat match goal with
         | |- context [match ?x with _ => _ end] => destruct x
         end; congruence.
Qed.

(** The lines are handled one after the other. *)
Lemma direct_parse_lines_app midnight_of write_quote (before after : list str)
    (s : Direct.Session) :
  Direct.parse_lines midnight_of write_quote (before ++ after) s
  = (run Direct.parse_lines midnight_of write_quote before;
     Direct.parse_lines midnight_of write_quote after) s.
Proof.
  revert s. induction before as [|line before IH]; intros s; [reflexivity|].
  cbn [app Direct.parse_lines]. unfold bind.
  destruct (Direct.parse_line midnight_of write_quote line s)
    as [[[]|e] s1]; [|reflexivity].
  rewrite IH. reflexivity.
Qed.

(** A line, not empty, of fewer than ten characters: its timestamp is not
    read, or its type code is not there. *)
Lemma direct_parse_line_short midnight_of write_quote (line : str)
    (s : Direct.Session) :
  line <> [] -> (length line < 10)%nat ->
  exists e,
    (e = ValueError \/ e = IndexError)
    /\ Direct.parse_line midnight_of write_quote line s = (Raise e, s).
Proof.
  intros Hne Hlen. destruct line as [|c0 msg]; [contradiction|].
  cbn [length] in Hlen. unfold Direct.parse_line.
  change (skipn 1 (c0 :: msg)) with msg.
  unfold bind at 1. unfold lift at 1.
  destruct (Direct.py_int (slice 0 7 msg)) as [ts|e] eqn:Hts.
  - exists IndexError. split; [now right|].
    unfold bind at 1. unfold lift at 1. unfold index.
    assert (Hnone : nth_error msg 8 = None)
      by (apply nth_error_None; lia).
    now rewrite Hnone.
  - exists e. split; [|reflexivity].
    left. exact (py_int_raises _ _ Hts).
Qed.

(** C7. [parse] announces a guard on the length of a line ("Check minimum
    message length (timestamp + type)") and has none: a line, not empty, of
    fewer than ten characters is neither skipped nor framed.  After lines
    that are empty or can be framed, which are dispatched as the claim
    says, such a line raises [ValueError] where its timestamp is read, or
    [IndexError] where its type code is; the exception leaves [parse], so
    that no line after it, whatever it holds, is handed to a handler, and
    the quotes are not flushed. *)
Theorem C7_short_line_aborts_parse (midnight_of : str -> result Q)
    (write_quote close_quotes : list Direct.event -> option pyexn)
    (today : Q) (bytes_data : bytes) (text : str)
    (before : list str) (line : str) (rest : list str)
    (s : Direct.Session) :
  Direct.decode_utf8 (map Byte.to_N bytes_data) = Ok text ->
  split_on N.eqb 10 text = before ++ line :: rest ->
  forallb (fun l => match l with [] => true | _ => framed l end) before
  = true ->
  line <> [] ->
  (length line < 10)%nat ->
  exists e,
    (e = ValueError \/ e = IndexError)
    /\ Direct.parse midnight_of write_quote close_quotes today bytes_data s
       = (run modify (Direct.set_midnight (Some today));
          run frame_dispatch_all midnight_of write_quote before;
          raise e) s.
Proof.
  intros Htext Hsplit Hbefore Hne Hlen.
  pose proof (parse_lines_framed midnight_of write_quote before Hbefore)
    as Hframed.
  set (s0 := Direct.set_midnight (Some today) s).
  assert (Hparse :
    Direct.parse midnight_of write_quote close_quotes today bytes_data s
    = (run Direct.parse_lines midnight_of write_quote
             (before ++ line :: rest);
       Direct.call_close_quotes close_quotes) s0).
  { unfold Direct.parse. rewrite Htext, <- Hsplit. reflexivity. }
  assert (Hraise : forall e : pyexn,
    (run modify (Direct.set_midnight (Some today));
     run frame_dispatch_all midnight_of write_quote before;
     raise e) s
    = (run frame_dispatch_all midnight_of write_quote before;
       @raise _ unit e) s0) by reflexivity.
  assert (Hlines :
    (run Direct.parse_lines midnight_of write_quote (before ++ line :: rest);
     Direct.call_close_quotes close_quotes) s0
    = match frame_dispatch_all midnight_of write_quote before s0 with
      | (Ok _, s1) =>
          (run Direct.parse_line midnight_of write_quote line;
           run Direct.parse_lines midnight_of write_quote rest;
           Direct.call_close_quotes close_quotes) s1
      | (Raise e, s1) => (Raise e, s1)
      end).
  { unfold bind at 1. rewrite direct_parse_lines_app.
    unfold bind at 1. rewrite Hframed.
    destruct (frame_dispatch_all midnight_of write_quote before s0)
      as [[[]|e0] s1]; [|reflexivity].
    cbn [Direct.parse_lines]. unfold bind.
    now destruct (Direct.parse_line midnight_of write_quote line s1)
      as [[[]|e1] s2]. }
  rewrite Hparse, Hlines.
  destruct (frame_dispatch_all midnight_of write_quote before s0)
    as [[[]|e0] s1] eqn:Hrun.
  - destruct (direct_parse_line_short midnight_of write_quote line s1
                Hne Hlen) as (e & He & Hline).
    exists e. split; [exact He|].
    rewrite Hraise. unfold bind at 1. rewrite Hline.
    unfold bind at 1. now rewrite Hrun.
  - exists ValueError. split; [now left|].
    rewrite Hraise. unfold bind at 1. now rewrite Hrun.
Qed.

(** A Clear line, the line "X", and a second Clear line: the first Clear
    is dispatched, the second never. *)
Lemma C7_short_line_aborts_parse_witness :
  exists e,
    (e = ValueError \/ e = IndexError)
    /\ Direct.parse no_calendar direct_writer_accepts direct_closer_accepts
         1000
         (bytes_lit (clear_line
                     ++ String "010"
                          (short_line ++ String "010" clear_line)))
         Direct.Session_new
       = (run modify (Direct.set_midnight (Some 1000%Q));
          run frame_dispatch_all no_calendar direct_writer_accepts
                [lit clear_line];
          raise e) Direct.Session_new.
Proof.
  apply (C7_short_line_aborts_parse no_calendar direct_writer_accepts
           direct_closer_accepts 1000
           (bytes_lit (clear_line
                       ++ String "010"
                            (short_line ++ String "010" clear_line)))
           (lit (clear_line
                 ++ String "010" (short_line ++ String "010" clear_line)))
           [lit clear_line] (lit short_line) [lit clear_line]
           Direct.Session_new).
  - reflexivity.
  - reflexivity.
  - reflexivity.
  - discriminate.
  - vm_compute. lia.
Defined.

(** What the buffer of the line "X" and a Clear line comes to: [ValueError]
    with nothing written and nothing flushed, although the Clear line alone
    is written and flushed. *)
Example direct_short_line_example :
  Direct.parse no_calendar direct_writer_accepts direct_closer_accepts
    1000 (bytes_lit (short_line ++ String "010" clear_line))
    Direct.Session_new
  = (Raise ValueError,
     {| Direct.midnight := Some 1000%Q; Direct.output := [] |})
  /\ Direct.parse no_calendar direct_writer_accepts direct_closer_accepts
       1000 (bytes_lit clear_line) Direct.Session_new
     = (Ok tt,
        {| Direct.midnight := Some 1000%Q;
           Direct.output := [Direct.Written; Direct.QuotesClosed] |}).
Proof. split; reflexivity. Qed.

Lemma slice_clipped {A} (pre body : list A) (k : nat) :
  (length body <= k)%nat ->
  slice (length pre) (length pre + k) (pre ++ body) = body.
Proof.
  intros Hk. unfold slice.
  rewrite drop_app_length. apply take_ge. lia.
Qed.

Section Truncation.

Variable native : byteorder.
Variable write_quote : list Multicast.event -> Multicast.Quote -> option pyexn.
Variable close_quotes : list Multicast.event -> option pyexn.

Lemma parse_messages_app seq data :
  forall a b offset s,
    Multicast.parse_messages native write_quote (a + b) seq data offset s
    = (do offset' <- Multicast.parse_messages native write_quote a seq data
                       offset;
       Multicast.parse_messages native write_quote b seq data offset') s.
Proof.
  induction a as [|a IH]; intros b offset s.
  - reflexivity.
  - cbn [Nat.add Multicast.parse_messages].
    unfold bind at 1 2 3.
    destruct (Multicast.parse_message native write_quote seq data offset s)
      as [[offset'|e] s1]; [|reflexivity].
    rewrite IH. reflexivity.
Qed.

(** The last turn of the inner loop over a message whose body is short of
    what its length byte declares, at the end of the buffer: the two leading
    bytes are read and the handler is handed what is left of the body. *)
Lemma parse_message_cut seq (pre : bytes) (m : submessage) s :
  (2 + length (m_body m) <= N.to_nat (Byte.to_N (m_len m)))%nat ->
  Multicast.parse_message native write_quote seq (pre ++ encode m)
    (length pre) s
  = (Ok (length pre + N.to_nat (Byte.to_N (m_len m)))%nat,
     final (dispatch native write_quote seq m s)).
Proof.
  intros Hm.
  unfold Multicast.parse_message.
  unfold bind at 1. unfold modify at 1.
  assert (Hhead : slice (length pre) (length pre + 2) (pre ++ encode m)
                  = [m_len m; m_type m]).
  { change (encode m) with ([m_len m; m_type m] ++ m_body m).
    apply (slice_at_prefix pre [m_len m; m_type m]). }
  assert (Hbody : slice (length pre + 2)
                    (length pre + N.to_nat (Byte.to_N (m_len m)))
                    (pre ++ encode m) = m_body m).
  { change (encode m) with ([m_len m; m_type m] ++ m_body m).
    rewrite (app_assoc pre).
    replace (length pre + 2)%nat with (length (pre ++ [m_len m; m_type m]))
      by (rewrite length_app; reflexivity).
    replace (length pre + N.to_nat (Byte.to_N (m_len m)))%nat
      with (length (pre ++ [m_len m; m_type m])
            + (N.to_nat (Byte.to_N (m_len m)) - 2))%nat
      by (rewrite length_app; simpl; lia).
    apply slice_clipped. lia. }
  rewrite Hhead. unfold bind at 1. unfold lift at 1. cbn [unpack_BB].
  rewrite Hbody. rewrite dispatch_run. unfold final at 1. cbn [snd].
  destruct (Multicast.types_get (Byte.to_N (m_type m)) Multicast.types)
    as [h|].
  - unfold bind at 1.
    rewrite (bind_outcome_ok _ _ _ _
               (mc_process_msg_header_outcome native write_quote h _ _)).
    reflexivity.
  - reflexivity.
Qed.

(** A block that is the whole buffer, cut one byte short in a final
    sub-message of three bytes or more: the messages before the last are
    dispatched as in the whole block, the last is dispatched with its body
    one byte short, the quotes are flushed and the loop ends; nothing is
    raised unless the flush raises. *)
Lemma parse_blocks_cut turns (hdr : bytes) (msgs : list submessage)
    (len type : byte) (body : bytes) (L n unit seq : N) s :
  unpack_HBBI native hdr = Ok (L, n, unit, seq) ->
  N.to_nat L
  = length (hdr ++ flat_map encode msgs ++ len :: type :: body) ->
  N.to_nat n = S (length msgs) ->
  Forall well_sized msgs ->
  N.to_nat (Byte.to_N len) = (2 + length body)%nat ->
  body <> [] ->
  Multicast.parse_blocks native write_quote close_quotes (S (S turns))
    (hdr ++ flat_map encode msgs ++ len :: type :: removelast body) s
  = (run dispatch_all native write_quote seq msgs;
     run dispatch native write_quote seq
           {| m_len := len; m_type := type; m_body := removelast body |};
     run Multicast.call_close_quotes close_quotes;
     ret true) s.
Proof.
  intros Hhdr HL Hn Hmsgs Hlen Hbody.
  pose proof (unpack_HBBI_length _ _ _ Hhdr) as Hh.
  set (cut := {| m_len := len; m_type := type;
                 m_body := removelast body |}).
  assert (Hcutlen : length (removelast body) = (length body - 1)%nat).
  { destruct (exists_last Hbody) as (b & x & ->).
    rewrite removelast_last, length_app. simpl. lia. }
  assert (Hpos : (0 < length body)%nat)
    by (destruct body; [contradiction | simpl; lia]).
  change (len :: type :: removelast body) with (encode cut).
  assert (HL0 : (L =? 0) = false).
  { apply N.eqb_neq. intros ->. rewrite length_app in HL. simpl in HL. lia. }
  assert (Hflat : length (flat_map encode msgs) = declared_length msgs).
  { clear - Hmsgs. induction Hmsgs as [|m msgs Hm _ IH]; [reflexivity|].
    cbn [flat_map declared_length foldr]. rewrite length_app.
    unfold declared_length in IH. rewrite IH.
    unfold well_sized in Hm. rewrite Hm. reflexivity. }
  assert (Hinner :
    Multicast.parse_messages native write_quote (N.to_nat n) seq
      (hdr ++ flat_map encode msgs ++ encode cut) 8 s
    = (Ok (length (hdr ++ flat_map encode msgs)
           + N.to_nat (Byte.to_N len))%nat,
       final (dispatch native write_quote seq cut
                (final (dispatch_all native write_quote seq msgs s))))).
  { rewrite Hn. replace (S (length msgs)) with (length msgs + 1)%nat by lia.
    rewrite parse_messages_app. rewrite <- Hh.
    erewrite bind_ok
      by (apply (parse_messages_at native write_quote seq (encode cut) msgs
                   Hmsgs hdr s)).
    cbn [Multicast.parse_messages].
    rewrite <- Hflat, <- length_app, (app_assoc hdr).
    erewrite bind_ok
      by (apply parse_message_cut; subst cut; cbn [m_body m_len];
          rewrite Hcutlen, Hlen; lia).
    reflexivity. }
  assert (Hrest : skipn (N.to_nat L)
                    (hdr ++ flat_map encode msgs ++ encode cut) = []).
  { apply drop_ge. rewrite HL. rewrite !length_app. subst cut.
    cbn [encode m_len m_type m_body length]. rewrite Hcutlen. lia. }
  change (Multicast.parse_blocks native write_quote close_quotes
            (S (S turns)) (hdr ++ flat_map encode msgs ++ encode cut) s)
    with ((do ' (seq_len, msg_count, unit, seq) <-
             lift (Multicast.parse_sequence_header native
                     (slice 0 8
                        (hdr ++ flat_map encode msgs ++ encode cut)));
           if seq_len =? 0 then ret true
           else
             run Multicast.parse_messages native write_quote
                   (N.to_nat msg_count) seq
                   (hdr ++ flat_map encode msgs ++ encode cut) 8;
             run Multicast.call_close_quotes close_quotes;
             Multicast.parse_blocks native write_quote close_quotes
               (S turns)
               (skipn (N.to_nat seq_len)
                  (hdr ++ flat_map encode msgs ++ encode cut))) s).
  rewrite slice_take. rewrite <- Hh at 1. rewrite take_app_length.
  unfold Multicast.parse_sequence_header at 1. rewrite Hhdr.
  unfold bind at 1. unfold lift at 1. rewrite HL0.
  erewrite bind_ok by exact Hinner.
  rewrite Hrest.
  rewrite (bind_outcome_ok (dispatch_all native write_quote seq msgs) _ s tt)
    by apply dispatch_all_outcome.
  rewrite (bind_outcome_ok (dispatch native write_quote seq cut) _ _ tt)
    by (rewrite dispatch_run; reflexivity).
  unfold bind at 1 2.
  destruct (Multicast.call_close_quotes close_quotes
              (final (dispatch native write_quote seq cut
                        (final (dispatch_all native write_quote seq msgs s)))))
    as [[[]|e] s2]; reflexivity.
Qed.

End Truncation.

(** * Further properties of the code *)

(** ** Packed integers *)

Lemma le_bytes_length w : forall v, length (le_bytes w v) = w.
Proof.
  induction w as [|w IH]; intros v; [reflexivity|].
  cbn [le_bytes].
  destruct (Byte.of_N (v mod 256)) as [b|] eqn:E.
  - cbn [length]. now rewrite IH.
  - apply Byte.of_N_None_iff in E.
    pose proof (N.mod_upper_bound v 256). lia.
Qed.

Lemma le_uint_le_bytes w : forall v, le_uint (le_bytes w v) = v mod 256 ^ N.of_nat w.
Proof.
  induction w as [|w IH]; intros v.
  - cbn. now rewrite N.mod_1_r.
  - cbn [le_bytes].
    destruct (Byte.of_N (v mod 256)) as [b|] eqn:E.
    + cbn [le_uint]. rewrite IH, (Byte.to_of_N _ E).
      rewrite Nat2N.inj_succ, N.pow_succ_r'.
      now rewrite N.Div0.mod_mul_r.
    + apply Byte.of_N_None_iff in E.
      pose proof (N.mod_upper_bound v 256). lia.
Qed.

Lemma pack_uint_length order w v : length (pack_uint order w v) = w.
Proof.
  destruct order; cbn [pack_uint]; rewrite ?length_rev; apply le_bytes_length.
Qed.

Lemma unpack_pack_uint order w v :
  v < 256 ^ N.of_nat w ->
  unpack_uint order w (pack_uint order w v) = Ok v.
Proof.
  intros Hv. unfold unpack_uint.
  rewrite pack_uint_length, Nat.eqb_refl. f_equal.
  destruct order; cbn [pack_uint]; rewrite ?rev_involutive;
    rewrite le_uint_le_bytes; now apply N.mod_small.
Qed.

Lemma header_slices {A} (a b c d : list A) :
  length a = 2%nat -> length b = 1%nat -> length c = 1%nat ->
  length d = 4%nat ->
  slice 0 2 (a ++ b ++ c ++ d) = a
  /\ slice 2 3 (a ++ b ++ c ++ d) = b
  /\ slice 3 4 (a ++ b ++ c ++ d) = c
  /\ slice 4 8 (a ++ b ++ c ++ d) = d.
Proof.
  intros Ha Hb Hc Hd.
  destruct a as [|a1 [|a2 [|]]]; try discriminate.
  destruct b as [|b1 [|]]; try discriminate.
  destruct c as [|c1 [|]]; try discriminate.
  destruct d as [|d1 [|d2 [|d3 [|d4 [|]]]]]; try discriminate.
  repeat split.
Qed.

Lemma unpack_HBBI_pack order (L n unit seq : N) :
  L < 65536 -> n < 256 -> unit < 256 -> seq < 4294967296 ->
  unpack_HBBI order
    (pack_uint order 2 L ++ pack_uint order 1 n ++ pack_uint order 1 unit
     ++ pack_uint order 4 seq)
  = Ok (L, n, unit, seq).
Proof.
  intros HL Hn Hu Hs. unfold unpack_HBBI.
  rewrite !length_app, !pack_uint_length. cbn [Nat.add Nat.eqb].
  destruct (header_slices (pack_uint order 2 L) (pack_uint order 1 n)
              (pack_uint order 1 unit) (pack_uint order 4 seq))
    as (-> & -> & -> & ->); try apply pack_uint_length.
  rewrite !unpack_pack_uint by assumption. reflexivity.
Qed.

(** X4: the block header is read back as it was packed: for a length below
    2^16, a count and a unit below 2^8 and a sequence below 2^32, laid out in
    the byte order of the host, [parse_sequence_header] returns the four
    numbers; and a buffer that is not 8 bytes long is read as the
    end-of-stream header (0, 0, 0, 0), never as an error. *)
Theorem X4_sequence_header_round_trip (native : byteorder)
    (L n unit seq : N) :
  L < 65536 -> n < 256 -> unit < 256 -> seq < 4294967296 ->
  Multicast.parse_sequence_header native
    (pack_uint native 2 L ++ pack_uint native 1 n ++ pack_uint native 1 unit
     ++ pack_uint native 4 seq)
  = Ok (L, n, unit, seq)
  /\ (forall data : bytes,
        length data <> 8%nat ->
        Multicast.parse_sequence_header native data = Ok (0, 0, 0, 0)).
Proof.
  intros HL Hn Hu Hs. split.
  - unfold Multicast.parse_sequence_header.
    now rewrite unpack_HBBI_pack.
  - intros data Hlen. unfold Multicast.parse_sequence_header, unpack_HBBI.
    apply Nat.eqb_neq in Hlen. now rewrite Hlen.
Qed.

(** A header of 39 bytes and 2 messages, unit 1, sequence 7, on a
    big-endian host. *)
Lemma X4_sequence_header_round_trip_witness :
  Multicast.parse_sequence_header BigEndian
    (pack_uint BigEndian 2 39 ++ pack_uint BigEndian 1 2
     ++ pack_uint BigEndian 1 1 ++ pack_uint BigEndian 4 7)
  = Ok (39, 2, 1, 7)
  /\ (forall data : bytes,
        length data <> 8%nat ->
        Multicast.parse_sequence_header BigEndian data = Ok (0, 0, 0, 0)).
Proof.
  apply (X4_sequence_header_round_trip BigEndian 39 2 1 7); reflexivity.
Defined.

(** ** Field extraction *)

Lemma slice_length {A} (a w : nat) (l : list A) :
  length (slice a (a + w) l) = Nat.min w (length l - a).
Proof.
  unfold slice. rewrite length_take, length_drop.
  replace (a + w - a)%nat with w by lia. reflexivity.
Qed.

Lemma slice_adjacent {A} (a w k : nat) (l : list A) :
  slice a (a + w) l ++ slice (a + w) (a + w + k) l = slice a (a + w + k) l.
Proof.
  unfold slice.
  replace (a + w - a)%nat with w by lia.
  replace (a + w + k - (a + w))%nat with k by lia.
  replace (a + w + k - a)%nat with (w + k)%nat by lia.
  change (@skipn A) with (@drop A). change (@firstn A) with (@take A).
  rewrite <- (drop_drop l w a). apply take_take_drop.
Qed.

Lemma mc_get_fields_from_other data name :
  forall names start fields,
    Forall (fun arg => arg.1 <> name) names ->
    Multicast.get_fields_from data start names fields !! name
    = fields !! name.
Proof.
  induction names as [|[k w] rest IH]; intros start fields Hall;
    [reflexivity|].
  apply Forall_cons in Hall as [Hk Hrest]. cbn in Hk.
  cbn [Multicast.get_fields_from fst snd].
  rewrite IH by assumption. now apply lookup_insert_ne.
Qed.

Lemma mc_get_fields_from_at data name w :
  forall pre post start fields,
    Forall (fun arg => arg.1 <> name) post ->
    Multicast.get_fields_from data start (pre ++ (name, w) :: post) fields
      !! name
    = Some (slice (start + layout_width pre)
                  (start + layout_width pre + w) data).
Proof.
  induction pre as [|[k v] pre IH]; intros post start fields Hpost.
  - cbn [app Multicast.get_fields_from fst snd layout_width foldr].
    rewrite mc_get_fields_from_other by assumption.
    rewrite lookup_insert_eq. now rewrite Nat.add_0_r.
  - cbn [app Multicast.get_fields_from fst snd].
    rewrite IH by assumption. cbn [layout_width foldr snd].
    fold (layout_width pre). now rewrite !Nat.add_assoc.
Qed.

Lemma mc_get_fields_from_concat data :
  forall names start fields,
    NoDup names.*1 ->
    concat (map (fun arg =>
                   default [] (Multicast.get_fields_from data start names
                                 fields !! arg.1)) names)
    = slice start (start + layout_width names) data.
Proof.
  induction names as [|[k w] rest IH]; intros start fields Hnd.
  - cbn. unfold slice. now rewrite Nat.add_0_r, Nat.sub_diag.
  - cbn [fmap list_fmap] in Hnd. apply NoDup_cons in Hnd as [Hk Hnd].
    cbn [map concat fst snd].
    assert (Hrest : Forall (fun arg : string * nat => arg.1 <> k) rest).
    { apply Forall_forall. intros arg Harg Heq. apply Hk.
      rewrite <- Heq. apply list_elem_of_fmap. now exists arg. }
    pose proof (mc_get_fields_from_at data k w [] rest start fields Hrest)
      as Hat.
    cbn [app layout_width foldr] in Hat. rewrite Hat.
    cbn [Multicast.get_fields_from fst snd].
    rewrite IH by assumption.
    cbn [layout_width foldr snd default]. fold (layout_width rest).
    rewrite Nat.add_0_r, Nat.add_assoc. apply slice_adjacent.
Qed.

Lemma direct_get_fields_from_other data name :
  forall names start fields,
    Forall (fun arg => arg.1 <> name) names ->
    Direct.get_fields_from data start names fields !! name = fields !! name.
Proof.
  induction names as [|[k w] rest IH]; intros start fields Hall;
    [reflexivity|].
  apply Forall_cons in Hall as [Hk Hrest]. cbn in Hk.
  cbn [Direct.get_fields_from fst snd].
  rewrite IH by assumption. now apply lookup_insert_ne.
Qed.

Lemma direct_get_fields_from_concat data :
  forall names start fields,
    NoDup names.*1 ->
    concat (map (fun arg =>
                   match Direct.get_fields_from data start names fields
                         !! arg.1 with
                   | Some (Direct.Str s) => s
                   | _ => []
                   end) names)
    = slice start (start + layout_width names) data.
Proof.
  induction names as [|[k w] rest IH]; intros start fields Hnd.
  - cbn. unfold slice. now rewrite Nat.add_0_r, Nat.sub_diag.
  - cbn [fmap list_fmap] in Hnd. apply NoDup_cons in Hnd as [Hk Hnd].
    cbn [map concat fst snd].
    assert (Hrest : Forall (fun arg : string * nat => arg.1 <> k) rest).
    { apply Forall_forall. intros arg Harg Heq. apply Hk.
      rewrite <- Heq. apply list_elem_of_fmap. now exists arg. }
    cbn [Direct.get_fields_from fst snd].
    rewrite direct_get_fields_from_other by assumption.
    rewrite lookup_insert_eq, IH by assumption.
    cbn [layout_width foldr snd]. fold (layout_width rest).
    rewrite Nat.add_assoc. apply slice_adjacent.
Qed.

(** X1: in the multicast feed, a name of a layout is bound to the slice of
    the data that starts at the sum of the widths before its last
    occurrence; the slice is clipped at the end of the data, so a field
    past the end is empty and nothing is raised. *)
Theorem X1_get_fields_binds_slice_at_offset (data : bytes)
    (pre post : list (string * nat)) (name : string) (w : nat) :
  Forall (fun arg => arg.1 <> name) post ->
  exists field,
    Multicast.get_fields data (pre ++ (name, w) :: post) !! name = Some field
    /\ field = slice (layout_width pre) (layout_width pre + w) data
    /\ length field = Nat.min w (length data - layout_width pre).
Proof.
  intros Hpost. eexists. split; [|split; [reflexivity|]].
  - unfold Multicast.get_fields.
    now rewrite mc_get_fields_from_at by assumption.
  - apply slice_length.
Qed.

(** The share count of an Add Order body sits after the offset, the order
    id and the side. *)
Lemma X1_get_fields_binds_slice_at_offset_witness :
  exists field,
    Multicast.get_fields add_order_body
      ([("pitch_time_offset", 4); ("pitch_order", 8); ("pitch_side", 1)]
       ++ ("pitch_shares_s", 2)
       :: [("pitch_symbol", 6); ("pitch_price_s", 2)])%nat
      !! "pitch_shares_s" = Some field
    /\ field = slice (layout_width
                        [("pitch_time_offset", 4); ("pitch_order", 8);
                         ("pitch_side", 1)]%nat)
                 (layout_width
                        [("pitch_time_offset", 4); ("pitch_order", 8);
                         ("pitch_side", 1)]%nat + 2) add_order_body
    /\ length field
       = Nat.min 2 (length add_order_body
                    - layout_width
                        [("pitch_time_offset", 4); ("pitch_order", 8);
                         ("pitch_side", 1)]%nat).
Proof.
  apply (X1_get_fields_binds_slice_at_offset add_order_body).
  repeat constructor; cbn; discriminate.
Defined.

(** X2: when the names of a layout are pairwise distinct, the fields it
    extracts, concatenated in layout order, are the first bytes (or
    characters) of the data, as many as the widths add up to: extraction
    loses and reorders nothing.  This holds in both feeds. *)
Theorem X2_get_fields_reassemble (names : list (string * nat)) :
  NoDup names.*1 ->
  (forall data : bytes,
     concat (map (fun arg =>
                    default [] (Multicast.get_fields data names !! arg.1))
                 names)
     = take (layout_width names) data)
  /\ (forall data : str,
        concat (map (fun arg =>
                       match Direct.get_fields data names !! arg.1 with
                       | Some (Direct.Str s) => s
                       | _ => []
                       end) names)
        = take (layout_width names) data).
Proof.
  intros Hnd. split; intros data.
  - unfold Multicast.get_fields.
    rewrite mc_get_fields_from_concat by assumption. apply slice_take.
  - unfold Direct.get_fields.
    rewrite direct_get_fields_from_concat by assumption. apply slice_take.
Qed.

(** The layout of the Trade Report names nine distinct fields. *)
Lemma X2_get_fields_reassemble_witness :
  (forall data : bytes,
     concat (map (fun arg =>
                    default [] (Multicast.get_fields data
                                  (Multicast.names Multicast.msg_trade_report)
                                  !! arg.1))
                 (Multicast.names Multicast.msg_trade_report))
     = take (layout_width (Multicast.names Multicast.msg_trade_report)) data)
  /\ (forall data : str,
        concat (map (fun arg =>
                       match Direct.get_fields data
                               (Multicast.names Multicast.msg_trade_report)
                               !! arg.1 with
                       | Some (Direct.Str s) => s
                       | _ => []
                       end) (Multicast.names Multicast.msg_trade_report))
        = take (layout_width (Multicast.names Multicast.msg_trade_report))
            data).
Proof.
  apply (X2_get_fields_reassemble (Multicast.names Multicast.msg_trade_report)).
  apply (bool_decide_unpack _). vm_compute. reflexivity.
Defined.

(** ** The hexadecimal dump *)

Lemma hex_value_digit n : n < 16 -> hex_value (hex_digit n) = Some n.
Proof.
  intros Hn. destruct n as [|p]; [reflexivity|].
  repeat (destruct p as [p|p|]; try reflexivity; try lia).
Qed.

Lemma hex2_append (b : byte) (rest : string) :
  String.append (hex2 b) rest
  = String (hex_digit (Byte.to_N b / 16))
      (String (hex_digit (Byte.to_N b mod 16)) rest).
Proof. reflexivity. Qed.

Lemma from_bstr_hex2 (b : byte) (rest : string) :
  from_bstr (String.append (hex2 b) rest)
  = match rest with
    | EmptyString => Some [b]
    | String sep rest' =>
        if Ascii.eqb sep " " then option_map (cons b) (from_bstr rest')
        else None
    end.
Proof.
  pose proof (Byte.to_N_bounded b) as Hb.
  rewrite hex2_append. cbn [from_bstr].
  rewrite !hex_value_digit.
  - replace (16 * (Byte.to_N b / 16) + Byte.to_N b mod 16)
      with (Byte.to_N b) by (rewrite (N.div_mod' (Byte.to_N b) 16) at 1; lia).
    now rewrite Byte.of_to_N.
  - apply N.mod_upper_bound. lia.
  - apply N.Div0.div_lt_upper_bound. lia.
Qed.

Lemma to_bstr_cons b data :
  Multicast.to_bstr (b :: data)
  = match data with
    | [] => hex2 b
    | _ => String.append (hex2 b) (String " " (Multicast.to_bstr data))
    end.
Proof. destruct data; reflexivity. Qed.

(** X3: the hexadecimal dump of the error report is lossless: read back,
    it gives the bytes it was made from, so distinct byte strings have
    distinct dumps; the dump of [n] bytes has [3 n - 1] characters (none
    for no bytes). *)
Theorem X3_to_bstr_reads_back (data : bytes) :
  from_bstr (Multicast.to_bstr data) = Some data
  /\ String.length (Multicast.to_bstr data) = (3 * length data - 1)%nat
  /\ (forall other, Multicast.to_bstr other = Multicast.to_bstr data ->
        other = data).
Proof.
  assert (Hback : forall d, from_bstr (Multicast.to_bstr d) = Some d).
  { induction d as [|b d IH]; [reflexivity|].
    rewrite to_bstr_cons. destruct d as [|b' d].
    - change (hex2 b) with (String.append (hex2 b) EmptyString).
      now rewrite from_bstr_hex2.
    - rewrite from_bstr_hex2. cbn [Ascii.eqb Bool.eqb].
      now rewrite IH. }
  split; [apply Hback|split].
  - induction data as [|b d IH]; [reflexivity|].
    rewrite to_bstr_cons. destruct d as [|b' d]; [reflexivity|].
    rewrite hex2_append. cbn [String.length].
    rewrite IH. cbn [length]. lia.
  - intros other Heq.
    pose proof (Hback other) as Ho. rewrite Heq, Hback in Ho.
    now injection Ho.
Qed.

(** ** What a message leaves behind *)

Lemma flags_get_set_other name name' v f :
  name <> name' ->
  Multicast.flags_get name' (Multicast.flags_set name v f)
  = Multicast.flags_get name' f.
Proof.
  intros Hne. unfold Multicast.flags_get, Multicast.flags_set.
  destruct (Multicast.assoc_string name Multicast.FlagsBits_fields) as [w|];
    destruct (Multicast.assoc_string name' Multicast.FlagsBits_fields)
      as [w'|]; cbn [Multicast.bits Multicast.attrs];
    rewrite ?lookup_insert_ne by assumption; reflexivity.
Qed.

Lemma no_status_new : no_status Multicast.Flags_new.
Proof. repeat constructor. Qed.

Lemma no_status_set_other name v f :
  name ∉ status_members ->
  no_status f -> no_status (Multicast.flags_set name v f).
Proof.
  intros Hname Hf. unfold no_status in *.
  rewrite Forall_forall in *. intros member Hmember.
  rewrite flags_get_set_other; [now apply Hf|].
  intros ->. now apply Hname.
Qed.

Lemma no_status_set_zero name f :
  no_status f -> no_status (Multicast.flags_set name 0 f).
Proof.
  intros Hf. unfold no_status in *.
  rewrite Forall_forall in *. intros member Hmember.
  destruct (decide (name = member)) as [->|Hne].
  - unfold status_members in Hmember.
    repeat (apply elem_of_cons in Hmember as [->|Hmember];
            [now rewrite (flags_get_set _ 3)|]).
    now apply elem_of_nil in Hmember.
  - rewrite flags_get_set_other by assumption. now apply Hf.
Qed.

Create HintDb orderly.

Lemma orderly_ret {A} (a : A) : orderly (ret a).
Proof. intros s f Hf. cbn. eauto. Qed.

Lemma orderly_raise {A} e : orderly (@raise Multicast.Session A e).
Proof. intros s f Hf. cbn. eauto. Qed.

Lemma orderly_lift {A} (r : result A) : orderly (lift r).
Proof. intros s f Hf. cbn. eauto. Qed.

Lemma orderly_attr {A} (g : Multicast.Session -> option A) name :
  orderly (attr g name).
Proof. intros s f Hf. unfold attr. destruct (g s); cbn; eauto. Qed.

Lemma orderly_set_pitch_time v :
  orderly (modify (Multicast.set_pitch_time v)).
Proof. intros s f Hf. cbn. eauto. Qed.

Lemma orderly_bind {A B} (m : M Multicast.Session A)
    (k : A -> M Multicast.Session B) :
  orderly m -> (forall a, orderly (k a)) -> orderly (bind m k).
Proof.
  intros Hm Hk s f Hf. unfold bind.
  destruct (Hm s f Hf) as ((f1 & Hf1 & Hs1) & Ho1 & Hc1).
  unfold final in *.
  destruct (m s) as [[a|e] s1]; cbn [snd] in *.
  - destruct (Hk a s1 f1 Hf1) as ((f2 & Hf2 & Hs2) & Ho2 & Hc2).
    unfold final in *. split; [|split; congruence].
    exists f2. split; [assumption|]. intros H. apply Hs2, Hs1, H.
  - split; [|split; assumption]. now exists f1.
Qed.

Lemma orderly_assign_zero name : orderly (Multicast.assign_flag name 0).
Proof.
  intros s f Hf. unfold Multicast.assign_flag, bind, attr, modify, final.
  rewrite Hf. cbn. split; [|split; reflexivity].
  eexists. split; [reflexivity|]. apply no_status_set_zero.
Qed.

Lemma orderly_assign_other name v :
  name ∉ status_members -> orderly (Multicast.assign_flag name v).
Proof.
  intros Hname s f Hf.
  unfold Multicast.assign_flag, bind, attr, modify, final.
  rewrite Hf. cbn. split; [|split; reflexivity].
  eexists. split; [reflexivity|]. now apply no_status_set_other.
Qed.

Lemma orderly_store_field_lookup name table fields field :
  orderly (Multicast.store_field_lookup name table fields field).
Proof.
  unfold Multicast.store_field_lookup.
  apply orderly_bind; [apply orderly_lift|]. intros key.
  exact (orderly_assign_zero name).
Qed.

Lemma orderly_flag name table (b : byte) :
  name ∉ status_members ->
  orderly (Multicast.flag name (Multicast.store_lookup name table)
             (CInt (Byte.to_N b))).
Proof.
  intros Hname s f Hf.
  destruct (orderly_assign_other name
              (default 0 (str_table_get table (KStr [Byte.to_N b])))
              Hname s f Hf) as (Hflags & Hout & Hcon).
  unfold Multicast.flag, try_except, bind, lift.
  rewrite chr_byte. unfold Multicast.store_lookup.
  unfold final in *.
  destruct (Multicast.assign_flag name
              (default 0 (str_table_get table (KStr [Byte.to_N b]))) s)
    as [[[]|e] s1] eqn:E; cbn [snd] in *.
  - auto.
  - exfalso. unfold Multicast.assign_flag, bind, attr, modify in E.
    rewrite Hf in E. discriminate E.
Qed.

Lemma orderly_decode_at name table data i :
  name ∉ status_members ->
  orderly (Multicast.decode_at
             (Multicast.flag name (Multicast.store_lookup name table))
             data i).
Proof.
  intros Hname. unfold Multicast.decode_at.
  apply orderly_bind; [apply orderly_lift|].
  intros b. now apply orderly_flag.
Qed.

#[local] Hint Resolve orderly_ret orderly_raise orderly_lift orderly_attr
  orderly_set_pitch_time orderly_store_field_lookup : orderly.
#[local] Hint Extern 2 (orderly (bind _ _)) =>
  apply orderly_bind; [|intros ?] : orderly.
#[local] Hint Extern 1 (orderly (Multicast.decode_at _ _ _)) =>
  apply orderly_decode_at; apply (bool_decide_unpack _); vm_compute;
  exact I : orderly.

Lemma orderly_parse_order_execution_flag data :
  orderly (Multicast.parse_order_execution_flag data).
Proof.
  unfold Multicast.parse_order_execution_flag. unfold_decoders.
  auto 20 with orderly.
Qed.

Lemma orderly_parse_trade_flags data :
  orderly (Multicast.parse_trade_flags data).
Proof.
  unfold Multicast.parse_trade_flags. unfold_decoders.
  auto 20 with orderly.
Qed.

Lemma orderly_parse_trade_report_flags data :
  orderly (Multicast.parse_trade_report_flags data).
Proof.
  unfold Multicast.parse_trade_report_flags. unfold_decoders.
  auto 40 with orderly.
Qed.
#[local] Hint Resolve orderly_parse_order_execution_flag
  orderly_parse_trade_flags orderly_parse_trade_report_flags : orderly.

Ltac unfold_handlers :=
  cbn [Multicast.body Multicast.msg_login
       Multicast.msg_login_response Multicast.msg_gap_request
       Multicast.msg_gap_response Multicast.msg_time Multicast.msg_clear
       Multicast.msg_add_order Multicast.msg_add_order_long
       Multicast.msg_add_order_exp Multicast.msg_order_executed
       Multicast.msg_order_executed_price
       Multicast.msg_reduce_size_long
       Multicast.msg_reduce_size_short
       Multicast.msg_modify_order_long
       Multicast.msg_modify_order_short
       Multicast.msg_delete_order Multicast.msg_trade_short
       Multicast.msg_trade_long Multicast.msg_trade_break
       Multicast.msg_trade_report Multicast.msg_end_session
       Multicast.msg_trading_status Multicast.msg_statistics
       Multicast.msg_auction_update
       Multicast.msg_auction_summary].

(** Every handler of the catalog is orderly. *)
Lemma orderly_body t h :
  Multicast.types_get t Multicast.types = Some h ->
  forall fields, orderly (Multicast.body h fields).
Proof.
  unfold Multicast.types. cbn [Multicast.types_get].
  repeat match goal with
         | |- (if ?c then _ else _) = _ -> _ =>
             destruct c;
             [intros [= <-] fields; unfold_handlers;
              auto 20 with orderly|]
         end.
  intros; discriminate.
Qed.

(** What a handler of the catalog returns: the fields it was given, or (the
    Login Response) none. *)
Lemma body_fields t h fields s fields' s' :
  Multicast.types_get t Multicast.types = Some h ->
  Multicast.body h fields s = (Ok fields', s') ->
  fields' = fields \/ fields' = ∅.
Proof.
  unfold Multicast.types. cbn [Multicast.types_get].
  repeat match goal with
         | |- (if ?c then _ else _) = _ -> _ =>
             destruct c;
             [intros [= <-]; unfold_handlers; unfold bind, ret;
              repeat match goal with
                     | |- context [match ?m s with _ => _ end] =>
                         destruct (m s) as [[?|?] ?]
                     | |- context [match ?m ?x with _ => _ end] =>
                         destruct (m x) as [[?|?] ?]
                     end;
              intros [= <- <-] || intros [=]; auto|]
         end.
  intros; discriminate.
Qed.

Section Events.

Variable native : byteorder.
Variable write_quote : list Multicast.event -> Multicast.Quote -> option pyexn.

(** [map_quote] reads the session and leaves it as it was. *)
Lemma map_quote_final fields s :
  final (Multicast.map_quote native fields s) = s.
Proof.
  unfold Multicast.map_quote, Multicast.get_ts, bind, lift, attr, ret, final.
  destruct (Multicast.map_entries native fields); [|reflexivity].
  destruct (Multicast.contract s); [|reflexivity].
  destruct (Multicast.flags s); [|reflexivity].
  destruct (fields !! "pitch_time_offset"); [|reflexivity].
  destruct (Multicast.midnight s); [|reflexivity].
  destruct (Multicast.pitch_time s); [|reflexivity].
  destruct (unpack_uint native 4 _); [|reflexivity].
  destruct (unpack_uint native 4 _); reflexivity.
Qed.

(** The quote [map_quote] returns carries the sequence number and the
    [Flags] instance of the session; its stamp is the wall clock unless the
    fields hold a time offset and the session a time base. *)
Lemma map_quote_ok fields s q s' :
  Multicast.map_quote native fields s = (Ok q, s') ->
  Multicast.contract s = Some (Multicast.q_contract q)
  /\ Multicast.flags s = Multicast.e_flags (Multicast.q_entry q)
  /\ (Multicast.q_ts q = Multicast.Now
      \/ (fields !! "pitch_time_offset" <> None
          /\ Multicast.pitch_time s <> None)).
Proof.
  unfold Multicast.map_quote, Multicast.get_ts, bind, lift, attr, ret.
  destruct (Multicast.map_entries native fields); [|discriminate].
  destruct (Multicast.contract s); [|discriminate].
  destruct (Multicast.flags s); [|discriminate].
  destruct (fields !! "pitch_time_offset").
  - destruct (Multicast.midnight s); [|discriminate].
    destruct (Multicast.pitch_time s); [|discriminate].
    destruct (unpack_uint native 4 _); [|discriminate].
    destruct (unpack_uint native 4 _); [|discriminate].
    intros [= <- <-]. cbn. repeat split. right. split; discriminate.
  - intros [= <- <-]. cbn. repeat split. now left.
Qed.

(** The Time handler returns no time offset. *)
Lemma msg_time_fields data s fields s' :
  Multicast.func Multicast.msg_time data s = (Ok fields, s') ->
  fields !! "pitch_time_offset" = None.
Proof.
  unfold Multicast.func, Multicast.msg_time, Multicast.body, Multicast.names,
    Multicast.get_fields.
  cbn [Multicast.get_fields_from fst snd].
  unfold bind, lift, Multicast.getitem, modify, ret.
  rewrite lookup_insert_eq. intros [= <- <-].
  now rewrite lookup_insert_ne.
Qed.

(** A message handed to a handler of the catalog adds exactly one event to
    the output: the quote written, or the report of the message discarded. *)
Lemma process_msg_header_event t h data s :
  Multicast.types_get t Multicast.types = Some h ->
  exists e s',
    Multicast.process_msg_header native write_quote h data s
    = (Ok (skipn (Multicast.msg_len h) data), s')
    /\ Multicast.output s' = Multicast.output s ++ [e]
    /\ Multicast.contract s' = Multicast.contract s
    /\ ((exists ex,
           e = Multicast.Discarded (Multicast.h_name h)
                 (Multicast.to_bstr (slice 0 (Multicast.msg_len h) data)) ex)
        \/ (exists q f,
              e = Multicast.Written q
              /\ Multicast.contract s = Some (Multicast.q_contract q)
              /\ Multicast.e_flags (Multicast.q_entry q) = Some f
              /\ no_status f
              /\ (Multicast.pitch_time s = None ->
                  Multicast.q_ts q = Multicast.Now))).
Proof.
  intros Hh.
  pose (s0 := Multicast.set_flags (Some Multicast.Flags_new) s).
  pose (msg_data := slice 0 (Multicast.msg_len h) data).
  destruct (orderly_body t h Hh
              (Multicast.get_fields msg_data (Multicast.names h)) s0
              Multicast.Flags_new eq_refl)
    as ((f1 & Hf1 & Hs1) & Ho1 & Hc1).
  specialize (Hs1 no_status_new).
  change (Multicast.output s0) with (Multicast.output s) in Ho1.
  change (Multicast.contract s0) with (Multicast.contract s) in Hc1.
  assert (Hclock : t <> 0x20 ->
            Multicast.pitch_time
              (final (Multicast.func h msg_data s0))
            = Multicast.pitch_time s).
  { intros Ht.
    exact (proj1 (keeps_body t h Hh Ht
                    (Multicast.get_fields msg_data (Multicast.names h))
                    s0)). }
  fold (Multicast.func h msg_data) in Hf1, Ho1, Hc1.
  unfold Multicast.process_msg_header, Multicast.decode_and_write.
  fold s0 msg_data.
  unfold bind at 1. unfold try_except. unfold bind at 1.
  unfold modify at 1. fold s0. unfold bind at 1.
  unfold final in *.
  destruct (Multicast.func h msg_data s0) as [[fields|e] s1] eqn:Hfunc;
    cbn [snd] in *.
  - pose proof (map_quote_final fields s1) as Hfin.
    unfold bind at 1. unfold final in Hfin.
    destruct (Multicast.map_quote native fields s1) as [[q|e] s2] eqn:Hq;
      cbn [snd] in Hfin; subst s2.
    + destruct (map_quote_ok _ _ _ _ Hq) as (Hqc & Hqf & Hqt).
      unfold bind at 1. unfold Multicast.call_write_quote at 1.
      destruct (write_quote (Multicast.output s1) q) as [e|] eqn:Hw.
      * eexists _, _. split; [reflexivity|]. cbn. rewrite Ho1.
        split; [reflexivity|]. split; [exact Hc1|]. left. now eexists.
      * eexists _, _. split; [reflexivity|]. cbn. rewrite Ho1.
        split; [reflexivity|]. split; [exact Hc1|]. right.
        exists q, f1. repeat split; try congruence.
        intros Hnone. destruct Hqt as [Hnow|[Hoff Hbase]]; [assumption|].
        exfalso. destruct (N.eq_dec t 0x20) as [->|Ht].
        -- injection Hh as <-.
           now rewrite (msg_time_fields _ _ _ _ Hfunc) in Hoff.
        -- apply Hbase. rewrite <- Hnone. now apply Hclock.
    + eexists _, _. split; [reflexivity|]. cbn. rewrite Ho1.
      split; [reflexivity|]. split; [exact Hc1|]. left. now eexists.
  - eexists _, _. split; [reflexivity|]. cbn. rewrite Ho1.
    split; [reflexivity|]. split; [exact Hc1|]. left. now eexists.
Qed.

(** One turn of the block loop: it stops on a length and type pair it
    cannot read, and otherwise moves on by the declared length, whatever
    became of the message. *)
Lemma parse_message_cases seq data offset s :
  match unpack_BB (slice offset (offset + 2) data) with
  | Raise e =>
      Multicast.parse_message native write_quote seq data offset s
      = (Raise e, Multicast.set_contract (Some seq) s)
  | Ok (mlen, mtype) =>
      Multicast.parse_message native write_quote seq data offset s
      = (Ok (offset + N.to_nat mlen)%nat,
         match Multicast.types_get mtype Multicast.types with
         | Some h =>
             final (Multicast.process_msg_header native write_quote h
                      (slice (offset + 2) (offset + N.to_nat mlen) data)
                      (Multicast.set_contract (Some seq) s))
         | None => Multicast.set_contract (Some seq) s
         end)
  end.
Proof.
  unfold Multicast.parse_message. unfold bind at 1. unfold modify at 1.
  unfold bind at 1. unfold lift at 1.
  destruct (unpack_BB (slice offset (offset + 2) data)) as [[mlen mtype]|e];
    [|reflexivity].
  destruct (Multicast.types_get mtype Multicast.types) as [h|];
    [|reflexivity].
  unfold bind at 1. unfold bind at 1.
  pose proof (mc_process_msg_header_outcome native write_quote h
                (slice (offset + 2) (offset + N.to_nat mlen) data)
                (Multicast.set_contract (Some seq) s)) as Hout.
  unfold outcome, final in *.
  destruct (Multicast.process_msg_header native write_quote h _ _)
    as [[rest|e] s1]; cbn [fst] in Hout; [reflexivity|discriminate].
Qed.

(** A time base, once recorded, stays recorded. *)
Lemma process_msg_header_base t h data s :
  Multicast.types_get t Multicast.types = Some h ->
  Multicast.pitch_time s <> None ->
  Multicast.pitch_time
    (final (Multicast.process_msg_header native write_quote h data s))
  <> None.
Proof.
  intros Hh Hbase. destruct (N.eq_dec t 0x20) as [->|Ht].
  - injection Hh as <-.
    now rewrite (proj1 (process_msg_header_time native write_quote data s)).
  - now rewrite (proj1 (process_msg_header_keeps native write_quote t h data
                          Hh Ht s)).
Qed.

Lemma parse_message_base seq data offset s :
  Multicast.pitch_time s <> None ->
  Multicast.pitch_time
    (final (Multicast.parse_message native write_quote seq data offset s))
  <> None.
Proof.
  intros Hbase. pose proof (parse_message_cases seq data offset s) as Hc.
  destruct (unpack_BB (slice offset (offset + 2) data)) as [[mlen mtype]|e];
    rewrite Hc; [|exact Hbase].
  unfold final at 1. cbn [snd].
  destruct (Multicast.types_get mtype Multicast.types) as [h|] eqn:Hh;
    [|exact Hbase].
  now apply (process_msg_header_base mtype).
Qed.

Lemma parse_messages_base n seq data :
  forall offset s,
    Multicast.pitch_time s <> None ->
    Multicast.pitch_time
      (final (Multicast.parse_messages native write_quote n seq data offset
                s))
    <> None.
Proof.
  induction n as [|n IH]; intros offset s Hbase; [exact Hbase|].
  cbn [Multicast.parse_messages]. unfold bind.
  pose proof (parse_message_base seq data offset s Hbase) as Hstep.
  unfold final in *.
  destruct (Multicast.parse_message native write_quote seq data offset s)
    as [[offset'|e] s1]; cbn [snd] in *; [|exact Hstep].
  now apply IH.
Qed.

(** What the loop over the messages of a block adds to the output: reports
    of discarded messages, and quotes under the sequence number of the
    block, with no status member set, stamped with the wall clock as long
    as the session has no time base. *)
Lemma parse_messages_events n seq data :
  forall offset s,
    exists evs,
      Multicast.output
        (final (Multicast.parse_messages native write_quote n seq data
                  offset s))
      = Multicast.output s ++ evs
      /\ Forall (fun e =>
           (exists name dump ex, e = Multicast.Discarded name dump ex)
           \/ (exists q f,
                 e = Multicast.Written q
                 /\ Multicast.q_contract q = seq
                 /\ Multicast.e_flags (Multicast.q_entry q) = Some f
                 /\ no_status f
                 /\ (Multicast.pitch_time
                       (final (Multicast.parse_messages native write_quote
                                 n seq data offset s)) = None ->
                     Multicast.q_ts q = Multicast.Now))) evs.
Proof.
  induction n as [|n IH]; intros offset s.
  - exists []. split; [now rewrite app_nil_r|constructor].
  - cbn [Multicast.parse_messages].
    pose proof (parse_message_cases seq data offset s) as Hc.
    destruct (unpack_BB (slice offset (offset + 2) data))
      as [[mlen mtype]|e].
    2:{ rewrite (bind_raise _ _ _ _ _ Hc).
        exists []. split; [now rewrite app_nil_r|constructor]. }
    destruct (Multicast.types_get mtype Multicast.types) as [h|] eqn:Hh.
    + destruct (process_msg_header_event mtype h
                  (slice (offset + 2) (offset + N.to_nat mlen) data)
                  (Multicast.set_contract (Some seq) s) Hh)
        as (e & s1 & Hrun & Hout & Hcon & He).
      rewrite Hrun in Hc. unfold final in Hc. cbn [snd] in Hc.
      rewrite (bind_ok _ _ _ _ _ Hc).
      destruct (IH (offset + N.to_nat mlen)%nat s1) as (evs & Hevs & Hall).
      exists (e :: evs). split.
      * rewrite Hevs, Hout. cbn [Multicast.output Multicast.set_contract].
        now rewrite <- app_assoc.
      * constructor; [|exact Hall].
        destruct He as [(ex & ->)|(q & f & -> & Hqc & Hqf & Hns & Hts)].
        -- left. now eexists _, _, _.
        -- right. exists q, f. repeat split; try assumption.
           ++ cbn in Hqc. now injection Hqc.
           ++ intros Hnone. apply Hts. cbn.
              destruct (Multicast.pitch_time s) eqn:Hp; [|reflexivity].
              exfalso.
              apply (parse_messages_base n seq data
                       (offset + N.to_nat mlen)%nat s1); [|exact Hnone].
              pose proof (process_msg_header_base mtype h
                            (slice (offset + 2) (offset + N.to_nat mlen)
                               data)
                            (Multicast.set_contract (Some seq) s) Hh) as Hb.
              rewrite Hrun in Hb. apply Hb. cbn. now rewrite Hp.
    + rewrite (bind_ok _ _ _ _ _ Hc).
      destruct (IH (offset + N.to_nat mlen)%nat
                  (Multicast.set_contract (Some seq) s))
        as (evs & Hevs & Hall).
      exists evs. split; [exact Hevs|exact Hall].
Qed.

End Events.

(** X5: a message handed to a handler of the multicast catalog never
    raises and returns the bytes after the declared width; it adds exactly
    one event to the output, either the quote written or the report of the
    message discarded, which carries the handler's name and the dump of
    the bytes. *)
Theorem X5_one_event_per_message (native : byteorder)
    (write_quote : list Multicast.event -> Multicast.Quote -> option pyexn)
    (t : N) (h : Multicast.handler) (data : bytes) (s : Multicast.Session) :
  Multicast.types_get t Multicast.types = Some h ->
  exists e,
    outcome (Multicast.process_msg_header native write_quote h data s)
    = Ok (skipn (Multicast.msg_len h) data)
    /\ Multicast.output
         (final (Multicast.process_msg_header native write_quote h data s))
       = Multicast.output s ++ [e]
    /\ ((exists q, e = Multicast.Written q)
        \/ (exists ex,
              e = Multicast.Discarded (Multicast.h_name h)
                    (Multicast.to_bstr
                       (slice 0 (Multicast.msg_len h) data)) ex)).
Proof.
  intros Hh.
  destruct (process_msg_header_event native write_quote t h data s Hh)
    as (e & s' & Hrun & Hout & _ & He).
  exists e. rewrite Hrun. cbn [outcome final fst snd].
  split; [reflexivity|]. split; [exact Hout|].
  destruct He as [Hd|(q & f & -> & _)]; [now right|left; now exists q].
Qed.

(** An Add Order handed to its handler. *)
Lemma X5_one_event_per_message_witness :
  exists e,
    outcome (Multicast.process_msg_header LittleEndian writer_accepts
               Multicast.msg_add_order add_order_body session_in_block)
    = Ok (skipn (Multicast.msg_len Multicast.msg_add_order) add_order_body)
    /\ Multicast.output
         (final (Multicast.process_msg_header LittleEndian writer_accepts
                   Multicast.msg_add_order add_order_body session_in_block))
       = Multicast.output session_in_block ++ [e]
    /\ ((exists q, e = Multicast.Written q)
        \/ (exists ex,
              e = Multicast.Discarded
                    (Multicast.h_name Multicast.msg_add_order)
                    (Multicast.to_bstr
                       (slice 0 (Multicast.msg_len Multicast.msg_add_order)
                          add_order_body)) ex)).
Proof.
  apply (X5_one_event_per_message LittleEndian writer_accepts 0x22).
  reflexivity.
Defined.

(** X6: whatever the bytes of a block, the loop over its messages adds to
    the output only quotes and reports of discarded messages, and every
    quote it writes carries the sequence number of the block header as its
    contract. *)
Theorem X6_quotes_carry_block_sequence (native : byteorder)
    (write_quote : list Multicast.event -> Multicast.Quote -> option pyexn)
    (n : nat) (seq : N) (data : bytes) (offset : nat)
    (s : Multicast.Session) :
  exists evs,
    Multicast.output
      (final (Multicast.parse_messages native write_quote n seq data offset
                s))
    = Multicast.output s ++ evs
    /\ Forall (fun e =>
                 match e with
                 | Multicast.Written q => Multicast.q_contract q = seq
                 | Multicast.Discarded _ _ _ => True
                 | _ => False
                 end) evs.
Proof.
  destruct (parse_messages_events native write_quote n seq data offset s)
    as (evs & Hevs & Hall).
  exists evs. split; [exact Hevs|].
  eapply Forall_impl; [exact Hall|].
  intros e [(name & dump & ex & ->)|(q & f & -> & Hq & _)];
    [exact I|exact Hq].
Qed.

(** X7: as long as the session holds no time base (no Time message has
    been handled by the end of the loop), every quote the loop over the
    messages of a block has written is stamped with the wall clock, and not
    with a time of the feed. *)
Theorem X7_no_time_base_no_feed_time (native : byteorder)
    (write_quote : list Multicast.event -> Multicast.Quote -> option pyexn)
    (n : nat) (seq : N) (data : bytes) (offset : nat)
    (s : Multicast.Session) :
  Multicast.pitch_time
    (final (Multicast.parse_messages native write_quote n seq data offset s))
  = None ->
  exists evs,
    Multicast.output
      (final (Multicast.parse_messages native write_quote n seq data offset
                s))
    = Multicast.output s ++ evs
    /\ Forall (fun e => forall q,
                 e = Multicast.Written q ->
                 Multicast.q_ts q = Multicast.Now) evs.
Proof.
  intros Hnone.
  destruct (parse_messages_events native write_quote n seq data offset s)
    as (evs & Hevs & Hall).
  exists evs. split; [exact Hevs|].
  eapply Forall_impl; [exact Hall|].
  intros e [(name & dump & ex & ->)|(q & f & -> & _ & _ & _ & Hts)] q' Hq'.
  - discriminate Hq'.
  - injection Hq' as <-. now apply Hts.
Qed.

(** A Login and an Add Order parsed before any Time message: the Login
    is written under the wall clock, the Add Order is discarded. *)
Lemma X7_no_time_base_no_feed_time_witness :
  exists evs,
    Multicast.output
      (final (Multicast.parse_messages LittleEndian writer_accepts 2 7
                (block_header ++ encode login_message
                 ++ encode add_order_message) 8
                (Multicast.set_midnight (Some 1000%Q) Multicast.Session_new)))
    = Multicast.output
        (Multicast.set_midnight (Some 1000%Q) Multicast.Session_new) ++ evs
    /\ Forall (fun e => forall q,
                 e = Multicast.Written q ->
                 Multicast.q_ts q = Multicast.Now) evs.
Proof.
  apply (X7_no_time_base_no_feed_time LittleEndian writer_accepts 2 7).
  vm_compute. reflexivity.
Defined.

(** X8: no quote written by the loop over the messages of a block carries
    a status: on its [Flags] instance the members login_status, gap_status,
    trading_status and statistics_type all read zero, whatever the status
    bytes of the messages. *)
Theorem X8_quotes_carry_no_status (native : byteorder)
    (write_quote : list Multicast.event -> Multicast.Quote -> option pyexn)
    (n : nat) (seq : N) (data : bytes) (offset : nat)
    (s : Multicast.Session) :
  exists evs,
    Multicast.output
      (final (Multicast.parse_messages native write_quote n seq data offset
                s))
    = Multicast.output s ++ evs
    /\ Forall (fun e => forall q,
                 e = Multicast.Written q ->
                 exists f,
                   Multicast.e_flags (Multicast.q_entry q) = Some f
                   /\ Multicast.flags_get "login_status" f = Some 0
                   /\ Multicast.flags_get "gap_status" f = Some 0
                   /\ Multicast.flags_get "trading_status" f = Some 0
                   /\ Multicast.flags_get "statistics_type" f = Some 0) evs.
Proof.
  destruct (parse_messages_events native write_quote n seq data offset s)
    as (evs & Hevs & Hall).
  exists evs. split; [exact Hevs|].
  eapply Forall_impl; [exact Hall|].
  intros e [(name & dump & ex & ->)|(q & f & -> & _ & Hf & Hns & _)] q' Hq'.
  - discriminate Hq'.
  - injection Hq' as <-. exists f. split; [exact Hf|].
    unfold no_status, status_members in Hns.
    repeat (apply Forall_cons in Hns as [? Hns]). auto.
Qed.

(** ** Decoding an Add Order *)

Lemma mc_get_fields_from_span data name :
  forall names start fields,
    Multicast.get_fields_from data start names fields !! name
    = match field_span names start name with
      | Some span => Some (slice span.1 span.2 data)
      | None => fields !! name
      end.
Proof.
  induction names as [|[k w] rest IH]; intros start fields; [reflexivity|].
  cbn [Multicast.get_fields_from field_span fst snd]. rewrite IH.
  destruct (field_span rest (start + w) name) as [span|]; [reflexivity|].
  destruct (String.eqb_spec k name) as [->|Hne].
  - now rewrite lookup_insert_eq.
  - now rewrite lookup_insert_ne.
Qed.

Lemma mc_get_fields_span data names name :
  Multicast.get_fields data names !! name
  = match field_span names 0 name with
    | Some span => Some (slice span.1 span.2 data)
    | None => None
    end.
Proof.
  unfold Multicast.get_fields. rewrite mc_get_fields_from_span.
  now destruct (field_span names 0 name).
Qed.

Lemma bind_lift {S A B} (r : result A) (k : A -> M S B) s a :
  r = Ok a -> bind (lift r) k s = k a s.
Proof. now intros ->. Qed.

Lemma bind_attr {S A B} (g : S -> option A) name (k : A -> M S B) s a :
  g s = Some a -> bind (attr g name) k s = k a s.
Proof. intros H. unfold bind, attr. now rewrite H. Qed.


Section AddOrder.

Variable native : byteorder.
Variable write_quote : list Multicast.event -> Multicast.Quote -> option pyexn.


(** X10: an Add Order message (short form) cut short of its 23 bytes is
    never written: whatever is left of it and whatever the session, the
    message is discarded with [struct.error], and the report dumps all of
    its bytes. *)
Theorem X10_short_add_order_is_discarded (data : bytes)
    (s : Multicast.Session) :
  (length data < 23)%nat ->
  Multicast.process_msg_header native write_quote Multicast.msg_add_order
    data s
  = (Ok [],
     Multicast.emit
       (Multicast.Discarded "msg_add_order" (Multicast.to_bstr data)
          StructError)
       (Multicast.set_flags (Some Multicast.Flags_new) s)).
Proof.
  intros Hlen.
  assert (Hcut : slice 0 23 data = data).
  { rewrite slice_take. apply take_ge. lia. }
  assert (Hrest : skipn 23 data = []).
  { apply drop_ge. lia. }
  assert (Hraise : Multicast.decode_and_write native write_quote
                     Multicast.msg_add_order data s
                   = (Raise StructError,
                      Multicast.set_flags (Some Multicast.Flags_new) s)).
  { unfold Multicast.decode_and_write, Multicast.func.
    cbn [Multicast.msg_add_order Multicast.msg_len Multicast.names
         Multicast.body].
    rewrite Hcut.
    unfold bind at 1. unfold modify at 1. unfold bind at 1. unfold ret at 1.
    set (fields := Multicast.get_fields _ _).
    assert (Fss : fields !! "pitch_shares_s"
                  = Some (slice 13 (13 + 2) data : bytes)).
    { unfold fields. now rewrite mc_get_fields_span. }
    assert (Fps : fields !! "pitch_price_s"
                  = Some (slice 21 (21 + 2) data : bytes)).
    { unfold fields. now rewrite mc_get_fields_span. }
    assert (Fsl : @lookup string bytes _ _ "pitch_shares_l" fields = None).
    { unfold fields. now rewrite mc_get_fields_span. }
    assert (Fsll : @lookup string bytes _ _ "pitch_shares_ll" fields = None).
    { unfold fields. now rewrite mc_get_fields_span. }
    assert (Fpl : @lookup string bytes _ _ "pitch_price_l" fields = None).
    { unfold fields. now rewrite mc_get_fields_span. }
    clearbody fields.
    assert (He : Multicast.map_entries native fields = Raise StructError).
    { unfold Multicast.map_entries, Multicast.map_entry,
        Multicast.short_price.
      rewrite Fss, Fsl, Fsll, Fpl, Fps.
      unfold unpack_uint. rewrite !slice_length.
      destruct (Nat.eqb_spec (Nat.min 2 (length data - 13)) 2) as [H13|H13];
        cbn [rbind]; [|reflexivity].
      destruct (Nat.eqb_spec (Nat.min 2 (length data - 21)) 2) as [H21|H21];
        cbn [rbind]; [lia|reflexivity]. }
    unfold Multicast.map_quote, bind, lift. now rewrite He. }
  unfold Multicast.process_msg_header.
  unfold bind at 1.
  rewrite (try_except_raise _ _ _ _ _ Hraise).
  unfold Multicast.report, modify, ret.
  cbn [Multicast.msg_add_order Multicast.msg_len Multicast.h_name].
  now rewrite Hcut, Hrest.
Qed.

End AddOrder.


(** An Add Order body one byte short. *)
Lemma X10_short_add_order_is_discarded_witness :
  Multicast.process_msg_header LittleEndian writer_accepts
    Multicast.msg_add_order (removelast add_order_body) session_in_block
  = (Ok [],
     Multicast.emit
       (Multicast.Discarded "msg_add_order"
          (Multicast.to_bstr (removelast add_order_body)) StructError)
       (Multicast.set_flags (Some Multicast.Flags_new) session_in_block)).
Proof.
  apply (X10_short_add_order_is_discarded LittleEndian writer_accepts).
  vm_compute. lia.
Defined.

(** ** Decoding a Trade *)






Section Trade.

Variable native : byteorder.
Variable write_quote : list Multicast.event -> Multicast.Quote -> option pyexn.


End Trade.


(** ** Sizes that are never mapped *)

Section Written.

Variable native : byteorder.
Variable write_quote : list Multicast.event -> Multicast.Quote -> option pyexn.

(** When a handler of the catalog has a quote written, the quote is the
    one [map_quote] makes of the fields the handler returned. *)
Lemma process_msg_header_written t h data s q :
  Multicast.types_get t Multicast.types = Some h ->
  Multicast.output
    (final (Multicast.process_msg_header native write_quote h data s))
  = Multicast.output s ++ [Multicast.Written q] ->
  exists fields s1,
    Multicast.func h (slice 0 (Multicast.msg_len h) data)
      (Multicast.set_flags (Some Multicast.Flags_new) s)
    = (Ok fields, s1)
    /\ Multicast.map_quote native fields s1 = (Ok q, s1).
Proof.
  intros Hh.
  pose (s0 := Multicast.set_flags (Some Multicast.Flags_new) s).
  pose (msg_data := slice 0 (Multicast.msg_len h) data).
  destruct (orderly_body t h Hh
              (Multicast.get_fields msg_data (Multicast.names h)) s0
              Multicast.Flags_new eq_refl) as (_ & Ho1 & _).
  change (Multicast.output s0) with (Multicast.output s) in Ho1.
  fold (Multicast.func h msg_data) in Ho1.
  unfold Multicast.process_msg_header, Multicast.decode_and_write.
  fold s0 msg_data.
  unfold bind at 1. unfold try_except. unfold bind at 1.
  unfold modify at 1. fold s0. unfold bind at 1.
  unfold final in *.
  destruct (Multicast.func h msg_data s0) as [[fields|e] s1] eqn:Hfunc;
    cbn [snd] in *.
  - pose proof (map_quote_final native fields s1) as Hfin.
    unfold bind at 1. unfold final in Hfin.
    destruct (Multicast.map_quote native fields s1) as [[q'|e] s2] eqn:Hq;
      cbn [snd] in Hfin; subst s2.
    + unfold bind at 1. unfold Multicast.call_write_quote at 1.
      destruct (write_quote (Multicast.output s1) q') as [e|] eqn:Hw;
        cbn; rewrite Ho1; intros Hout; apply app_inv_head in Hout;
        [discriminate Hout|].
      injection Hout as ->. now exists fields, s1.
    + cbn. rewrite Ho1. intros Hout. apply app_inv_head in Hout.
      discriminate Hout.
  - cbn. rewrite Ho1. intros Hout. apply app_inv_head in Hout.
    discriminate Hout.
Qed.

(** The entry of the quote [map_quote] returns is the one the six
    [map_entry] calls make, with the [Flags] instance stored on it. *)
Lemma map_quote_entry_of fields s q s' :
  Multicast.map_quote native fields s = (Ok q, s') ->
  exists entry f,
    Multicast.map_entries native fields = Ok entry
    /\ Multicast.q_entry q = Multicast.store_flags f entry.
Proof.
  unfold Multicast.map_quote, bind, lift, attr, ret.
  destruct (Multicast.map_entries native fields) as [entry|];
    [|discriminate].
  destruct (Multicast.contract s); [|discriminate].
  destruct (Multicast.flags s) as [f|]; [|discriminate].
  destruct (Multicast.get_ts native fields s) as [[ts|] s1]; [|discriminate].
  intros [= <- <-]. now exists entry, f.
Qed.

Lemma map_entry_keeps_size {A} fields src (fconv : bytes -> result A) store
    e e' :
  (forall v x, Multicast.e_size (store v x) = Multicast.e_size x) ->
  Multicast.map_entry fields src fconv store e = Ok e' ->
  Multicast.e_size e' = Multicast.e_size e.
Proof.
  intros Hstore. unfold Multicast.map_entry.
  destruct (fields !! src) as [x|]; [|now intros [= <-]].
  destruct (fconv x) as [v|]; cbn [rbind]; [|discriminate].
  intros [= <-]. apply Hstore.
Qed.

Lemma map_entries_no_size fields entry :
  fields !! "pitch_shares_s" = None ->
  fields !! "pitch_shares_l" = None ->
  fields !! "pitch_shares_ll" = None ->
  Multicast.map_entries native fields = Ok entry ->
  Multicast.e_size entry = None.
Proof.
  intros Hs Hl Hll. unfold Multicast.map_entries.
  unfold Multicast.map_entry at 1 2 3. rewrite Hs, Hl, Hll. cbn [rbind].
  destruct (Multicast.map_entry fields "pitch_price_l" _ _ _) as [e1|]
    eqn:E1; cbn [rbind]; [|discriminate].
  destruct (Multicast.map_entry fields "pitch_price_s" _ _ _) as [e2|]
    eqn:E2; cbn [rbind]; [|discriminate].
  intros E3.
  apply map_entry_keeps_size in E1, E2, E3; try reflexivity.
  now rewrite E3, E2, E1.
Qed.

Lemma map_entries_long_price fields entry x :
  fields !! "pitch_price_l" = Some x ->
  fields !! "pitch_price_s" = None ->
  Multicast.map_entries native fields = Ok entry ->
  exists p, Multicast.long_price native x = Ok p
            /\ Multicast.e_price entry = Some p.
Proof.
  intros Hl Hs He.
  destruct (map_entries_price native fields entry He) as [_ Hlong].
  exact (Hlong Hs x Hl).
Qed.

(** X12: the quote of an expanded Add Order or of an Order Executed at
    Price/Size message never carries a size: the layouts of the two
    handlers name their share counts [pitch_share_ls], [pitch_e_shares_l]
    and [pitch_r_shares_l], none of which [map_quote] maps, while the long
    price is mapped. *)
Theorem X12_no_size_on_expanded_add_order (h : Multicast.handler)
    (data : bytes) (s : Multicast.Session) (q : Multicast.Quote) :
  h = Multicast.msg_add_order_exp \/ h = Multicast.msg_order_executed_price ->
  Multicast.output
    (final (Multicast.process_msg_header native write_quote h data s))
  = Multicast.output s ++ [Multicast.Written q] ->
  Multicast.e_size (Multicast.q_entry q) = None
  /\ exists x p,
       Multicast.get_fields (slice 0 (Multicast.msg_len h) data)
         (Multicast.names h) !! "pitch_price_l" = Some x
       /\ Multicast.long_price native x = Ok p
       /\ Multicast.e_price (Multicast.q_entry q) = Some p.
Proof.
  intros Hh Hout.
  assert (Hcat : exists t, Multicast.types_get t Multicast.types = Some h).
  { destruct Hh as [->| ->]; [now exists 0x2f|now exists 0x24]. }
  destruct Hcat as (t & Ht).
  destruct (process_msg_header_written t h data s q Ht Hout)
    as (fields & s1 & Hfunc & Hq).
  destruct (map_quote_entry_of _ _ _ _ Hq) as (entry & f & He & Hentry).
  rewrite Hentry. cbn [Multicast.store_flags Multicast.e_size
                        Multicast.e_price].
  assert (Hfields : fields
                    = Multicast.get_fields
                        (slice 0 (Multicast.msg_len h) data)
                        (Multicast.names h)).
  { unfold Multicast.func in Hfunc. revert Hfunc.
    destruct Hh as [->| ->]; cbn [Multicast.body Multicast.msg_add_order_exp
      Multicast.msg_order_executed_price].
    - now intros [= <- _].
    - unfold bind at 1. unfold lift at 1.
      destruct (Multicast.getitem _ "flags") as [fl|]; [|discriminate].
      unfold bind at 1.
      destruct (Multicast.parse_order_execution_flag fl _) as [[[]|] s2];
        [|discriminate].
      now intros [= <- _]. }
  subst fields. split.
  - refine (map_entries_no_size _ entry _ _ _ He);
      rewrite mc_get_fields_span; destruct Hh as [->| ->]; reflexivity.
  - assert (Hpl : exists x,
              Multicast.get_fields (slice 0 (Multicast.msg_len h) data)
                (Multicast.names h) !! "pitch_price_l" = Some x).
    { rewrite mc_get_fields_span. destruct Hh as [->| ->]; now eexists. }
    destruct Hpl as (x & Hx). exists x.
    assert (Hps : Multicast.get_fields (slice 0 (Multicast.msg_len h) data)
                    (Multicast.names h) !! "pitch_price_s" = None).
    { rewrite mc_get_fields_span. destruct Hh as [->| ->]; reflexivity. }
    destruct (map_entries_long_price _ entry x Hx Hps He) as (p & Hp & Hep).
    now exists p.
Qed.

End Written.

(** An expanded Add Order of 250 shares at 1500: the quote has the
    price and no size. *)
Lemma X12_no_size_on_expanded_add_order_witness :
  Multicast.e_size
    (Multicast.q_entry
       {| Multicast.q_contract := 7;
          Multicast.q_ts :=
            Multicast.At (1000 + inject_Z 3600
                          + inject_Z 500 / inject_Z 1000)%Q;
          Multicast.q_entry :=
            {| Multicast.e_size := None;
               Multicast.e_price :=
                 Some (inject_Z 15000000 / inject_Z 10000)%Q;
               Multicast.e_side := Some (Some 1);
               Multicast.e_flags := Some Multicast.Flags_new |} |}) = None
  /\ exists x p,
       Multicast.get_fields
         (slice 0 (Multicast.msg_len Multicast.msg_add_order_exp)
            add_order_exp_body)
         (Multicast.names Multicast.msg_add_order_exp) !! "pitch_price_l"
       = Some x
       /\ Multicast.long_price LittleEndian x = Ok p
       /\ Multicast.e_price
            (Multicast.q_entry
               {| Multicast.q_contract := 7;
                  Multicast.q_ts :=
                    Multicast.At (1000 + inject_Z 3600
                                  + inject_Z 500 / inject_Z 1000)%Q;
                  Multicast.q_entry :=
                    {| Multicast.e_size := None;
                       Multicast.e_price :=
                         Some (inject_Z 15000000 / inject_Z 10000)%Q;
                       Multicast.e_side := Some (Some 1);
                       Multicast.e_flags := Some Multicast.Flags_new |} |})
          = Some p.
Proof.
  apply (X12_no_size_on_expanded_add_order LittleEndian writer_accepts
           Multicast.msg_add_order_exp add_order_exp_body session_in_block).
  - now left.
  - vm_compute. reflexivity.
Defined.

(** ** Streams of blocks *)

Lemma declared_length_encoded msgs :
  Forall well_sized msgs ->
  declared_length msgs = length (flat_map encode msgs).
Proof.
  induction 1 as [|m msgs Hm _ IH]; [reflexivity|].
  cbn [declared_length foldr flat_map]. fold (declared_length msgs).
  rewrite length_app, IH. unfold well_sized in Hm. rewrite Hm.
  reflexivity.
Qed.

Section StreamProofs.

Variable native : byteorder.
Variable write_quote : list Multicast.event -> Multicast.Quote -> option pyexn.
Variable close_quotes : list Multicast.event -> option pyexn.

(** One round of the outer loop over a buffer that starts with a block. *)
Lemma parse_blocks_step turns (hdr : bytes) (msgs : list submessage)
    (rest : bytes) (L n unit seq : N) s :
  unpack_HBBI native hdr = Ok (L, n, unit, seq) ->
  L <> 0 ->
  N.to_nat n = length msgs ->
  Forall well_sized msgs ->
  Multicast.parse_blocks native write_quote close_quotes (S turns)
    (hdr ++ flat_map encode msgs ++ rest) s
  = (run dispatch_all native write_quote seq msgs;
     run Multicast.call_close_quotes close_quotes;
     Multicast.parse_blocks native write_quote close_quotes turns
       (skipn (N.to_nat L) (hdr ++ flat_map encode msgs ++ rest))) s.
Proof.
  intros Hhdr HL Hn Hmsgs.
  pose proof (unpack_HBBI_length _ _ _ Hhdr) as Hlen.
  assert (Hinner :
    Multicast.parse_messages native write_quote (N.to_nat n) seq
      (hdr ++ flat_map encode msgs ++ rest) 8 s
    = (Ok (8 + declared_length msgs)%nat,
       final (dispatch_all native write_quote seq msgs s))).
  { rewrite Hn, <- Hlen. apply parse_messages_at. exact Hmsgs. }
  cbn [Multicast.parse_blocks].
  rewrite slice_take, <- Hlen, take_app_length.
  unfold Multicast.parse_sequence_header. rewrite Hhdr.
  unfold bind at 1. unfold lift at 1.
  apply N.eqb_neq in HL. rewrite HL.
  rewrite Hlen.
  erewrite bind_ok by exact Hinner.
  rewrite (bind_outcome_ok _ _ s tt)
    by apply dispatch_all_outcome.
  reflexivity.
Qed.

Lemma parse_blocks_tail turns (tail : bytes) s :
  (length tail < 8)%nat ->
  Multicast.parse_blocks native write_quote close_quotes (S turns) tail s
  = (Ok true, s).
Proof.
  intros Htail. cbn [Multicast.parse_blocks].
  unfold Multicast.parse_sequence_header, unpack_HBBI.
  rewrite slice_take, length_take.
  destruct (Nat.eqb_spec (Nat.min 8 (length tail)) 8) as [Heq|_]; [lia|].
  reflexivity.
Qed.

Lemma bind_ext {S A B} (m : M S A) (k1 k2 : A -> M S B) s :
  (forall a s', k1 a s' = k2 a s') -> bind m k1 s = bind m k2 s.
Proof.
  intros Hk. unfold bind. destruct (m s) as [[a|e] s']; [apply Hk|reflexivity].
Qed.

Lemma dispatch_blocks_cons {A} b blocks (k : unit -> M Multicast.Session A)
    s :
  bind (dispatch_blocks native write_quote close_quotes (b :: blocks)) k s
  = bind (Multicast.call_close_quotes close_quotes)
      (fun _ => bind (dispatch_blocks native write_quote close_quotes blocks)
                  k)
      (final (dispatch_all native write_quote (b_seq b) (b_msgs b) s)).
Proof.
  cbn [dispatch_blocks]. rewrite <- dispatch_all_catalog.
  pose proof (dispatch_all_outcome native write_quote (b_seq b) (b_msgs b) s)
    as Hout.
  unfold bind, outcome, final in *.
  destruct (dispatch_all native write_quote (b_seq b) (b_msgs b) s)
    as [[[]|e] s1]; cbn [fst snd] in *; [|discriminate].
  destruct (Multicast.call_close_quotes close_quotes s1) as [[[]|e] s2];
    reflexivity.
Qed.

Lemma parse_blocks_stream (tail : bytes) :
  (length tail < 8)%nat ->
  forall blocks turns s,
    Forall well_formed blocks ->
    (length blocks < turns)%nat ->
    Multicast.parse_blocks native write_quote close_quotes turns
      (flat_map (encode_block native) blocks ++ tail) s
    = (run dispatch_blocks native write_quote close_quotes blocks;
       ret true) s.
Proof.
  intros Htail.
  induction blocks as [|b blocks IH]; intros turns s Hwf Hturns.
  - destruct turns as [|turns]; [cbn in Hturns; lia|].
    cbn [flat_map app]. now rewrite parse_blocks_tail.
  - destruct turns as [|turns]; [cbn in Hturns; lia|].
    apply Forall_cons in Hwf as [(Hsized & HL & Hn & Hu & Hs) Hwf].
    cbn [flat_map].
    set (hdr := pack_uint native 2
                  (N.of_nat (8 + declared_length (b_msgs b)))
                ++ pack_uint native 1 (N.of_nat (length (b_msgs b)))
                ++ pack_uint native 1 (b_unit b)
                ++ pack_uint native 4 (b_seq b)).
    assert (Hhdr : unpack_HBBI native hdr
                   = Ok (N.of_nat (8 + declared_length (b_msgs b)),
                         N.of_nat (length (b_msgs b)), b_unit b, b_seq b)).
    { now apply unpack_HBBI_pack. }
    assert (Hlen : length hdr = 8%nat).
    { unfold hdr. now rewrite !length_app, !pack_uint_length. }
    replace ((encode_block native b
              ++ flat_map (encode_block native) blocks) ++ tail)
      with (hdr ++ flat_map encode (b_msgs b)
            ++ (flat_map (encode_block native) blocks ++ tail))
      by (unfold encode_block, hdr; now rewrite <- !app_assoc).
    rewrite (parse_blocks_step turns hdr (b_msgs b) _ _ _ _ _ s Hhdr);
      [|lia|apply Nat2N.id|exact Hsized].
    rewrite dispatch_blocks_cons.
    rewrite (bind_outcome_ok _ _ s tt) by apply dispatch_all_outcome.
    apply bind_ext. intros [] s2.
    rewrite Nat2N.id, (declared_length_encoded _ Hsized), <- Hlen.
    rewrite app_assoc, <- length_app.
    change (@skipn byte) with (@drop byte). rewrite drop_app_length.
    apply IH; [assumption|cbn [length] in Hturns; lia].
Qed.

End StreamProofs.

Lemma encode_block_length order b :
  (8 <= length (encode_block order b))%nat.
Proof.
  unfold encode_block. rewrite !length_app, !pack_uint_length. lia.
Qed.

Lemma encode_blocks_length order blocks :
  (length blocks <= length (flat_map (encode_block order) blocks))%nat.
Proof.
  induction blocks as [|b blocks IH]; [reflexivity|].
  cbn [flat_map length]. rewrite length_app.
  pose proof (encode_block_length order b). lia.
Qed.

(** X13: a buffer made of well-formed sequence blocks, followed by fewer
    than 8 stray bytes, is parsed block after block: the messages of each
    block are dispatched in order under its sequence number, the quotes are
    flushed once after each block, and the stray bytes are ignored without
    an error. *)
Theorem X13_parse_runs_the_blocks (native : byteorder)
    (write_quote : list Multicast.event -> Multicast.Quote -> option pyexn)
    (close_quotes : list Multicast.event -> option pyexn)
    (today : Q) (blocks : list block) (tail : bytes)
    (s : Multicast.Session) :
  Forall well_formed blocks ->
  (length tail < 8)%nat ->
  Multicast.parse native write_quote close_quotes today
    (flat_map (encode_block native) blocks ++ tail) s
  = (run modify (Multicast.set_midnight (Some today));
     run dispatch_blocks native write_quote close_quotes blocks;
     ret true) s.
Proof.
  intros Hwf Htail. unfold Multicast.parse.
  apply bind_ext. intros [] s1.
  destruct (flat_map (encode_block native) blocks ++ tail) as [|x data]
    eqn:Hdata.
  - destruct blocks as [|b blocks]; [reflexivity|].
    exfalso. apply (f_equal length) in Hdata.
    cbn [flat_map] in Hdata. rewrite !length_app in Hdata.
    pose proof (encode_block_length native b). cbn [length] in Hdata. lia.
  - rewrite <- Hdata.
    apply parse_blocks_stream; [assumption..|].
    rewrite length_app. pose proof (encode_blocks_length native blocks). lia.
Qed.

(** Two blocks followed by three stray bytes. *)
Lemma X13_parse_runs_the_blocks_witness :
  Multicast.parse LittleEndian writer_accepts closer_accepts 1000
    (flat_map (encode_block LittleEndian) two_blocks ++ [x01; x02; x03]%byte)
    Multicast.Session_new
  = (run modify (Multicast.set_midnight (Some 1000%Q));
     run dispatch_blocks LittleEndian writer_accepts closer_accepts
           two_blocks;
     ret true) Multicast.Session_new.
Proof.
  apply (X13_parse_runs_the_blocks LittleEndian writer_accepts
           closer_accepts 1000 two_blocks [x01; x02; x03]%byte
           Multicast.Session_new).
  - repeat constructor.
  - cbn. lia.
Defined.

(** X14: the loop over the blocks ends by itself on every buffer, well
    formed or not: a round that does not leave the loop takes at least one
    byte off the buffer, so that one turn per byte and one more are always
    enough, and a larger budget of turns gives the same result. *)
Theorem X14_block_loop_terminates (native : byteorder)
    (write_quote : list Multicast.event -> Multicast.Quote -> option pyexn)
    (close_quotes : list Multicast.event -> option pyexn)
    (turns : nat) (data : bytes) (s : Multicast.Session) :
  (length data < turns)%nat ->
  Multicast.parse_blocks native write_quote close_quotes turns data s
  = Multicast.parse_blocks native write_quote close_quotes
      (S (length data)) data s
  /\ outcome (Multicast.parse_blocks native write_quote close_quotes
                (S (length data)) data s) <> Ok false.
Proof.
  intros Hturns. split; [|apply parse_blocks_turns; lia].
  assert (Hany : forall t1 t2 d s',
            (length d < t1)%nat -> (length d < t2)%nat ->
            Multicast.parse_blocks native write_quote close_quotes t1 d s'
            = Multicast.parse_blocks native write_quote close_quotes t2 d s').
  { induction t1 as [|t1 IH]; intros t2 d s' H1 H2; [lia|].
    destruct t2 as [|t2]; [lia|].
    cbn [Multicast.parse_blocks].
    destruct (Multicast.parse_sequence_header native (slice 0 8 d))
      as [[[[L n] u] q]|e] eqn:Hp; [|reflexivity].
    rewrite !(bind_lift (Ok (L, n, u, q)) _ _ (L, n, u, q) eq_refl).
    cbv beta iota.
    destruct (L =? 0) eqn:HL; [reflexivity|].
    apply N.eqb_neq in HL.
    assert (Hlen : (8 <= length d)%nat).
    { unfold Multicast.parse_sequence_header in Hp.
      destruct (unpack_HBBI native (slice 0 8 d)) as [t|e] eqn:Hh.
      - apply unpack_HBBI_length in Hh.
        rewrite slice_take, length_take in Hh. lia.
      - destruct e; try discriminate Hp.
        injection Hp as <- _ _ _. now contradiction HL. }
    apply bind_ext. intros off s2. apply bind_ext. intros [] s3.
    apply IH; rewrite length_skipn; lia. }
  apply Hany; lia.
Qed.

(** A block cut inside its only message, under a budget of 100 turns. *)
Lemma X14_block_loop_terminates_witness :
  Multicast.parse_blocks LittleEndian writer_accepts closer_accepts 100
    (short_block_header ++ [x02]%byte) Multicast.Session_new
  = Multicast.parse_blocks LittleEndian writer_accepts closer_accepts
      (S (length (short_block_header ++ [x02]%byte)))
      (short_block_header ++ [x02]%byte) Multicast.Session_new
  /\ outcome (Multicast.parse_blocks LittleEndian writer_accepts
                closer_accepts
                (S (length (short_block_header ++ [x02]%byte)))
                (short_block_header ++ [x02]%byte) Multicast.Session_new)
     <> Ok false.
Proof.
  apply (X14_block_loop_terminates LittleEndian writer_accepts closer_accepts
           100 (short_block_header ++ [x02]%byte) Multicast.Session_new).
  cbn. lia.
Defined.

(** ** The handlers of the direct feed *)

Lemma direct_emit_all e evs s :
  Direct.emit e (emit_all evs s) = emit_all (evs ++ [e]) s.
Proof. unfold Direct.emit, emit_all. cbn. now rewrite <- app_assoc. Qed.

Lemma direct_emit_all_nil s : s = emit_all [] s.
Proof. destruct s. unfold emit_all. cbn. now rewrite app_nil_r. Qed.

(** A decorated decoder handed a character of a [str]: the failure is
    printed and the flag is [None]. *)
Lemma direct_decode_at_str name func (data : str) i c evs s :
  nth_error data i = Some c ->
  Direct.decode_at (Direct.flag name func) data i (emit_all evs s)
  = (Ok Direct.NoneVal,
     emit_all (evs ++ [Direct.FlagFailed name TypeError]) s).
Proof.
  intros Hc. unfold Direct.decode_at, index. rewrite Hc.
  rewrite (bind_lift (Ok c) _ _ c eq_refl). cbv beta.
  unfold bind. rewrite direct_flag_str. now rewrite direct_emit_all.
Qed.

Lemma direct_order_execution_flag_run (c0 c1 c2 : N) (more : str) s :
  Direct.parse_order_execution_flag (c0 :: c1 :: c2 :: more) s
  = (Ok (<["excum_dividen" := Direct.NoneVal]>
           (<["trading_mode" := Direct.NoneVal]>
              (<["market_mechanism" := Direct.NoneVal]> ∅))),
     emit_all (flag_failures ["market_mechanism"; "trading_mode";
                              "ex_cum_dividend"]) s).
Proof.
  unfold Direct.parse_order_execution_flag.
  cbv [Direct.market_mechanism Direct.trading_mode Direct.ex_cum_dividend].
  rewrite (direct_emit_all_nil s) at 1.
  erewrite bind_ok by (eapply direct_decode_at_str; reflexivity).
  erewrite bind_ok by (eapply direct_decode_at_str; reflexivity).
  erewrite bind_ok by (eapply direct_decode_at_str; reflexivity).
  reflexivity.
Qed.

(** X15: in the direct feed the flag bytes of a message are characters,
    and every decorated decoder fails on a character ([chr] of a [str]):
    the flag groups of Order Executed and Trade messages decode to [None]
    throughout, one failure being printed per flag, and a Trade Report
    keeps only its trade timing indicator, read from the first flag
    character; its eleventh flag character is never read. *)
Theorem X15_direct_flags_decode_to_none (c0 c1 c2 c3 c4 c5 c6 c7 c8 c9 : N)
    (more : str) (s : Direct.Session) :
  Direct.parse_order_execution_flag (c0 :: c1 :: c2 :: more) s
  = (Ok (<["excum_dividen" := Direct.NoneVal]>
           (<["trading_mode" := Direct.NoneVal]>
              (<["market_mechanism" := Direct.NoneVal]> ∅))),
     emit_all (flag_failures ["market_mechanism"; "trading_mode";
                              "ex_cum_dividend"]) s)
  /\ Direct.parse_trade_flags (c0 :: c1 :: c2 :: c3 :: more) s
     = (Ok (<["excum_dividen" := Direct.NoneVal]>
              (<["transaction_category" := Direct.NoneVal]>
                 (<["trading_mode" := Direct.NoneVal]>
                    (<["market_mechanism" := Direct.NoneVal]> ∅)))),
        emit_all (flag_failures ["market_mechanism"; "trading_mode";
                                 "transaction_category"; "ex_cum_dividend"])
          s)
  /\ Direct.parse_trade_report_flags
       (c0 :: c1 :: c2 :: c3 :: c4 :: c5 :: c6 :: c7 :: c8 :: c9 :: more) s
     = (Ok (<["offbook_automated_indicator" := Direct.NoneVal]>
           (<["publication_indicator" := Direct.NoneVal]>
           (<["excum_dividen" := Direct.NoneVal]>
           (<["benchmark_indicator" := Direct.NoneVal]>
           (<["modification_indicator" := Direct.NoneVal]>
           (<["crossing_trade" := Direct.NoneVal]>
           (<["negotiated_trade" := Direct.NoneVal]>
           (<["transaction_category" := Direct.NoneVal]>
           (<["trading_mode" := Direct.NoneVal]>
           (<["market_mechanism" := Direct.NoneVal]>
           (<["trade_timing_indicator" :=
               Direct.Int (default 3
                             (assoc_ascii c0
                                Direct.trade_timing_indicator_table))]>
              ∅))))))))))),
        emit_all (flag_failures ["market_mechanism"; "trading_mode";
                                 "transaction_category"; "negotiated_trade";
                                 "crossing_trade"; "modification_indicator";
                                 "benchmark_indicator"; "ex_cum_dividend";
                                 "publication_indicator";
                                 "offbook_automated_indicator"]) s).
Proof.
  split; [apply direct_order_execution_flag_run|split].
  - unfold Direct.parse_trade_flags.
    cbv [Direct.market_mechanism Direct.trading_mode
         Direct.transaction_category Direct.ex_cum_dividend].
    rewrite (direct_emit_all_nil s) at 1.
    erewrite bind_ok by (eapply direct_decode_at_str; reflexivity).
    erewrite bind_ok by (eapply direct_decode_at_str; reflexivity).
    erewrite bind_ok by (eapply direct_decode_at_str; reflexivity).
    erewrite bind_ok by (eapply direct_decode_at_str; reflexivity).
    reflexivity.
  - unfold Direct.parse_trade_report_flags.
    cbv [Direct.market_mechanism Direct.trading_mode
         Direct.transaction_category Direct.negotiated_trade
         Direct.crossing_trade Direct.modification_indicator
         Direct.benchmark_indicator Direct.ex_cum_dividend
         Direct.publication_indicator Direct.offbook_automated_indicator].
    rewrite (direct_emit_all_nil s) at 1.
    rewrite (bind_lift _ _ _ c0 eq_refl). cbv beta zeta.
    erewrite bind_ok by (eapply direct_decode_at_str; reflexivity).
    erewrite bind_ok by (eapply direct_decode_at_str; reflexivity).
    erewrite bind_ok by (eapply direct_decode_at_str; reflexivity).
    erewrite bind_ok by (eapply direct_decode_at_str; reflexivity).
    erewrite bind_ok by (eapply direct_decode_at_str; reflexivity).
    erewrite bind_ok by (eapply direct_decode_at_str; reflexivity).
    erewrite bind_ok by (eapply direct_decode_at_str; reflexivity).
    erewrite bind_ok by (eapply direct_decode_at_str; reflexivity).
    erewrite bind_ok by (eapply direct_decode_at_str; reflexivity).
    erewrite bind_ok by (eapply direct_decode_at_str; reflexivity).
    reflexivity.
Qed.

Section Lenient.

Variable write_quote : list Direct.event -> option pyexn.

(** A handler whose function returns without raising or printing has the
    quote written. *)
Lemma direct_func_ok h ts data fields s :
  Direct.func h (slice 0 (Direct.msg_len h) data) s = (Ok fields, s) ->
  write_quote (Direct.output s) = None ->
  Direct.process_msg_header write_quote h ts data s
  = (Ok (skipn (Direct.msg_len h) data), Direct.emit Direct.Written s).
Proof.
  intros Hfunc Hw. apply direct_process_msg_header_ok.
  unfold Direct.decode_and_write. rewrite (bind_ok _ _ _ _ _ Hfunc).
  cbv zeta. unfold Direct.call_write_quote. now rewrite Hw.
Qed.

(** X16: ten handlers of the direct feed accept any body, an empty one
    included: Clear, the three Add Order forms, the two Cancel forms, Trade
    Break, Statistics and the two Auction messages check neither the length
    nor the content of what they are handed, and the quote writer is called
    once for each. *)
Theorem X16_lenient_handlers_accept_any_body (h : Direct.handler)
    (ts : Direct.value) (data : str) (s : Direct.Session) :
  In h lenient_handlers ->
  write_quote (Direct.output s) = None ->
  Direct.process_msg_header write_quote h ts data s
  = (Ok (skipn (Direct.msg_len h) data), Direct.emit Direct.Written s).
Proof.
  intros Hin Hw.
  unfold lenient_handlers in Hin. cbn [In] in Hin.
  destruct Hin as [<-|[<-|[<-|[<-|[<-|[<-|[<-|[<-|[<-|[<-|[]]]]]]]]]]];
    (eapply direct_func_ok; [reflexivity|exact Hw]).
Qed.

End Lenient.

(** A Statistics message with an empty body. *)
Lemma X16_lenient_handlers_accept_any_body_witness :
  Direct.process_msg_header direct_writer_accepts Direct.msg_statistics
    (Direct.Date 1010) [] Direct.Session_new
  = (Ok (skipn (Direct.msg_len Direct.msg_statistics) []),
     Direct.emit Direct.Written Direct.Session_new).
Proof.
  apply (X16_lenient_handlers_accept_any_body direct_writer_accepts
           Direct.msg_statistics (Direct.Date 1010) [] Direct.Session_new).
  - cbn. tauto.
  - reflexivity.
Defined.

Section OrderExecuted.

Variable write_quote : list Direct.event -> option pyexn.

(** X17: an Order Executed line of the direct feed needs 33 characters of
    body (up to the third flag character).  With them, three decoder
    failures are printed and the quote writer is called once; with fewer,
    the handler raises, the error report raises in turn, and
    [AttributeError] leaves the dispatcher (and with it [parse]). *)
Theorem X17_order_executed_needs_33_characters (ts : Direct.value)
    (data : str) (s : Direct.Session) :
  (forall evs, write_quote evs = None) ->
  ((33 <= length data)%nat ->
   Direct.process_msg_header write_quote Direct.msg_order_executed ts data s
   = (Ok (skipn 42 data),
      Direct.emit Direct.Written
        (emit_all (flag_failures ["market_mechanism"; "trading_mode";
                                  "ex_cum_dividend"]) s)))
  /\ ((length data < 33)%nat ->
      outcome (Direct.process_msg_header write_quote
                 Direct.msg_order_executed ts data s)
      = Raise (AttributeError "to_bstr")).
Proof.
  intros Hw. split; intros Hlen.
  - apply direct_process_msg_header_ok.
    unfold Direct.decode_and_write.
    assert (Hfunc : exists fields,
              Direct.func Direct.msg_order_executed
                (slice 0 (Direct.msg_len Direct.msg_order_executed) data) s
              = (Ok fields,
                 emit_all (flag_failures ["market_mechanism"; "trading_mode";
                                          "ex_cum_dividend"]) s)).
    { do 30 (destruct data as [|? data]; [cbn [length] in Hlen; lia|]).
      destruct data as [|c0 [|c1 [|c2 data]]]; try (cbn [length] in Hlen; lia).
      eexists. unfold Direct.func.
      cbn [Direct.msg_order_executed Direct.body Direct.names
           Direct.msg_len].
      unfold Direct.replace_flags.
      rewrite (bind_lift _ _ _ (Direct.Str [c0; c1; c2]) eq_refl).
      cbv beta iota.
      rewrite (bind_ok _ _ _ _ _
                 (direct_order_execution_flag_run c0 c1 c2 [] s)).
      reflexivity. }
    destruct Hfunc as (fields & Hfunc).
    rewrite (bind_ok _ _ _ _ _ Hfunc). cbv zeta.
    unfold Direct.call_write_quote. now rewrite Hw.
  - revert Hlen.
    do 33 (destruct data as [|? data]; [intros _; reflexivity|]).
    cbn [length]. lia.
Qed.

End OrderExecuted.

(** An Order Executed body of 34 characters. *)
Lemma X17_order_executed_needs_33_characters_witness :
  ((33 <= length (lit "000000ORD001000100000000EXEC00112 "))%nat ->
   Direct.process_msg_header direct_writer_accepts Direct.msg_order_executed
     (Direct.Date 1010) (lit "000000ORD001000100000000EXEC00112 ")
     Direct.Session_new
   = (Ok (skipn 42 (lit "000000ORD001000100000000EXEC00112 ")),
      Direct.emit Direct.Written
        (emit_all (flag_failures ["market_mechanism"; "trading_mode";
                                  "ex_cum_dividend"]) Direct.Session_new)))
  /\ ((length (lit "000000ORD001000100000000EXEC00112 ") < 33)%nat ->
      outcome (Direct.process_msg_header direct_writer_accepts
                 Direct.msg_order_executed (Direct.Date 1010)
                 (lit "000000ORD001000100000000EXEC00112 ")
                 Direct.Session_new)
      = Raise (AttributeError "to_bstr")).
Proof.
  apply (X17_order_executed_needs_33_characters direct_writer_accepts
           (Direct.Date 1010) (lit "000000ORD001000100000000EXEC00112 ")
           Direct.Session_new).
  reflexivity.
Defined.

(** ** Decoding the buffer of the direct feed *)

Lemma decode_utf8_invalid :
  forall (n : nat) (bs : list N),
    (length bs <= n)%nat ->
    Exists never_in_utf8 bs ->
    Direct.decode_utf8 bs = Raise UnicodeDecodeError.
Proof.
  unfold never_in_utf8.
  induction n as [|n IH]; intros bs Hlen Hex.
  - destruct bs; [inversion Hex|cbn in Hlen; lia].
  - destruct bs as [|b0 r0]; [inversion Hex|].
    cbn [length] in Hlen. cbn [Direct.decode_utf8].
    destruct (b0 <? 128) eqn:E0.
    { apply N.ltb_lt in E0.
      rewrite IH; [reflexivity|lia|].
      apply Exists_cons in Hex as [Hb|Hr]; [lia|exact Hr]. }
    apply N.ltb_ge in E0.
    destruct ((194 <=? b0) && (b0 <=? 223)) eqn:E1.
    { apply andb_true_iff in E1 as [E1a E1b].
      apply N.leb_le in E1a, E1b.
      destruct r0 as [|b1 r1]; [reflexivity|].
      unfold Direct.continuation.
      destruct ((128 <=? b1) && (b1 <=? 191)) eqn:C1; [|reflexivity].
      apply andb_true_iff in C1 as [C1a C1b]. apply N.leb_le in C1a, C1b.
      cbn [length] in Hlen.
      rewrite IH; [reflexivity|lia|].
      apply Exists_cons in Hex as [Hb|Hr]; [lia|].
      apply Exists_cons in Hr as [Hb|Hr]; [lia|exact Hr]. }
    destruct ((224 <=? b0) && (b0 <=? 239)) eqn:E2.
    { apply andb_true_iff in E2 as [E2a E2b].
      apply N.leb_le in E2a, E2b.
      destruct r0 as [|b1 [|b2 r2]]; try reflexivity.
      unfold Direct.continuation.
      destruct (((if b0 =? 224 then 160 else 128) <=? b1)
                && (b1 <=? (if b0 =? 237 then 159 else 191))
                && ((128 <=? b2) && (b2 <=? 191))) eqn:C; [|reflexivity].
      apply andb_true_iff in C as [C12 C2].
      apply andb_true_iff in C12 as [C1a C1b].
      apply andb_true_iff in C2 as [C2a C2b].
      apply N.leb_le in C1a, C1b, C2a, C2b.
      assert (128 <= b1 <= 191)
        by (destruct (b0 =? 224), (b0 =? 237); lia).
      cbn [length] in Hlen.
      rewrite IH; [reflexivity|lia|].
      apply Exists_cons in Hex as [Hb|Hr]; [lia|].
      apply Exists_cons in Hr as [Hb|Hr]; [lia|].
      apply Exists_cons in Hr as [Hb|Hr]; [lia|exact Hr]. }
    destruct ((240 <=? b0) && (b0 <=? 244)) eqn:E3; [|reflexivity].
    apply andb_true_iff in E3 as [E3a E3b].
    apply N.leb_le in E3a, E3b.
    destruct r0 as [|b1 [|b2 [|b3 r3]]]; try reflexivity.
    unfold Direct.continuation.
    destruct (((if b0 =? 240 then 144 else 128) <=? b1)
              && (b1 <=? (if b0 =? 244 then 143 else 191))
              && ((128 <=? b2) && (b2 <=? 191))
              && ((128 <=? b3) && (b3 <=? 191))) eqn:C; [|reflexivity].
    apply andb_true_iff in C as [C123 C3].
    apply andb_true_iff in C123 as [C12 C2].
    apply andb_true_iff in C12 as [C1a C1b].
    apply andb_true_iff in C2 as [C2a C2b].
    apply andb_true_iff in C3 as [C3a C3b].
    apply N.leb_le in C1a, C1b, C2a, C2b, C3a, C3b.
    assert (128 <= b1 <= 191)
      by (destruct (b0 =? 240), (b0 =? 244); lia).
    cbn [length] in Hlen.
    rewrite IH; [reflexivity|lia|].
    apply Exists_cons in Hex as [Hb|Hr]; [lia|].
    apply Exists_cons in Hr as [Hb|Hr]; [lia|].
    apply Exists_cons in Hr as [Hb|Hr]; [lia|].
    apply Exists_cons in Hr as [Hb|Hr]; [lia|exact Hr].
Qed.

Lemma decode_utf8_ascii (bs : list N) :
  Forall (fun b => b < 128) bs -> Direct.decode_utf8 bs = Ok bs.
Proof.
  induction 1 as [|b bs Hb _ IH]; [reflexivity|].
  cbn [Direct.decode_utf8]. apply N.ltb_lt in Hb. now rewrite Hb, IH.
Qed.

(** X18: the direct parser decodes the whole buffer before it looks at a
    line.  One byte that UTF-8 never uses (0xC0, 0xC1, 0xF5 to 0xFF),
    anywhere in the buffer, makes [parse] raise [UnicodeDecodeError] with
    nothing written and nothing flushed, whatever the lines before it; a
    buffer of ASCII bytes always decodes, to the same values. *)
Theorem X18_one_bad_byte_loses_the_buffer (midnight_of : str -> result Q)
    (write_quote close_quotes : list Direct.event -> option pyexn)
    (today : Q) (bytes_data : bytes) (s : Direct.Session) :
  Exists (fun b => never_in_utf8 (Byte.to_N b)) bytes_data ->
  Direct.parse midnight_of write_quote close_quotes today bytes_data s
  = (Raise UnicodeDecodeError, Direct.set_midnight (Some today) s)
  /\ (forall ascii_data : bytes,
        Forall (fun b => Byte.to_N b < 128) ascii_data ->
        Direct.decode_utf8 (map Byte.to_N ascii_data)
        = Ok (map Byte.to_N ascii_data)).
Proof.
  intros Hbad. split.
  - unfold Direct.parse. unfold bind at 1. unfold modify at 1.
    rewrite (decode_utf8_invalid (length (map Byte.to_N bytes_data))
               (map Byte.to_N bytes_data)); [reflexivity|lia|].
    apply Exists_exists in Hbad as (b & Hin & Hb).
    apply Exists_exists. exists (Byte.to_N b). split; [|exact Hb].
    apply list_elem_of_fmap. now exists b.
  - intros ascii_data Hascii. apply decode_utf8_ascii.
    apply Forall_fmap. exact Hascii.
Qed.

(** A Clear line followed by a line that holds the byte 0xFF. *)
Lemma X18_one_bad_byte_loses_the_buffer_witness :
  Direct.parse no_calendar direct_writer_accepts direct_closer_accepts 1000
    (bytes_lit clear_line ++ [x0a; xff]%byte) Direct.Session_new
  = (Raise UnicodeDecodeError,
     Direct.set_midnight (Some 1000%Q) Direct.Session_new)
  /\ (forall ascii_data : bytes,
        Forall (fun b => Byte.to_N b < 128) ascii_data ->
        Direct.decode_utf8 (map Byte.to_N ascii_data)
        = Ok (map Byte.to_N ascii_data)).
Proof.
  apply (X18_one_bad_byte_loses_the_buffer no_calendar direct_writer_accepts
           direct_closer_accepts 1000
           (bytes_lit clear_line ++ [x0a; xff]%byte) Direct.Session_new).
  apply Exists_app. right. apply Exists_cons_tl, Exists_cons_hd.
  right. right. vm_compute. discriminate.
Defined.

(** ** The flush of the direct feed *)

Create HintDb unflushed.

Lemma unflushed_ret {A} (a : A) : unflushed (ret a).
Proof. intros s. exists []. split; [now rewrite app_nil_r|constructor]. Qed.

Lemma unflushed_raise {A} e : unflushed (@raise Direct.Session A e).
Proof. intros s. exists []. split; [now rewrite app_nil_r|constructor]. Qed.

Lemma unflushed_lift {A} (r : result A) : unflushed (lift r).
Proof. intros s. exists []. split; [now rewrite app_nil_r|constructor]. Qed.

Lemma unflushed_attr {A} (g : Direct.Session -> option A) name :
  unflushed (attr g name).
Proof.
  intros s. exists []. unfold attr.
  destruct (g s); (split; [now rewrite app_nil_r|constructor]).
Qed.

Lemma unflushed_flag_failed name ex :
  unflushed (modify (Direct.emit (Direct.FlagFailed name ex))).
Proof.
  intros s. exists [Direct.FlagFailed name ex]. split; [reflexivity|].
  repeat constructor. discriminate.
Qed.

Lemma unflushed_bind {A B} (m : M Direct.Session A)
    (k : A -> M Direct.Session B) :
  unflushed m -> (forall a, unflushed (k a)) -> unflushed (bind m k).
Proof.
  intros Hm Hk s. unfold bind.
  destruct (Hm s) as (evs & Hout & Hall). unfold final in *.
  destruct (m s) as [[a|e] s1]; cbn [snd] in *.
  - destruct (Hk a s1) as (evs' & Hout' & Hall'). unfold final in *.
    exists (evs ++ evs'). split.
    + now rewrite Hout', Hout, app_assoc.
    + now apply Forall_app.
  - now exists evs.
Qed.

Lemma unflushed_try_except {A} (m : M Direct.Session A) h :
  unflushed m -> (forall e, unflushed (h e)) -> unflushed (try_except m h).
Proof.
  intros Hm Hh s. unfold try_except.
  destruct (Hm s) as (evs & Hout & Hall). unfold final in *.
  destruct (m s) as [[a|e] s1]; cbn [snd] in *.
  - now exists evs.
  - destruct (Hh e s1) as (evs' & Hout' & Hall'). unfold final in *.
    exists (evs ++ evs'). split.
    + now rewrite Hout', Hout, app_assoc.
    + now apply Forall_app.
Qed.

#[local] Hint Resolve unflushed_ret unflushed_raise unflushed_lift
  unflushed_attr unflushed_flag_failed : unflushed.
#[local] Hint Extern 2 (unflushed (bind _ _)) =>
  apply unflushed_bind; [|intros ?] : unflushed.
#[local] Hint Extern 2 (unflushed (try_except _ _)) =>
  apply unflushed_try_except; [|intros ?] : unflushed.

Lemma unflushed_decode_at name func data i :
  unflushed (Direct.decode_at (Direct.flag name func) data i).
Proof. unfold Direct.decode_at, Direct.flag. auto 10 with unflushed. Qed.
#[local] Hint Resolve unflushed_decode_at : unflushed.

Ltac unfold_direct_decoders :=
  cbv [Direct.market_mechanism Direct.trading_mode
       Direct.transaction_category Direct.negotiated_trade
       Direct.crossing_trade Direct.modification_indicator
       Direct.benchmark_indicator Direct.ex_cum_dividend
       Direct.offbook_automated_indicator Direct.publication_indicator].

Lemma unflushed_replace_flags parse_flags fields :
  (forall data, unflushed (parse_flags data)) ->
  unflushed (Direct.replace_flags parse_flags fields).
Proof.
  intros Hp. unfold Direct.replace_flags.
  apply unflushed_bind; [auto with unflushed|]. intros fl.
  apply unflushed_bind; [|auto with unflushed].
  destruct fl; auto with unflushed.
Qed.

Lemma unflushed_parse_order_execution_flag data :
  unflushed (Direct.parse_order_execution_flag data).
Proof.
  unfold Direct.parse_order_execution_flag. unfold_direct_decoders.
  auto 20 with unflushed.
Qed.

Lemma unflushed_parse_trade_flags data :
  unflushed (Direct.parse_trade_flags data).
Proof.
  unfold Direct.parse_trade_flags. unfold_direct_decoders.
  auto 20 with unflushed.
Qed.

Lemma unflushed_parse_trade_report_flags data :
  unflushed (Direct.parse_trade_report_flags data).
Proof.
  unfold Direct.parse_trade_report_flags. unfold_direct_decoders.
  auto 40 with unflushed.
Qed.

Lemma unflushed_retable name table fields :
  unflushed (Direct.retable name table fields).
Proof. unfold Direct.retable. auto with unflushed. Qed.

#[local] Hint Resolve unflushed_retable : unflushed.
#[local] Hint Extern 1 (unflushed (Direct.replace_flags _ _)) =>
  apply unflushed_replace_flags; intros ?;
  first [apply unflushed_parse_order_execution_flag
        |apply unflushed_parse_trade_flags
        |apply unflushed_parse_trade_report_flags] : unflushed.

Section Flush.

Variable midnight_of : str -> result Q.
Variable write_quote close_quotes : list Direct.event -> option pyexn.

Lemma unflushed_body c h :
  Direct.types_get midnight_of c = Some h ->
  forall fields, unflushed (Direct.body h fields).
Proof.
  unfold Direct.types_get, Direct.types. cbn [assoc_ascii].
  repeat match goal with
         | |- (if ?c then _ else _) = _ -> _ =>
             destruct c;
             [intros [= <-] fields;
              cbn [Direct.body Direct.msg_clear Direct.msg_add_order
                   Direct.msg_add_order_long Direct.msg_add_order_exp
                   Direct.msg_order_executed Direct.msg_order_executed_long
                   Direct.msg_order_cancel Direct.msg_order_cancel_long
                   Direct.msg_trade Direct.msg_trade_long
                   Direct.msg_trade_break Direct.msg_trade_report
                   Direct.msg_trading_status Direct.msg_statistics
                   Direct.msg_auction_update Direct.msg_auction_summary];
              auto 20 with unflushed|]
         end.
  intros; discriminate.
Qed.

Lemma unflushed_call_write_quote :
  unflushed (Direct.call_write_quote write_quote).
Proof.
  intros s. unfold Direct.call_write_quote.
  destruct (write_quote (Direct.output s)).
  - exists []. split; [now rewrite app_nil_r|constructor].
  - exists [Direct.Written]. split; [reflexivity|].
    repeat constructor. discriminate.
Qed.

Lemma unflushed_process_msg_header c h ts data :
  Direct.types_get midnight_of c = Some h ->
  unflushed (Direct.process_msg_header write_quote h ts data).
Proof.
  intros Hh.
  unfold Direct.process_msg_header, Direct.decode_and_write, Direct.report,
    Direct.func.
  pose proof (unflushed_body c h Hh). pose proof unflushed_call_write_quote.
  auto 20 with unflushed.
Qed.

Lemma unflushed_parse_line msg :
  unflushed (Direct.parse_line midnight_of write_quote msg).
Proof.
  unfold Direct.parse_line. destruct msg as [|c msg]; [auto with unflushed|].
  apply unflushed_bind; [auto with unflushed|]. intros ts.
  apply unflushed_bind; [auto with unflushed|]. intros m_type.
  destruct (Direct.types_get midnight_of m_type) as [h|] eqn:Hh;
    [|auto with unflushed].
  apply unflushed_bind; [auto with unflushed|]. intros mid.
  apply unflushed_bind; [|auto with unflushed].
  now apply (unflushed_process_msg_header m_type).
Qed.

Lemma unflushed_parse_lines lines :
  unflushed (Direct.parse_lines midnight_of write_quote lines).
Proof.
  induction lines as [|msg lines IH]; cbn [Direct.parse_lines];
    [auto with unflushed|].
  apply unflushed_bind; [apply unflushed_parse_line|]. intros _. exact IH.
Qed.

(** X19: the direct parser flushes the quotes exactly once, at the very
    end, and only when it returns: what [parse] adds to the output holds no
    flush before its last event, ends with the flush when [parse] returns,
    and holds none at all when [parse] raises. *)
Theorem X19_direct_parse_flushes_once_at_the_end (today : Q)
    (bytes_data : bytes) (s : Direct.Session) :
  exists evs,
    Forall (fun e => e <> Direct.QuotesClosed) evs
    /\ Direct.output
         (final (Direct.parse midnight_of write_quote close_quotes today
                   bytes_data s))
       = Direct.output s ++ evs
         ++ match outcome (Direct.parse midnight_of write_quote close_quotes
                             today bytes_data s) with
            | Ok _ => [Direct.QuotesClosed]
            | Raise _ => []
            end.
Proof.
  unfold Direct.parse. unfold bind at 1 3. unfold modify.
  unfold bind at 1 3. unfold lift.
  destruct (Direct.decode_utf8 (map Byte.to_N bytes_data)) as [data|e].
  2:{ exists []. split; [constructor|]. cbn. now rewrite app_nil_r. }
  unfold bind.
  destruct (unflushed_parse_lines (split_on N.eqb 10 data)
              (Direct.set_midnight (Some today) s))
    as (evs & Hout & Hall).
  unfold final in Hout. cbn [Direct.output Direct.set_midnight] in Hout.
  destruct (Direct.parse_lines midnight_of write_quote
              (split_on N.eqb 10 data) (Direct.set_midnight (Some today) s))
    as [[[]|e] s1]; cbn [snd] in Hout.
  - unfold Direct.call_write_quote, Direct.call_close_quotes.
    destruct (close_quotes (Direct.output s1)) as [e|]; exists evs;
      (split; [exact Hall|]); cbn; rewrite Hout.
    + now rewrite app_nil_r.
    + now rewrite app_assoc.
  - exists evs. split; [exact Hall|]. cbn. now rewrite Hout, app_nil_r.
Qed.

End Flush.

(** ** A time base that is too short *)

Lemma field_span_named name :
  forall names start,
    In name names.*1 -> field_span names start name <> None.
Proof.
  induction names as [|[k w] rest IH]; intros start Hin; [destruct Hin|].
  cbn [field_span fst snd].
  destruct (field_span rest (start + w) name) eqn:E; [discriminate|].
  cbn [fmap list_fmap fst In] in Hin. destruct Hin as [->|Hin].
  - now rewrite String.eqb_refl.
  - exfalso. now apply (IH (start + w)%nat Hin).
Qed.

(** A handler of the catalog whose layout names a time offset returns the
    fields it extracted. *)
Lemma body_returns_fields t h fields s fields' s' :
  Multicast.types_get t Multicast.types = Some h ->
  In "pitch_time_offset" (Multicast.names h).*1 ->
  Multicast.body h fields s = (Ok fields', s') ->
  fields' = fields.
Proof.
  intros Hh Hin Hbody.
  destruct (body_fields t h fields s fields' s' Hh Hbody) as [->| ->];
    [reflexivity|].
  revert Hh Hin Hbody.
  unfold Multicast.types. cbn [Multicast.types_get].
  repeat match goal with
         | |- (if ?c then _ else _) = _ -> _ =>
             destruct c;
             [intros [= <-] Hin;
              try (cbn in Hin; exfalso; intuition discriminate);
              unfold_handlers; unfold bind, ret;
              repeat match goal with
                     | |- context [match ?m s with _ => _ end] =>
                         destruct (m s) as [[?|?] ?]
                     | |- context [match ?m ?x with _ => _ end] =>
                         destruct (m x) as [[?|?] ?]
                     end;
              intros [= <- <-] || intros [=]; auto|]
         end.
  intros; discriminate.
Qed.

Section ShortBase.

Variable native : byteorder.
Variable write_quote : list Multicast.event -> Multicast.Quote -> option pyexn.

(** [map_quote] returns a quote for fields with a time offset only under a
    time base of four bytes. *)
Lemma map_quote_base fields s q s' :
  Multicast.map_quote native fields s = (Ok q, s') ->
  fields !! "pitch_time_offset" <> None ->
  exists base, Multicast.pitch_time s = Some base /\ length base = 4%nat.
Proof.
  unfold Multicast.map_quote, Multicast.get_ts, bind, lift, attr, ret.
  destruct (Multicast.map_entries native fields); [|discriminate].
  destruct (Multicast.contract s); [|discriminate].
  destruct (Multicast.flags s); [|discriminate].
  destruct (fields !! "pitch_time_offset"); [|intros _ H; now contradiction H].
  destruct (Multicast.midnight s); [|discriminate].
  destruct (Multicast.pitch_time s) as [base|]; [|discriminate].
  unfold unpack_uint at 1.
  destruct (Nat.eqb_spec (length base) 4) as [Hlen|_]; [|discriminate].
  intros _ _. now exists base.
Qed.

(** X21: a Time message whose body is shorter than four bytes is not
    refused: the short body becomes the time base of the session, and from
    then on every message whose layout names a time offset is discarded,
    whatever its bytes. *)
Theorem X21_short_time_base_discards_timed_messages
    (time_body : bytes) (s : Multicast.Session)
    (t : N) (h : Multicast.handler) (data : bytes) :
  (length time_body < 4)%nat ->
  Multicast.types_get t Multicast.types = Some h ->
  In "pitch_time_offset" (Multicast.names h).*1 ->
  let s1 :=
    final (Multicast.process_msg_header native write_quote Multicast.msg_time
             time_body s) in
  Multicast.pitch_time s1 = Some time_body
  /\ exists ex,
       Multicast.output
         (final (Multicast.process_msg_header native write_quote h data s1))
       = Multicast.output s1
         ++ [Multicast.Discarded (Multicast.h_name h)
               (Multicast.to_bstr (slice 0 (Multicast.msg_len h) data)) ex].
Proof.
  intros Hshort Hh Hin s1.
  assert (Hbase : Multicast.pitch_time s1 = Some time_body).
  { unfold s1.
    rewrite (proj1 (process_msg_header_time native write_quote time_body s)).
    rewrite slice_take, take_ge by lia. reflexivity. }
  split; [exact Hbase|].
  assert (Ht : t <> 0x20).
  { intros ->. injection Hh as <-. cbn in Hin. intuition discriminate. }
  destruct (process_msg_header_event native write_quote t h data s1 Hh)
    as (e & s2 & Hrun & Hout & _ & [(ex & ->)|(q & f & -> & _)]).
  - exists ex. now rewrite Hrun.
  - exfalso.
    assert (Hout' : Multicast.output
                      (final (Multicast.process_msg_header native write_quote
                                h data s1))
                    = Multicast.output s1 ++ [Multicast.Written q])
      by now rewrite Hrun.
    destruct (process_msg_header_written native write_quote t h data s1 q Hh
                Hout') as (fields & s3 & Hfunc & Hq).
    pose proof (body_returns_fields t h _ _ _ _ Hh Hin Hfunc) as ->.
    destruct (map_quote_base _ _ _ _ Hq) as (base & Hb & Hlen).
    + rewrite mc_get_fields_span.
      pose proof (field_span_named "pitch_time_offset" (Multicast.names h) 0
                    Hin) as Hspan.
      destruct (field_span (Multicast.names h) 0 "pitch_time_offset");
        [discriminate|now contradiction Hspan].
    + pose proof (proj1 (keeps_body t h Hh Ht
                           (Multicast.get_fields
                              (slice 0 (Multicast.msg_len h) data)
                              (Multicast.names h))
                           (Multicast.set_flags (Some Multicast.Flags_new)
                              s1))) as Hkeep.
      unfold Multicast.func in Hfunc. rewrite Hfunc in Hkeep.
      unfold final in Hkeep. cbn [snd Multicast.pitch_time
        Multicast.set_flags] in Hkeep.
      rewrite Hkeep, Hbase in Hb. injection Hb as <-. lia.
Qed.

End ShortBase.

(** A Time message of two bytes, then an Add Order. *)
Lemma X21_short_time_base_discards_timed_messages_witness :
  let s1 :=
    final (Multicast.process_msg_header LittleEndian writer_accepts
             Multicast.msg_time [x10; x0e]%byte session_in_block) in
  Multicast.pitch_time s1 = Some [x10; x0e]%byte
  /\ exists ex,
       Multicast.output
         (final (Multicast.process_msg_header LittleEndian writer_accepts
                   Multicast.msg_add_order add_order_body s1))
       = Multicast.output s1
         ++ [Multicast.Discarded (Multicast.h_name Multicast.msg_add_order)
               (Multicast.to_bstr
                  (slice 0 (Multicast.msg_len Multicast.msg_add_order)
                     add_order_body)) ex].
Proof.
  apply (X21_short_time_base_discards_timed_messages LittleEndian
           writer_accepts [x10; x0e]%byte session_in_block 0x22
           Multicast.msg_add_order add_order_body).
  - cbn. lia.
  - reflexivity.
  - cbn. tauto.
Defined.

(** ** A length byte of zero *)

Section ZeroLength.

Variable native : byteorder.
Variable write_quote : list Multicast.event -> Multicast.Quote -> option pyexn.

(** X22: a sub-message whose length byte is zero stops the walk through
    the block: the offset does not move, so the same two bytes are read at
    every remaining turn of the loop, and when the type is in the catalog
    its handler is called with an empty body each time, adding one event
    per turn. *)
Theorem X22_zero_length_message_is_read_again (seq mtype : N)
    (h : Multicast.handler) (data : bytes) (offset : nat) :
  unpack_BB (slice offset (offset + 2) data) = Ok (0, mtype) ->
  Multicast.types_get mtype Multicast.types = Some h ->
  forall (n : nat) (s : Multicast.Session),
    outcome (Multicast.parse_messages native write_quote n seq data offset s)
    = Ok offset
    /\ exists evs,
         Multicast.output
           (final (Multicast.parse_messages native write_quote n seq data
                     offset s))
         = Multicast.output s ++ evs
         /\ length evs = n.
Proof.
  intros Hread Hh. induction n as [|n IH]; intros s.
  - split; [reflexivity|]. exists []. now rewrite app_nil_r.
  - cbn [Multicast.parse_messages].
    pose proof (parse_message_cases native write_quote seq data offset s)
      as Hc.
    rewrite Hread, Hh in Hc. cbn [N.to_nat] in Hc.
    rewrite Nat.add_0_r in Hc.
    destruct (process_msg_header_event native write_quote mtype h
                (slice (offset + 2) offset data)
                (Multicast.set_contract (Some seq) s) Hh)
      as (e & s1 & Hrun & Hout & _).
    rewrite Hrun in Hc. unfold final in Hc. cbn [snd] in Hc.
    rewrite (bind_ok _ _ _ _ _ Hc).
    destruct (IH s1) as (Hoff & evs & Hevs & Hlen).
    split; [exact Hoff|].
    exists (e :: evs). split.
    + rewrite Hevs, Hout. cbn [Multicast.output Multicast.set_contract].
      now rewrite <- app_assoc.
    + cbn [length]. now rewrite Hlen.
Qed.

End ZeroLength.

(** A block header, then an Add Order whose length byte is zero, read five
    times. *)
Lemma X22_zero_length_message_is_read_again_witness :
  outcome (Multicast.parse_messages LittleEndian writer_accepts 5 7
             (block_header ++ stuck_message) 8 session_in_block)
  = Ok 8%nat
  /\ exists evs,
       Multicast.output
         (final (Multicast.parse_messages LittleEndian writer_accepts 5 7
                   (block_header ++ stuck_message) 8 session_in_block))
       = Multicast.output session_in_block ++ evs
       /\ length evs = 5%nat.
Proof.
  apply (X22_zero_length_message_is_read_again LittleEndian writer_accepts
           7 0x22 Multicast.msg_add_order (block_header ++ stuck_message) 8);
    reflexivity.
Defined.

(** ** A whole buffer of the direct feed *)

Section DirectStream.
Variable midnight_of : str -> result Q.
Variable write_quote close_quotes : list Direct.event -> option pyexn.

(** A lenient type code has a handler, and the handler has the quote
    written whatever it is handed. *)
Lemma lenient_code_writes c :
  lenient_code c = true ->
  exists h,
    Direct.types_get midnight_of c = Some h
    /\ forall ts data s,
         write_quote (Direct.output s) = None ->
         Direct.process_msg_header write_quote h ts data s
         = (Ok (skipn (Direct.msg_len h) data),
            Direct.emit Direct.Written s).
Proof.
  unfold lenient_code, lenient_codes. cbn [map existsb N_of_ascii N_of_digits].
  intros Hc.
  repeat (apply orb_true_iff in Hc as [Hc|Hc];
          [apply N.eqb_eq in Hc; subst c; eexists;
           (split; [reflexivity|]); intros ts data s Hw;
           eapply direct_func_ok; [reflexivity|exact Hw]|]).
  discriminate Hc.
Qed.

Lemma frame_dispatch_all_accepted (today : Q) (s : Direct.Session) :
  (forall evs, write_quote evs = None) ->
  forall lines evs,
    forallb (accepted_line midnight_of) lines = true ->
    frame_dispatch_all midnight_of write_quote lines
      (emit_all evs (Direct.set_midnight (Some today) s))
    = (Ok tt,
       emit_all (evs ++ replicate (length (List.filter written_line lines))
                          Direct.Written)
         (Direct.set_midnight (Some today) s)).
Proof.
  intros Hw. induction lines as [|line lines IH]; intros evs Hacc.
  - cbn. now rewrite app_nil_r.
  - cbn [forallb] in Hacc. apply andb_true_iff in Hacc as [Hline Hacc].
    cbn [frame_dispatch_all List.filter].
    destruct line as [|c0 line].
    { cbn [written_line]. now apply IH. }
    unfold accepted_line in Hline.
    apply andb_true_iff in Hline as [_ Hcode].
    cbn [written_line].
    destruct (lenient_code (nth 9 (c0 :: line) 0)) eqn:Hlen.
    + destruct (lenient_code_writes _ Hlen) as (h & Hh & Hrun).
      unfold frame_dispatch. rewrite <- direct_types_get_catalog, Hh.
      unfold bind at 1.
      rewrite (bind_attr _ _ _ _ today) by reflexivity. cbv beta.
      unfold bind at 1. rewrite Hrun by apply Hw.
      unfold ret at 1. rewrite direct_emit_all.
      rewrite IH by assumption.
      cbn [length replicate]. rewrite <- app_assoc. reflexivity.
    + cbn [orb] in Hcode. unfold frame_dispatch.
      rewrite <- direct_types_get_catalog.
      destruct (Direct.types_get midnight_of (nth 9 (c0 :: line) 0));
        [discriminate|].
      unfold bind at 1, ret at 1. now apply IH.
Qed.

(** X23: a buffer of the direct feed whose lines are all empty, or framed
    with a lenient or an unknown type code, is parsed to the end when the
    quote writer accepts: one quote is written for each line of a lenient
    type, nothing is written for the others, and the quotes are flushed
    once after the last line. *)
Theorem X23_direct_parse_writes_one_quote_per_line (today : Q)
    (bytes_data : bytes) (text : str) (s : Direct.Session) :
  Direct.decode_utf8 (map Byte.to_N bytes_data) = Ok text ->
  (forall evs, write_quote evs = None) ->
  (forall evs, close_quotes evs = None) ->
  forallb (accepted_line midnight_of) (split_on N.eqb 10 text) = true ->
  Direct.parse midnight_of write_quote close_quotes today bytes_data s
  = (Ok tt,
     Direct.emit Direct.QuotesClosed
       (emit_all
          (replicate (length (List.filter written_line (split_on N.eqb 10 text)))
             Direct.Written)
          (Direct.set_midnight (Some today) s))).
Proof.
  intros Htext Hw Hc Hacc.
  assert (Hframed : forallb (fun line => match line with
                                         | [] => true
                                         | _ => framed line
                                         end) (split_on N.eqb 10 text)
                    = true).
  { apply forallb_forall. intros line Hin.
    rewrite forallb_forall in Hacc. specialize (Hacc line Hin).
    destruct line as [|c0 line]; [reflexivity|].
    unfold accepted_line in Hacc. now apply andb_true_iff in Hacc as [? _]. }
  unfold Direct.parse. unfold bind at 1. unfold modify at 1.
  rewrite (bind_lift _ _ _ _ Htext). cbv beta.
  rewrite (parse_lines_framed midnight_of write_quote _ Hframed).
  rewrite (direct_emit_all_nil (Direct.set_midnight (Some today) s)) at 1.
  rewrite (bind_ok _ _ _ _ _
             (frame_dispatch_all_accepted today s Hw _ [] Hacc)).
  unfold Direct.call_close_quotes. now rewrite Hc.
Qed.

End DirectStream.

(** A Clear line, an empty line and a line of an unknown type: one
    quote. *)
Lemma X23_direct_parse_writes_one_quote_per_line_witness :
  Direct.parse no_calendar direct_writer_accepts direct_closer_accepts 1000
    (bytes_lit (clear_line ++ String "010" (String "010" unknown_line)))
    Direct.Session_new
  = (Ok tt,
     Direct.emit Direct.QuotesClosed
       (emit_all
          (replicate
             (length (List.filter written_line
                        (split_on N.eqb 10
                           (lit (clear_line
                                 ++ String "010"
                                      (String "010" unknown_line))))))
             Direct.Written)
          (Direct.set_midnight (Some 1000%Q) Direct.Session_new))).
Proof.
  apply (X23_direct_parse_writes_one_quote_per_line no_calendar
           direct_writer_accepts direct_closer_accepts 1000
           (bytes_lit (clear_line ++ String "010" (String "010" unknown_line)))
           (lit (clear_line ++ String "010" (String "010" unknown_line)))
           Direct.Session_new); reflexivity.
Defined.

(** ** The Trade Report of the direct feed *)

Lemma slice_of_take {A} (a b n : nat) (l : list A) :
  (b <= n)%nat -> slice a b (take n l) = slice a b l.
Proof.
  intros Hb. unfold slice.
  change (@skipn A) with (@drop A). change (@firstn A) with (@take A).
  rewrite skipn_firstn_comm. change (@skipn A) with (@drop A).
  change (@firstn A) with (@take A).
  rewrite take_take. f_equal. lia.
Qed.

Lemma direct_get_fields_from_span data name :
  forall names start fields,
    Direct.get_fields_from data start names fields !! name
    = match field_span names start name with
      | Some span => Some (Direct.Str (slice span.1 span.2 data))
      | None => fields !! name
      end.
Proof.
  induction names as [|[k w] rest IH]; intros start fields; [reflexivity|].
  cbn [Direct.get_fields_from field_span fst snd]. rewrite IH.
  destruct (field_span rest (start + w) name) as [span|]; [reflexivity|].
  destruct (String.eqb_spec k name) as [->|Hne].
  - now rewrite lookup_insert_eq.
  - now rewrite lookup_insert_ne.
Qed.

Lemma direct_get_fields_span data names name :
  Direct.get_fields data names !! name
  = match field_span names 0 name with
    | Some span => Some (Direct.Str (slice span.1 span.2 data))
    | None => None
    end.
Proof.
  unfold Direct.get_fields. rewrite direct_get_fields_from_span.
  now destruct (field_span names 0 name).
Qed.

Lemma direct_trade_report_flags_run (c0 c1 c2 c3 c4 c5 c6 c7 c8 c9 : N)
    (more : str) s :
  exists decoded,
    Direct.parse_trade_report_flags
      (c0 :: c1 :: c2 :: c3 :: c4 :: c5 :: c6 :: c7 :: c8 :: c9 :: more) s
    = (Ok decoded,
       emit_all (flag_failures ["market_mechanism"; "trading_mode";
                                "transaction_category"; "negotiated_trade";
                                "crossing_trade"; "modification_indicator";
                                "benchmark_indicator"; "ex_cum_dividend";
                                "publication_indicator";
                                "offbook_automated_indicator"]) s).
Proof.
  eexists. unfold Direct.parse_trade_report_flags.
  cbv [Direct.market_mechanism Direct.trading_mode
       Direct.transaction_category Direct.negotiated_trade
       Direct.crossing_trade Direct.modification_indicator
       Direct.benchmark_indicator Direct.ex_cum_dividend
       Direct.publication_indicator Direct.offbook_automated_indicator].
  rewrite (direct_emit_all_nil s) at 1.
  rewrite (bind_lift _ _ _ c0 eq_refl). cbv beta zeta.
  do 10 (erewrite bind_ok by (eapply direct_decode_at_str; reflexivity)).
  reflexivity.
Qed.

Section TradeReport.

Variable midnight_of : str -> result Q.
Variable write_quote : list Direct.event -> option pyexn.

(** X24: a Trade Report line of the direct feed has its quote written only
    if its date field is read as a calendar date and its time field as an
    integer (a number of seconds): with both, 84 characters of body (up to
    the tenth flag character) and a quote writer that accepts, ten decoder
    failures are printed and the writer is called once; when the date or
    the time is refused, the handler raises, the error report raises in
    turn, and [AttributeError] leaves the dispatcher. *)
Theorem X24_trade_report_needs_a_date_and_a_time (ts : Direct.value)
    (data : str) (s : Direct.Session) :
  (forall evs, write_quote evs = None) ->
  (forall m secs,
     (84 <= length data)%nat ->
     midnight_of (slice 51 59 data) = Ok m ->
     Direct.py_int (slice 59 67 data) = Ok secs ->
     Direct.process_msg_header write_quote
       (Direct.msg_trade_report midnight_of) ts data s
     = (Ok (skipn 94 data),
        Direct.emit Direct.Written
          (emit_all (flag_failures ["market_mechanism"; "trading_mode";
                                    "transaction_category";
                                    "negotiated_trade"; "crossing_trade";
                                    "modification_indicator";
                                    "benchmark_indicator"; "ex_cum_dividend";
                                    "publication_indicator";
                                    "offbook_automated_indicator"]) s)))
  /\ (forall e,
        midnight_of (slice 51 59 data) = Raise e
        \/ Direct.py_int (slice 59 67 data) = Raise e ->
        Direct.process_msg_header write_quote
          (Direct.msg_trade_report midnight_of) ts data s
        = (Raise (AttributeError "to_bstr"), s)).
Proof.
  intros Hw.
  set (fields := Direct.get_fields (slice 0 94 data)
                   (Direct.names (Direct.msg_trade_report midnight_of))).
  assert (Fd : fields !! "date" = Some (Direct.Str (slice 51 59 data))).
  { unfold fields. rewrite direct_get_fields_span.
    cbn -[slice]. now rewrite slice_take, slice_of_take by lia. }
  assert (Ft : fields !! "time" = Some (Direct.Str (slice 59 67 data))).
  { unfold fields. rewrite direct_get_fields_span.
    cbn -[slice]. now rewrite slice_take, slice_of_take by lia. }
  assert (Ff : fields !! "flags" = Some (Direct.Str (slice 74 85 data))).
  { unfold fields. rewrite direct_get_fields_span.
    cbn -[slice]. now rewrite slice_take, slice_of_take by lia. }
  split.
  - intros m secs Hlen Hm Hsecs.
    apply direct_process_msg_header_ok.
    assert (Hflags : exists c0 c1 c2 c3 c4 c5 c6 c7 c8 c9 more,
              slice 74 85 data
              = c0 :: c1 :: c2 :: c3 :: c4 :: c5 :: c6 :: c7 :: c8 :: c9
                :: more).
    { pose proof (slice_length 74 11 data) as Hl.
      change (74 + 11)%nat with 85%nat in Hl.
      destruct (slice 74 85 data)
        as [|c0 [|c1 [|c2 [|c3 [|c4 [|c5 [|c6 [|c7 [|c8 [|c9 more]]]]]]]]]];
        cbn [length] in Hl; try lia.
      now eexists _, _, _, _, _, _, _, _, _, _, _. }
    destruct Hflags as (c0 & c1 & c2 & c3 & c4 & c5 & c6 & c7 & c8 & c9
                        & more & Hflags).
    destruct (direct_trade_report_flags_run c0 c1 c2 c3 c4 c5 c6 c7 c8 c9
                more s) as (decoded & Hrun).
    assert (Hfunc : exists fields',
      Direct.func (Direct.msg_trade_report midnight_of) (slice 0 94 data) s
      = (Ok fields',
         emit_all (flag_failures ["market_mechanism"; "trading_mode";
                                  "transaction_category"; "negotiated_trade";
                                  "crossing_trade"; "modification_indicator";
                                  "benchmark_indicator"; "ex_cum_dividend";
                                  "publication_indicator";
                                  "offbook_automated_indicator"]) s)).
    { eexists. change (Direct.func _ _)
        with (Direct.body (Direct.msg_trade_report midnight_of) fields).
      cbn [Direct.msg_trade_report Direct.body].
      unfold Direct.getitem at 1. rewrite Fd.
      rewrite (bind_lift _ _ _ _ eq_refl).
      rewrite (bind_lift _ _ _ _ Hm).
      unfold Direct.getitem at 1. rewrite Ft.
      rewrite (bind_lift _ _ _ _ eq_refl).
      rewrite (bind_lift _ _ _ _ Hsecs). cbv zeta.
      unfold Direct.replace_flags, Direct.getitem.
      rewrite !lookup_delete_ne, lookup_insert_ne, Ff by discriminate.
      rewrite (bind_lift _ _ _ _ eq_refl).
      rewrite Hflags. rewrite (bind_ok _ _ _ _ _ Hrun). reflexivity. }
    destruct Hfunc as (fields' & Hfunc).
    unfold Direct.decode_and_write.
    change (Direct.msg_len (Direct.msg_trade_report midnight_of))
      with 94%nat.
    rewrite (bind_ok _ _ _ _ _ Hfunc). cbv zeta.
    unfold Direct.call_write_quote. now rewrite Hw.
  - intros e Hbad.
    assert (Hfunc : exists e',
      Direct.func (Direct.msg_trade_report midnight_of) (slice 0 94 data) s
      = (Raise e', s)).
    { change (Direct.func _ _)
        with (Direct.body (Direct.msg_trade_report midnight_of) fields).
      cbn [Direct.msg_trade_report Direct.body].
      unfold Direct.getitem at 1. rewrite Fd.
      rewrite (bind_lift _ _ _ _ eq_refl).
      destruct (midnight_of (slice 51 59 data)) as [m|e1] eqn:Hm.
      - destruct Hbad as [Hbad|Hbad]; [discriminate|].
        exists e. rewrite (bind_lift _ _ _ _ eq_refl).
        unfold Direct.getitem at 1. rewrite Ft.
        rewrite (bind_lift _ _ _ _ eq_refl).
        unfold bind, lift. now rewrite Hbad.
      - exists e1. reflexivity. }
    destruct Hfunc as (e' & Hfunc).
    apply (direct_process_msg_header_raise write_quote _ ts data s e' s).
    unfold Direct.decode_and_write.
    change (Direct.msg_len (Direct.msg_trade_report midnight_of))
      with 94%nat.
    apply (bind_raise _ _ _ _ _ Hfunc).
Qed.

End TradeReport.

(** A Trade Report dated 1 January 1970. *)
Lemma X24_trade_report_needs_a_date_and_a_time_witness :
  Direct.process_msg_header direct_writer_accepts
    (Direct.msg_trade_report epoch_calendar) (Direct.Int 10)
    (lit trade_report_body) Direct.Session_new
  = (Ok [],
     Direct.emit Direct.Written
       (emit_all (flag_failures ["market_mechanism"; "trading_mode";
                                 "transaction_category"; "negotiated_trade";
                                 "crossing_trade"; "modification_indicator";
                                 "benchmark_indicator"; "ex_cum_dividend";
                                 "publication_indicator";
                                 "offbook_automated_indicator"])
          Direct.Session_new)).
Proof.
  apply (proj1 (X24_trade_report_needs_a_date_and_a_time epoch_calendar
                  direct_writer_accepts (Direct.Int 10)
                  (lit trade_report_body) Direct.Session_new
                  (fun _ => eq_refl)) 0%Q 34200%Z).
  - vm_compute. lia.
  - reflexivity.
  - reflexivity.
Defined.
